(** * auth-service: the authentication core, embedded and verified

    The development follows [internal/logic/v1] (the sentinel errors and the
    repository-injected [AuthService]), the repository contracts of
    [internal/core/domain] and their pgx implementations of
    [internal/core/repository].

    The service talks to four collaborators: the user store, the session
    store, the bcrypt hasher and the wall clock.  A service method is a
    finite program over calls to them ([Prog]); a [Handler] answers the
    calls and threads the collaborators' state, so every statement below
    about "any store" quantifies over handlers. *)

From Stdlib Require Import ZArith List String Ascii Bool Lia.
From Stdlib Require Import DecimalString DecimalZ DecimalPos.
Import ListNotations.

Local Open Scope string_scope.
Local Open Scope Z_scope.

(** ** Errors (logic/v1/errors.go) *)

(** The eight [errors.New] values of the package. *)
Inductive sentinel : Type :=
| ErrInvalidCredentials
| ErrUserNotFound
| ErrPasswordExpired
| ErrAccountLocked
| ErrUnauthorized
| ErrUserExists
| ErrSessionNotFound
| ErrSessionExpired.

(** What golang.org/x/crypto/bcrypt reports. *)
Inductive bcryptError : Type :=
| ErrMismatchedHashAndPassword
| ErrHashTooShort
| ErrPasswordTooLong
| InvalidHashPrefixError
| InvalidCostError.

(** A value printed by a [fmt.Errorf] verb. *)
Inductive fmtArg : Type :=
| ArgString (s : string)
| ArgTime (t : Z).

(** Go [error] values met by the service.  [Errorf format args wrapped] is
    [fmt.Errorf(format, args..., wrapped)] with one [%w] verb; the format is
    kept with its arguments rather than rendered. *)
Inductive error : Type :=
| Sentinel (e : sentinel)
| Bcrypt (e : bcryptError)
| PgError (code : string)
| IOError (msg : string)
| Errorf (format : string) (args : list fmtArg) (wrapped : error).

Definition sentinel_eqb (a b : sentinel) : bool :=
  match a, b with
  | ErrInvalidCredentials, ErrInvalidCredentials
  | ErrUserNotFound, ErrUserNotFound
  | ErrPasswordExpired, ErrPasswordExpired
  | ErrAccountLocked, ErrAccountLocked
  | ErrUnauthorized, ErrUnauthorized
  | ErrUserExists, ErrUserExists
  | ErrSessionNotFound, ErrSessionNotFound
  | ErrSessionExpired, ErrSessionExpired => true
  | _, _ => false
  end.

(** [errors.Is(err, target)] for a sentinel target: compare, then unwrap. *)
Fixpoint errors_Is (err : error) (target : sentinel) : bool :=
  match err with
  | Sentinel e => sentinel_eqb e target
  | Errorf _ _ wrapped => errors_Is wrapped target
  | Bcrypt _ | PgError _ | IOError _ => false
  end.

(** A Go [(T, error)] pair as the callers consume it: the error is looked
    at first, the value only when it is nil. *)
Inductive Result (A : Type) : Type :=
| Ok (a : A)
| Err (e : error).
Arguments Ok {A} a.
Arguments Err {A} e.

(** PostgreSQL's unique_violation and foreign_key_violation. *)
Definition unique_violation : string := "23505".
Definition foreign_key_violation : string := "23503".

(** ** Time *)

(** An instant, in nanoseconds since the Unix epoch. *)
Definition Time : Type := Z.

Definition Second : Z := 1000000000.
Definition Hour : Z := 3600 * Second.

(** [t.Unix()], [t.Add(d)], [t.After(u)]. *)
Definition Unix (t : Time) : Z := t / Second.
Definition Add (t : Time) (d : Z) : Time := t + d.
Definition After (t u : Time) : bool := u <? t.

(** ** Value objects (internal/core/domain) *)

Module UserRow.
Record t : Type := mk
  { ID : Z; Username : string; Email : string; PasswordHash : string }.
End UserRow.

Module SessionRow.
Record t : Type := mk
  { UserID : Z; Username : string; Email : string; ExpiresAt : Time }.
End SessionRow.

Module User.
Record t : Type := mk { ID : string; Username : string; Email : string }.
End User.

Module AuthResponse.
Record t : Type := mk { Token : string; User : User.t }.
End AuthResponse.

Module LoginRequest.
Record t : Type := mk { Username : string; Password : string }.
End LoginRequest.

Module RegisterRequest.
Record t : Type := mk
  { Username : string; Email : string; Password : string }.
End RegisterRequest.

(** ** strconv and fmt *)

(** [strconv.Itoa]. *)
Definition Itoa (n : Z) : string := NilZero.string_of_int (Z.to_int n).

(** [fmt.Sprintf("jwt-token-v1-%d-%d", userID, time.Now().Unix())]. *)
Definition Sprintf_token (userID unix : Z) : string :=
  "jwt-token-v1-" ++ Itoa userID ++ "-" ++ Itoa unix.

(** [bcrypt.DefaultCost]. *)
Definition DefaultCost : Z := 10.

(** ** Collaborator calls *)

(** One constructor per method of [domain.UserRepository] and
    [domain.SessionRepository], per bcrypt function the service uses, and
    [time.Now]; the index is the Go return type. *)
Inductive Op : Type -> Type :=
| UsersGetByUsername (username : string) : Op (Result (option UserRow.t))
| UsersExistsByUsernameOrEmail (username email : string) : Op (Result bool)
| UsersCreate (username email passwordHash : string) : Op (Result Z)
| UsersUpdateLastLogin (userID : Z) : Op (option error)
| SessionsCreate (userID : Z) (token : string) (expiresAt : Time)
  : Op (option error)
| SessionsGetUserByToken (token : string) : Op (Result (option SessionRow.t))
| GenerateFromPassword (password : string) (cost : Z) : Op (Result string)
| CompareHashAndPassword (hashedPassword password : string)
  : Op (option error)
| Now : Op Time.

(** What the service tells its tracing span. *)
Inductive attribute : Type :=
| AttrString (key value : string)
| AttrBool (key : string) (value : bool).

Inductive SpanEvent : Type :=
| StartSpan (name : string) (attrs : list attribute)
| SpanEnd
| RecordError (err : error)
| SetAttributes (attrs : list attribute)
| AddEvent (name : string).

(** A service method: returns, calls a collaborator and continues with its
    answer, or reports to the span and continues. *)
Inductive Prog (A : Type) : Type :=
| Ret (a : A)
| Call {X : Type} (op : Op X) (k : X -> Prog A)
| Span (ev : SpanEvent) (k : Prog A).
Arguments Ret {A} a.
Arguments Call {A X} op k.
Arguments Span {A} ev k.

Fixpoint bind {A B : Type} (p : Prog A) (f : A -> Prog B) : Prog B :=
  match p with
  | Ret a => f a
  | Call op k => Call op (fun x => bind (k x) f)
  | Span ev k => Span ev (bind k f)
  end.

Definition call {X : Type} (op : Op X) : Prog X := Call op Ret.
Definition span (ev : SpanEvent) : Prog unit := Span ev (Ret tt).

Declare Scope prog_scope.
Delimit Scope prog_scope with prog.
Notation "x <- c ;; k" := (bind c (fun x => k))
  (at level 61, c at next level, right associativity) : prog_scope.
Notation "c ;; k" := (bind c (fun _ => k))
  (at level 61, right associativity) : prog_scope.
Local Open Scope prog_scope.

(** [defer span.End()]: the span is ended on every return path. *)
Definition deferSpanEnd {A : Type} (body : Prog A) : Prog A :=
  r <- body ;; span SpanEnd ;; Ret r.

(** ** Running a program *)

(** The collaborators: each call is answered from a state and changes it. *)
Definition Handler (S : Type) : Type := forall X : Type, Op X -> S -> X * S.

(** What a run leaves behind, in order. *)
Inductive Event : Type :=
| Invoke {X : Type} (op : Op X)
| Traced (ev : SpanEvent).

Record Outcome (S A : Type) : Type := mkOutcome
  { result : A; final : S; trace : list Event }.
Arguments mkOutcome {S A} result final trace.
Arguments result {S A} o.
Arguments final {S A} o.
Arguments trace {S A} o.

Fixpoint run {S A : Type} (h : Handler S) (p : Prog A) (s : S)
  : Outcome S A :=
  match p with
  | Ret a => mkOutcome a s []
  | Call op k =>
      let xs := h _ op s in
      let o := run h (k (fst xs)) (snd xs) in
      mkOutcome (result o) (final o) (Invoke op :: trace o)
  | Span ev k =>
      let o := run h k s in
      mkOutcome (result o) (final o) (Traced ev :: trace o)
  end.

Definition isUsersCreate (ev : Event) : bool :=
  match ev with
  | Invoke (UsersCreate _ _ _) => true
  | _ => false
  end.

(** What the collaborators answer to a call made in a state, and the state
    they are in afterwards. *)
Definition answer {S X : Type} (h : Handler S) (op : Op X) (s : S) : X :=
  fst (h X op s).

Definition after {S X : Type} (h : Handler S) (op : Op X) (s : S) : S :=
  snd (h X op s).

(** ** The service (logic/v1, [AuthService]) *)

(** Login handles user login business logic. *)
Definition Login (req : LoginRequest.t) : Prog (Result AuthResponse.t) :=
  let username := LoginRequest.Username req in
  span (StartSpan "auth.login"
          [AttrString "layer" "logic"; AttrString "username" username]) ;;
  deferSpanEnd (
    (* Lookup user by username via repository *)
    got <- call (UsersGetByUsername username) ;;
    match got with
    | Err err =>
        span (RecordError err) ;;
        Ret (Err (Errorf "query user %q: %w" [ArgString username] err))
    | Ok None =>
        span (SetAttributes [AttrBool "auth.success" false]) ;;
        span (AddEvent "authentication.failed") ;;
        Ret (Err (Errorf "authenticate user %q: %w" [ArgString username]
                    (Sentinel ErrUserNotFound)))
    | Ok (Some row) =>
        (* Verify password *)
        err <- call (CompareHashAndPassword (UserRow.PasswordHash row)
                       (LoginRequest.Password req)) ;;
        match err with
        | Some _ =>
            span (SetAttributes [AttrBool "auth.success" false]) ;;
            span (AddEvent "authentication.failed") ;;
            Ret (Err (Errorf "authenticate user %q: %w" [ArgString username]
                        (Sentinel ErrInvalidCredentials)))
        | None =>
            (* Update last_login timestamp (best-effort, don't fail login) *)
            updateErr <- call (UsersUpdateLastLogin (UserRow.ID row)) ;;
            match updateErr with
            | Some e => span (RecordError (Errorf "update last_login: %w" [] e))
            | None => Ret tt
            end ;;
            (* Create session token *)
            now1 <- call Now ;;
            let token := Sprintf_token (UserRow.ID row) (Unix now1) in
            (* Persist session (best-effort, don't fail login) *)
            now2 <- call Now ;;
            let expiresAt := Add now2 (24 * Hour) in
            sessErr <- call (SessionsCreate (UserRow.ID row) token expiresAt) ;;
            match sessErr with
            | Some e => span (RecordError (Errorf "create session: %w" [] e))
            | None => Ret tt
            end ;;
            let user := User.mk (Itoa (UserRow.ID row))
                          (UserRow.Username row) (UserRow.Email row) in
            let response := AuthResponse.mk token user in
            span (SetAttributes [AttrString "user.id" (User.ID user);
                                 AttrBool "auth.success" true]) ;;
            span (AddEvent "user.authenticated") ;;
            Ret (Ok response)
        end
    end).

(** Register handles user registration business logic. *)
Definition Register (req : RegisterRequest.t) : Prog (Result AuthResponse.t) :=
  let username := RegisterRequest.Username req in
  let email := RegisterRequest.Email req in
  span (StartSpan "auth.register"
          [AttrString "layer" "logic"; AttrString "username" username;
           AttrString "email" email]) ;;
  deferSpanEnd (
    (* Hash password *)
    hashed <- call (GenerateFromPassword (RegisterRequest.Password req)
                      DefaultCost) ;;
    match hashed with
    | Err err =>
        span (RecordError err) ;;
        Ret (Err (Errorf "hash password: %w" [] err))
    | Ok passwordHash =>
        (* Check if username or email already exists *)
        found <- call (UsersExistsByUsernameOrEmail username email) ;;
        match found with
        | Err err =>
            span (RecordError err) ;;
            Ret (Err (Errorf "check existing user: %w" [] err))
        | Ok true =>
            span (SetAttributes [AttrBool "registration.success" false]) ;;
            Ret (Err (Errorf "register user %q: %w" [ArgString username]
                        (Sentinel ErrUserExists)))
        | Ok false =>
            (* Insert new user *)
            created <- call (UsersCreate username email passwordHash) ;;
            match created with
            | Err err =>
                span (RecordError err) ;;
                Ret (Err (Errorf "insert user: %w" [] err))
            | Ok userID =>
                (* Create session token (simplified stub) *)
                now1 <- call Now ;;
                let token := Sprintf_token userID (Unix now1) in
                (* Persist session (best-effort) *)
                now2 <- call Now ;;
                let expiresAt := Add now2 (24 * Hour) in
                sessErr <- call (SessionsCreate userID token expiresAt) ;;
                match sessErr with
                | Some e =>
                    span (RecordError (Errorf "create session: %w" [] e))
                | None => Ret tt
                end ;;
                let user := User.mk (Itoa userID) username email in
                let response := AuthResponse.mk token user in
                span (SetAttributes [AttrString "user.id" (User.ID user);
                                     AttrBool "registration.success" true]) ;;
                span (AddEvent "user.registered") ;;
                Ret (Ok response)
            end
        end
    end).

(** GetUserByToken retrieves user info from a session token. *)
Definition GetUserByToken (token : string) : Prog (Result User.t) :=
  span (StartSpan "auth.get_user_by_token" [AttrString "layer" "logic"]) ;;
  deferSpanEnd (
    got <- call (SessionsGetUserByToken token) ;;
    match got with
    | Err err =>
        span (RecordError err) ;;
        Ret (Err (Errorf "query session: %w" [] err))
    | Ok None =>
        span (SetAttributes [AttrBool "session.valid" false]) ;;
        Ret (Err (Errorf "lookup session: %w" [] (Sentinel ErrSessionNotFound)))
    | Ok (Some row) =>
        (* Check if session has expired *)
        now <- call Now ;;
        if After now (SessionRow.ExpiresAt row) then
          span (SetAttributes [AttrBool "session.valid" false]) ;;
          Ret (Err (Errorf "session expired at %v: %w"
                      [ArgTime (SessionRow.ExpiresAt row)]
                      (Sentinel ErrSessionExpired)))
        else
          let user := User.mk (Itoa (SessionRow.UserID row))
                        (SessionRow.Username row) (SessionRow.Email row) in
          span (SetAttributes [AttrString "user.id" (User.ID user);
                               AttrBool "session.valid" true]) ;;
          Ret (Ok user)
    end).

(** The collaborators' state when Login reads the clock for the token:
    after the lookup that returned [row], the verification and the
    last-login update. *)
Definition Login_atToken {S : Type} (h : Handler S) (req : LoginRequest.t)
  (row : UserRow.t) (s : S) : S :=
  after h (UsersUpdateLastLogin (UserRow.ID row))
    (after h (CompareHashAndPassword (UserRow.PasswordHash row)
                (LoginRequest.Password req))
       (after h (UsersGetByUsername (LoginRequest.Username req)) s)).

(** The collaborators' state when Register asks the store to create the
    user, and when it then reads the clock for the token. *)
Definition Register_atCreate {S : Type} (h : Handler S)
  (req : RegisterRequest.t) (s : S) : S :=
  after h (UsersExistsByUsernameOrEmail (RegisterRequest.Username req)
             (RegisterRequest.Email req))
    (after h (GenerateFromPassword (RegisterRequest.Password req) DefaultCost)
       s).

Definition Register_atToken {S : Type} (h : Handler S)
  (req : RegisterRequest.t) (passwordHash : string) (s : S) : S :=
  after h (UsersCreate (RegisterRequest.Username req)
             (RegisterRequest.Email req) passwordHash)
    (Register_atCreate h req s).

(** ** The credential hasher *)

(** The two bcrypt functions the service calls: hashing draws a salt,
    verification is a function of the digest and the plaintext. *)
Record Hasher : Type := mkHasher
  { hash : string -> Z -> string -> Result string;
    verify : string -> string -> option error }.


Fixpoint skip (n : nat) (s : string) : string :=
  match n, s with
  | O, _ => s
  | S n', String _ s' => skip n' s'
  | S _, EmptyString => EmptyString
  end.

Definition saltLength : nat := 22.
Definition digestPrefix : string := "$2a$10$".

(** Modelled from the spec: a Credential Hasher with the shape §4.1 asks for
    (bcrypt itself is not part of the repository): the digest describes
    itself by a version-and-cost prefix, carries its salt, and ends in a tag
    computed from the plaintext; verification recomputes the tag and
    compares.  A digest too short to hold prefix and salt, or with another
    prefix, is a verification failure, not a mismatch.  The tag is the
    plaintext itself, which is all the scenarios below need. *)
Definition specHasher : Hasher :=
  {| hash := fun password _ salt =>
       if (72 <? String.length password)%nat
       then Err (Bcrypt ErrPasswordTooLong)
       else if negb (String.length salt =? saltLength)%nat
       then Err (IOError "unexpected EOF")
       else Ok (digestPrefix ++ salt ++ password);
     verify := fun digest password =>
       if (String.length digest <? String.length digestPrefix + saltLength)%nat
       then Some (Bcrypt ErrHashTooShort)
       else if negb (String.prefix digestPrefix digest)
       then Some (Bcrypt InvalidHashPrefixError)
       else if String.eqb
                 (skip (String.length digestPrefix + saltLength) digest)
                 password
       then None
       else Some (Bcrypt ErrMismatchedHashAndPassword) |}.


(** ** The database and the pgx repositories (internal/core/repository) *)

(** The two tables of the schema, with the columns the queries touch. *)
Record usersRow : Type := mkUsersRow
  { users_id : Z;
    users_username : string;
    users_email : string;
    users_password_hash : string;
    users_created_at : Time;
    users_last_login : option Time }.

Record sessionsRow : Type := mkSessionsRow
  { sessions_id : Z;
    sessions_user_id : Z;
    sessions_token : string;
    sessions_expires_at : Time;
    sessions_created_at : Time }.

(** The state behind the collaborators: the tables with their SERIAL
    sequences (the last value handed out), the clock, and the salts the
    random source will deliver.  Of the schema the model keeps the keys
    ([users.id], [users.username], [users.email], [sessions.id] and
    [sessions.token] are unique, and [sessions.user_id] references
    [users.id]), the widths of the VARCHAR columns and the resolution of the
    TIMESTAMP columns.  Identifiers are taken within the range of INTEGER,
    and the database's CURRENT_TIMESTAMP to read the service's clock.  The
    service runs in UTC, as the container of its Dockerfile does, so that a
    TIMESTAMP read back is the instant that was written, to the
    microsecond. *)
Record World : Type := mkWorld
  { users : list usersRow;
    users_id_seq : Z;
    sessions : list sessionsRow;
    sessions_id_seq : Z;
    clock : Time;
    entropy : list string }.

Definition setUsers (w : World) (us : list usersRow) (seq : Z) : World :=
  mkWorld us seq (sessions w) (sessions_id_seq w) (clock w) (entropy w).

Definition setSessions (w : World) (ss : list sessionsRow) (seq : Z) : World :=
  mkWorld (users w) (users_id_seq w) ss seq (clock w) (entropy w).

Definition setEntropy (w : World) (salts : list string) : World :=
  mkWorld (users w) (users_id_seq w) (sessions w) (sessions_id_seq w)
    (clock w) salts.

(** Time passing between two calls. *)
Definition elapse (d : Z) (w : World) : World :=
  mkWorld (users w) (users_id_seq w) (sessions w) (sessions_id_seq w)
    (clock w + d) (entropy w).

(** *** Text and timestamps as PostgreSQL keeps them *)

Definition string_data_right_truncation : string := "22001".
Definition character_not_in_repertoire : string := "22021".

Definition inRange (lo hi : N) (b : ascii) : bool :=
  ((lo <=? N_of_ascii b) && (N_of_ascii b <=? hi))%N.

Definition isTail (b : ascii) : bool := inRange 128 191 b.

(** The first two bytes of a three-byte and of a four-byte character, by
    the table of RFC 3629: no overlong form, no surrogate, nothing beyond
    U+10FFFF. *)
Definition opens3 (b0 b1 : ascii) : bool :=
  (inRange 224 224 b0 && inRange 160 191 b1)
  || (inRange 225 236 b0 && isTail b1)
  || (inRange 237 237 b0 && inRange 128 159 b1)
  || (inRange 238 239 b0 && isTail b1).

Definition opens4 (b0 b1 : ascii) : bool :=
  (inRange 240 240 b0 && inRange 144 191 b1)
  || (inRange 241 243 b0 && isTail b1)
  || (inRange 244 244 b0 && inRange 128 143 b1).

(** The characters of a text value sent in UTF-8, each with its bytes.  A
    byte sequence that is not UTF-8, or that holds a zero byte, is no text
    value: the server refuses the statement that carries it. *)
Fixpoint characters (s : string) : option (list string) :=
  match s with
  | EmptyString => Some []
  | String b0 s1 =>
      if inRange 1 127 b0
      then option_map (cons (String b0 "")) (characters s1)
      else
        match s1 with
        | EmptyString => None
        | String b1 s2 =>
            if inRange 194 223 b0 && isTail b1
            then option_map (cons (String b0 (String b1 ""))) (characters s2)
            else
              match s2 with
              | EmptyString => None
              | String b2 s3 =>
                  if opens3 b0 b1 && isTail b2
                  then option_map (cons (String b0 (String b1 (String b2 ""))))
                         (characters s3)
                  else
                    match s3 with
                    | EmptyString => None
                    | String b3 s4 =>
                        if opens4 b0 b1 && isTail b2 && isTail b3
                        then option_map
                               (cons (String b0 (String b1 (String b2
                                                              (String b3 "")))))
                               (characters s4)
                        else None
                    end
              end
        end
  end.

Definition isBlank (ch : string) : bool := String.eqb ch " ".

(** What a VARCHAR(n) column makes of a value assigned to it: a value of at
    most [n] characters is kept as given; a longer one is refused, unless
    all that exceeds is blanks, when it is kept cut to [n] characters. *)
Definition varchar (n : nat) (value : string) : Result string :=
  match characters value with
  | None => Err (PgError character_not_in_repertoire)
  | Some chars =>
      if (List.length chars <=? n)%nat
      then Ok value
      else if forallb isBlank (skipn n chars)
      then Ok (String.concat "" (firstn n chars))
      else Err (PgError string_data_right_truncation)
  end.

(** A text parameter the server accepts in a WHERE clause. *)
Definition isText (value : string) : bool :=
  match characters value with
  | Some _ => true
  | None => false
  end.

(** A text value of at most [n] characters: what a VARCHAR(n) column keeps
    as given. *)
Definition fits (n : nat) (value : string) : bool :=
  match characters value with
  | Some chars => (List.length chars <=? n)%nat
  | None => false
  end.

Definition Microsecond : Z := 1000.

(** What a TIMESTAMP column keeps of an instant: its whole microseconds. *)
Definition timestamp (t : Time) : Time := t / Microsecond * Microsecond.

(** The WHERE clauses of the queries, and the keys an INSERT must not
    repeat. *)
Definition usernameIs (username : string) (r : usersRow) : bool :=
  String.eqb (users_username r) username.

Definition usernameOrEmailIs (username email : string) (r : usersRow) : bool :=
  String.eqb (users_username r) username || String.eqb (users_email r) email.

Definition userIdIs (userID : Z) (r : usersRow) : bool := users_id r =? userID.

Definition tokenIs (token : string) (r : sessionsRow) : bool :=
  String.eqb (sessions_token r) token.

Definition usersKeyTaken (id : Z) (username email : string) (r : usersRow)
  : bool :=
  userIdIs id r || usernameOrEmailIs username email r.

Definition sessionsKeyTaken (id : Z) (token : string) (r : sessionsRow)
  : bool :=
  (sessions_id r =? id) || tokenIs token r.

(** SELECT id, username, email, password_hash FROM users WHERE username = $1 *)
Definition PgxUserRepository_GetByUsername (username : string) (w : World)
  : Result (option UserRow.t) * World :=
  if negb (isText username)
  then (Err (PgError character_not_in_repertoire), w)
  else
    match find (usernameIs username) (users w) with
    | None => (Ok None, w)
    | Some r =>
        (Ok (Some (UserRow.mk (users_id r) (users_username r) (users_email r)
                     (users_password_hash r))), w)
    end.

(** SELECT EXISTS(SELECT 1 FROM users WHERE username = $1 OR email = $2) *)
Definition PgxUserRepository_ExistsByUsernameOrEmail (username email : string)
  (w : World) : Result bool * World :=
  if negb (isText username && isText email)
  then (Err (PgError character_not_in_repertoire), w)
  else (Ok (existsb (usernameOrEmailIs username email) (users w)), w).

(** The values of a new users row as the columns username VARCHAR(100),
    email VARCHAR(255) and password_hash VARCHAR(255) take them. *)
Definition usersValues (username email passwordHash : string)
  : Result (string * string * string) :=
  if negb (isText username && isText email && isText passwordHash)
  then Err (PgError character_not_in_repertoire)
  else
    match varchar 100 username with
    | Err e => Err e
    | Ok username' =>
        match varchar 255 email with
        | Err e => Err e
        | Ok email' =>
            match varchar 255 passwordHash with
            | Err e => Err e
            | Ok passwordHash' => Ok (username', email', passwordHash')
            end
        end
    end.

(** INSERT INTO users (username, email, password_hash) VALUES ($1, $2, $3)
    RETURNING id.  Values the columns do not take are refused before a row
    is formed; after that the sequence moves on whether or not the row is
    kept. *)
Definition PgxUserRepository_Create (username email passwordHash : string)
  (w : World) : Result Z * World :=
  match usersValues username email passwordHash with
  | Err e => (Err e, w)
  | Ok (username', email', passwordHash') =>
      let id := users_id_seq w + 1 in
      if existsb (usersKeyTaken id username' email') (users w)
      then (Err (PgError unique_violation), setUsers w (users w) id)
      else (Ok id,
            setUsers w
              (users w ++ [mkUsersRow id username' email' passwordHash'
                             (timestamp (clock w)) None])
              id)
  end.

(** UPDATE users SET last_login = CURRENT_TIMESTAMP WHERE id = $1 *)
Definition PgxUserRepository_UpdateLastLogin (userID : Z) (w : World)
  : option error * World :=
  (None,
   setUsers w
     (map (fun r =>
             if userIdIs userID r
             then mkUsersRow (users_id r) (users_username r) (users_email r)
                    (users_password_hash r) (users_created_at r)
                    (Some (timestamp (clock w)))
             else r) (users w))
     (users_id_seq w)).

(** INSERT INTO sessions (user_id, token, expires_at) VALUES ($1, $2, $3),
    into token VARCHAR(255) and expires_at TIMESTAMP. *)
Definition PgxSessionRepository_Create (userID : Z) (token : string)
  (expiresAt : Time) (w : World) : option error * World :=
  match varchar 255 token with
  | Err e => (Some e, w)
  | Ok token' =>
      let id := sessions_id_seq w + 1 in
      if existsb (sessionsKeyTaken id token') (sessions w)
      then (Some (PgError unique_violation), setSessions w (sessions w) id)
      else if negb (existsb (userIdIs userID) (users w))
      then (Some (PgError foreign_key_violation), setSessions w (sessions w) id)
      else (None,
            setSessions w
              (sessions w ++ [mkSessionsRow id userID token'
                                (timestamp expiresAt) (timestamp (clock w))])
              id)
  end.

(** SELECT u.id, u.username, u.email, s.expires_at FROM sessions s
    JOIN users u ON s.user_id = u.id WHERE s.token = $1 *)
Definition PgxSessionRepository_GetUserByToken (token : string) (w : World)
  : Result (option SessionRow.t) * World :=
  if negb (isText token)
  then (Err (PgError character_not_in_repertoire), w)
  else
    match find (tokenIs token) (sessions w) with
    | None => (Ok None, w)
    | Some s =>
        match find (userIdIs (sessions_user_id s)) (users w) with
        | None => (Ok None, w)
        | Some u =>
            (Ok (Some (SessionRow.mk (users_id u) (users_username u)
                         (users_email u) (sessions_expires_at s))), w)
        end
    end.

(** The wiring of cmd/main.go: both repositories on one pool, bcrypt [H]
    fed by the random source, and the clock. *)
Definition production (H : Hasher) : Handler World :=
  fun X op =>
    match op in Op X return World -> X * World with
    | UsersGetByUsername username => PgxUserRepository_GetByUsername username
    | UsersExistsByUsernameOrEmail username email =>
        PgxUserRepository_ExistsByUsernameOrEmail username email
    | UsersCreate username email passwordHash =>
        PgxUserRepository_Create username email passwordHash
    | UsersUpdateLastLogin userID => PgxUserRepository_UpdateLastLogin userID
    | SessionsCreate userID token expiresAt =>
        PgxSessionRepository_Create userID token expiresAt
    | SessionsGetUserByToken token => PgxSessionRepository_GetUserByToken token
    | GenerateFromPassword password cost =>
        fun w =>
          match entropy w with
          | [] => (Err (IOError "unexpected EOF"), w)
          | salt :: rest => (hash H password cost salt, setEntropy w rest)
          end
    | CompareHashAndPassword hashedPassword password =>
        fun w => (verify H hashedPassword password, w)
    | Now => fun w => (clock w, w)
    end.

(** Other requests at work on the same collaborators: before each call of
    the program under study the next step of the environment happens. *)
Definition interleaved {S : Type} (h : Handler S) : Handler (list (S -> S) * S) :=
  fun X op st =>
    match fst st with
    | [] => let xs := h X op (snd st) in (fst xs, ([], snd xs))
    | step :: rest =>
        let xs := h X op (step (snd st)) in (fst xs, (rest, snd xs))
    end.

(** Time passing while a request is served: before each call the clock
    moves on by the next of the given durations. *)
Definition passing (ds : list Z) : list (World -> World) := map elapse ds.

(** Stores whose best-effort writes are refused (a lost connection). *)
Definition refusingWrites {S : Type} (h : Handler S) : Handler S :=
  fun X op =>
    match op in Op X return S -> X * S with
    | UsersUpdateLastLogin _ =>
        fun s => (Some (IOError "connection refused"), s)
    | SessionsCreate _ _ _ =>
        fun s => (Some (IOError "connection refused"), s)
    | op' => h _ op'
    end.

(** ** Scenarios *)

Definition salt1 : string := "saltsaltsaltsaltsalt01".
Definition salt2 : string := "saltsaltsaltsaltsalt02".

(** An empty database at 2024-01-01 00:00:00.25 UTC. *)
Definition emptyWorld : World :=
  mkWorld [] 0 [] 0 (1704067200 * Second + 250000000) [salt1; salt2].

Definition alice : RegisterRequest.t :=
  RegisterRequest.mk "alice" "alice@example.com" "password123".

Definition aliceLogin : LoginRequest.t := LoginRequest.mk "alice" "password123".

(** The world after alice has registered. *)
Definition aliceWorld : World :=
  final (run (production specHasher) (Register alice) emptyWorld).

(** What alice's registration stored and issued. *)
Definition aliceDigest : string := "$2a$10$saltsaltsaltsaltsalt01password123".

Definition aliceRow : UserRow.t :=
  UserRow.mk 1 "alice" "alice@example.com" aliceDigest.

Definition aliceToken : string := "jwt-token-v1-1-1704067200".

Definition aliceView : User.t := User.mk "1" "alice" "alice@example.com".

(** The world of alice's registration once her row is inserted, before the
    session is. *)
Definition aliceInserted : World :=
  snd (PgxUserRepository_Create "alice" "alice@example.com" aliceDigest
         (setEntropy emptyWorld [salt2])).

Definition connectionRefused : option error :=
  Some (IOError "connection refused").

Definition tokenOf (r : Result AuthResponse.t) : option string :=
  match r with
  | Ok resp => Some (AuthResponse.Token resp)
  | Err _ => None
  end.

Definition isOk {A : Type} (r : Result A) : bool :=
  match r with
  | Ok _ => true
  | Err _ => false
  end.

Definition failsWith {A : Type} (r : Result A) (target : sentinel) : bool :=
  match r with
  | Ok _ => false
  | Err e => errors_Is e target
  end.

Definition mallory : usersRow :=
  mkUsersRow 7 "mallory" "mallory@example.com" "not-a-digest" 0 None.

(** A database holding one user whose stored digest is damaged. *)
Definition damagedWorld : World :=
  mkWorld [mallory] 7 [] 0 (1704067200 * Second) [salt1].

(** Another request registering the same username between two calls. *)
Definition rivalInsert (w : World) : World :=
  snd (PgxUserRepository_Create "alice" "alice@elsewhere.example"
         (digestPrefix ++ salt2 ++ "hunter2") w).

(** Alice's row under another password, at the instant of [aliceWorld]. *)
Definition aliceRehashed : World :=
  mkWorld
    [mkUsersRow 1 "alice" "alice@example.com"
       (digestPrefix ++ salt2 ++ "hunter2") 0 None]
    1 [] 0 (1704067200 * Second + 250000000) [].

(** A username of a hundred letters and a blank, one character more than
    the column takes, and one of a hundred and one letters. *)
Definition blankPadded : string :=
  String.concat "" (List.repeat "a" 100) ++ " ".

Definition overlong : string := String.concat "" (List.repeat "a" 101).


(** The database as db/migrations/sql/V2__seed_auth.sql leaves it, loaded
    at 2024-01-01 00:00:00 UTC: five users and two sessions inserted under
    ids of the script's own, the sequences never asked. *)
Definition seedDigest : string :=
  "$2a$10$J22gaM8P6seq9BEc9fRoye/6mc8aaCwm.KS27BmmWN5afiF.cGTrK".

Definition Day : Z := 24 * Hour.

Definition seededWorld : World :=
  let now := 1704067200 * Second in
  mkWorld
    [mkUsersRow 1 "alice" "alice@example.com" seedDigest
       (now - 30 * Day) (Some (now - 1 * Hour));
     mkUsersRow 2 "bob" "bob@example.com" seedDigest
       (now - 25 * Day) (Some (now - 2 * Hour));
     mkUsersRow 3 "carol" "carol@example.com" seedDigest
       (now - 20 * Day) (Some (now - 3 * Day));
     mkUsersRow 4 "david" "david@example.com" seedDigest
       (now - 15 * Day) (Some (now - 1 * Day));
     mkUsersRow 5 "eve" "eve@example.com" seedDigest
       (now - 60 * Day) (Some (now - 30 * Day))]
    0
    [mkSessionsRow 1 1 "demo_token_alice_12345" (now + 7 * Day) (now - 1 * Hour);
     mkSessionsRow 2 2 "demo_token_bob_67890" (now + 7 * Day) (now - 2 * Hour)]
    0
    now [salt1; salt2].

Definition zoe : RegisterRequest.t :=
  RegisterRequest.mk "zoe" "zoe@example.com" "".

(** A call during which a millisecond passes, then two, and so on. *)
Definition milliseconds : list Z :=
  [1000000; 2000000; 3000000; 4000000; 5000000; 6000000].

(** The ids in the users table were handed out by its sequence. *)
Definition idsFromSequence (w : World) : Prop :=
  Forall (fun r => users_id r <= users_id_seq w) (users w).

(** The race of two registrations of one username: the rival's insert
    lands after the existence check and before the insert. *)
Definition raceStart : list (World -> World) * World :=
  ([(fun w => w); (fun w => w); rivalInsert], emptyWorld).

(** What a best-effort write leaves on the span: its error, if any. *)
Definition recorded (format : string) (err : option error) : list Event :=
  match err with
  | Some e => [Traced (RecordError (Errorf format [] e))]
  | None => []
  end.

(** The characters of a decimal numeral. *)
Definition isDigit (c : ascii) : bool :=
  match c with
  | "0" | "1" | "2" | "3" | "4" | "5" | "6" | "7" | "8" | "9" => true
  | _ => false
  end%char.

Fixpoint allDigits (s : string) : bool :=
  match s with
  | EmptyString => true
  | String c s' => isDigit c && allDigits s'
  end.

(** No two rows of the sessions table carry the same token. *)
Definition tokensUnique (w : World) : Prop :=
  NoDup (map sessions_token (sessions w)).

(** ** What a run asks of the stores *)

(** The calls that go to one of the two stores, and those of them that
    write. *)
Definition isStoreCall (ev : Event) : bool :=
  match ev with
  | Invoke (UsersGetByUsername _)
  | Invoke (UsersExistsByUsernameOrEmail _ _)
  | Invoke (UsersCreate _ _ _)
  | Invoke (UsersUpdateLastLogin _)
  | Invoke (SessionsCreate _ _ _)
  | Invoke (SessionsGetUserByToken _) => true
  | _ => false
  end.

Definition isWrite (ev : Event) : bool :=
  match ev with
  | Invoke (UsersCreate _ _ _)
  | Invoke (UsersUpdateLastLogin _)
  | Invoke (SessionsCreate _ _ _) => true
  | _ => false
  end.

Definition isSessionsCreate (ev : Event) : bool :=
  match ev with
  | Invoke (SessionsCreate _ _ _) => true
  | _ => false
  end.

(** Stores that cannot be reached: every call to one of them fails. *)
Definition unreachableStores {S : Type} (h : Handler S) : Handler S :=
  fun X op =>
    match op in Op X return S -> X * S with
    | UsersGetByUsername _ => fun s => (Err (IOError "connection refused"), s)
    | UsersExistsByUsernameOrEmail _ _ =>
        fun s => (Err (IOError "connection refused"), s)
    | UsersCreate _ _ _ => fun s => (Err (IOError "connection refused"), s)
    | UsersUpdateLastLogin _ =>
        fun s => (Some (IOError "connection refused"), s)
    | SessionsCreate _ _ _ =>
        fun s => (Some (IOError "connection refused"), s)
    | SessionsGetUserByToken _ =>
        fun s => (Err (IOError "connection refused"), s)
    | op' => h _ op'
    end.

(** ** What the schema promises *)

(** The constraints of the two tables: the primary keys, the UNIQUE
    columns, and the foreign key of a session to its user. *)
Definition schemaHolds (w : World) : Prop :=
  NoDup (map users_id (users w))
  /\ NoDup (map users_username (users w))
  /\ NoDup (map users_email (users w))
  /\ NoDup (map sessions_id (sessions w))
  /\ tokensUnique w
  /\ Forall (fun r => existsb (userIdIs (sessions_user_id r)) (users w) = true)
       (sessions w).

(** Both sequences are ahead of the keys in their tables. *)
Definition sequencesAhead (w : World) : Prop :=
  idsFromSequence w
  /\ Forall (fun r => sessions_id r <= sessions_id_seq w) (sessions w).

(** What identifies a user and lets them in: everything but the timestamps. *)
Definition credentials (r : usersRow) : Z * string * string * string :=
  (users_id r, users_username r, users_email r, users_password_hash r).

(** The row UPDATE ... SET last_login writes for a matching row. *)
Definition touch (now : Time) (userID : Z) (r : usersRow) : usersRow :=
  if userIdIs userID r
  then mkUsersRow (users_id r) (users_username r) (users_email r)
         (users_password_hash r) (users_created_at r) (Some now)
  else r.

(** ** The HTTP handlers (internal/web/v1/handler.go) *)

(** What a handler reads from its [gin.Context]: the request's method and
    path, and its Authorization header (empty when absent). *)
Record Context : Type := mkContext
  { Method : string; Path : string; Authorization : string }.

(** A line of the request's logger. *)
Inductive Level : Type := ErrorLevel | WarnLevel | InfoLevel.

Record LogLine : Type := mkLogLine
  { level : Level;
    logged : option error;
    fields : list (string * string);
    message : string }.

(** The value handed to [c.JSON]: [gin.H{"error": ...}] with a literal
    text or with [err.Error()], an authentication response, or a user. *)
Inductive Body : Type :=
| ErrorText (text : string)
| ErrorOf (err : error)
| AuthBody (response : AuthResponse.t)
| UserBody (user : User.t).

Record Reply : Type := mkReply { status : Z; body : Body }.

Definition StatusOK : Z := 200.
Definition StatusCreated : Z := 201.
Definition StatusBadRequest : Z := 400.
Definition StatusUnauthorized : Z := 401.
Definition StatusForbidden : Z := 403.
Definition StatusConflict : Z := 409.
Definition StatusInternalServerError : Z := 500.

(** What a handler does, in order: tell its span, log, write a reply with
    [c.JSON], or call the logic layer (whose own events are kept). *)
Inductive WebEvent : Type :=
| WebSpan (ev : SpanEvent)
| Logged (line : LogLine)
| JSON (reply : Reply)
| Served (events : list Event).

(** A handler: it ends, does one of the first three, or calls a method of
    the service and goes on with its result. *)
Inductive Web : Type :=
| Done
| Emit (ev : WebEvent) (k : Web)
| Serve {X : Type} (p : Prog X) (k : X -> Web).

Fixpoint andThen (p q : Web) : Web :=
  match p with
  | Done => q
  | Emit ev k => Emit ev (andThen k q)
  | Serve p' k => Serve p' (fun x => andThen (k x) q)
  end.

Fixpoint serve {S : Type} (h : Handler S) (p : Web) (s : S)
  : S * list WebEvent :=
  match p with
  | Done => (s, [])
  | Emit ev k => let r := serve h k s in (fst r, ev :: snd r)
  | Serve p' k =>
      let o := run h p' s in
      let r := serve h (k (result o)) (final o) in
      (fst r, Served (trace o) :: snd r)
  end.

(** The replies written in the course of a handler. *)
Fixpoint replies (evs : list WebEvent) : list Reply :=
  match evs with
  | [] => []
  | JSON r :: evs' => r :: replies evs'
  | _ :: evs' => replies evs'
  end.

(** The calls into the logic layer made in the course of a handler. *)
Fixpoint served (evs : list WebEvent) : list (list Event) :=
  match evs with
  | [] => []
  | Served tr :: evs' => tr :: served evs'
  | _ :: evs' => served evs'
  end.

Definition bearerPrefix : string := "Bearer ".

Module webv1.

(** [middleware.StartSpan(c.Request.Context(), "http.request", ...)] with
    [defer span.End()] around the body of a handler. *)
Definition inRequestSpan (c : Context) (body : Web) : Web :=
  Emit (WebSpan (StartSpan "http.request"
                   [AttrString "layer" "web";
                    AttrString "method" (Method c);
                    AttrString "path" (Path c)]))
    (andThen body (Emit (WebSpan SpanEnd) Done)).

(** [c.JSON(status, body)] followed by [return]. *)
Definition cJSON (status : Z) (body : Body) : Web :=
  Emit (JSON (mkReply status body)) Done.

(** The branch taken when [c.ShouldBindJSON(&req)] fails. *)
Definition invalidRequest (err : error) : Web :=
  Emit (WebSpan (SetAttributes [AttrBool "request.valid" false]))
    (Emit (WebSpan (RecordError err))
       (Emit (Logged (mkLogLine ErrorLevel (Some err) [] "Invalid request"))
          (cJSON StatusBadRequest (ErrorOf err)))).

(** Login handles HTTP request for user login; [bound] is what
    [c.ShouldBindJSON(&req)] makes of the body. *)
Definition Login (c : Context) (bound : Result LoginRequest.t) : Web :=
  inRequestSpan c
    match bound with
    | Err err => invalidRequest err
    | Ok req =>
        Emit (WebSpan (SetAttributes [AttrBool "request.valid" true]))
          (* Call business logic layer *)
          (Serve (Login req) (fun r =>
             match r with
             | Err err =>
                 Emit (WebSpan (RecordError err))
                   (Emit (Logged (mkLogLine ErrorLevel (Some err) []
                                    "Login failed"))
                      (if errors_Is err ErrInvalidCredentials
                       then cJSON StatusUnauthorized
                              (ErrorText "Invalid credentials")
                       else if errors_Is err ErrUserNotFound
                       (* Don't reveal that user doesn't exist *)
                       then cJSON StatusUnauthorized
                              (ErrorText "Invalid credentials")
                       else if errors_Is err ErrPasswordExpired
                       then cJSON StatusForbidden
                              (ErrorText "Password expired")
                       else if errors_Is err ErrAccountLocked
                       then cJSON StatusForbidden (ErrorText "Account locked")
                       else cJSON StatusInternalServerError
                              (ErrorText "Internal server error")))
             | Ok response =>
                 Emit (Logged
                         (mkLogLine InfoLevel None
                            [("user_id",
                              User.ID (AuthResponse.User response))]
                            "Login successful"))
                   (cJSON StatusOK (AuthBody response))
             end))
    end.

(** Register handles HTTP request for user registration. *)
Definition Register (c : Context) (bound : Result RegisterRequest.t) : Web :=
  inRequestSpan c
    match bound with
    | Err err => invalidRequest err
    | Ok req =>
        Emit (WebSpan (SetAttributes [AttrBool "request.valid" true]))
          (* Call business logic layer *)
          (Serve (Register req) (fun r =>
             match r with
             | Err err =>
                 Emit (WebSpan (RecordError err))
                   (Emit (Logged
                            (mkLogLine ErrorLevel (Some err)
                               [("username", RegisterRequest.Username req)]
                               "Registration failed"))
                      (if errors_Is err ErrUserExists
                       then cJSON StatusConflict
                              (ErrorText "Username or email already exists")
                       else cJSON StatusInternalServerError
                              (ErrorText "Internal server error")))
             | Ok response =>
                 Emit (Logged
                         (mkLogLine InfoLevel None
                            [("user_id",
                              User.ID (AuthResponse.User response))]
                            "Registration successful"))
                   (cJSON StatusCreated (AuthBody response))
             end))
    end.

(** GetMe handles HTTP request to get current user from session token.
    GET /api/v1/auth/me, Authorization: Bearer <token>. *)
Definition GetMe (c : Context) : Web :=
  inRequestSpan c
    (* Extract token from Authorization header *)
    (let authHeader := Authorization c in
     if String.eqb authHeader ""
     then
       Emit (WebSpan (SetAttributes [AttrBool "auth.present" false]))
         (cJSON StatusUnauthorized (ErrorText "Authorization header required"))
     else if (String.length authHeader <=? String.length bearerPrefix)%nat
             || negb (String.eqb
                        (substring 0 (String.length bearerPrefix) authHeader)
                        bearerPrefix)
     then
       Emit (WebSpan (SetAttributes [AttrBool "auth.valid_format" false]))
         (cJSON StatusUnauthorized (ErrorText "Invalid authorization format"))
     else
       let token :=
         substring (String.length bearerPrefix)
           (String.length authHeader - String.length bearerPrefix) authHeader in
       Emit (WebSpan (SetAttributes [AttrBool "auth.present" true]))
         (* Lookup user by token *)
         (Serve (GetUserByToken token) (fun r =>
            match r with
            | Err err =>
                Emit (WebSpan (RecordError err))
                  (Emit (Logged (mkLogLine WarnLevel (Some err) []
                                   "Token lookup failed"))
                     (if errors_Is err ErrSessionNotFound
                      then cJSON StatusUnauthorized
                             (ErrorText "Invalid or expired token")
                      else if errors_Is err ErrSessionExpired
                      then cJSON StatusUnauthorized
                             (ErrorText "Session expired")
                      else cJSON StatusInternalServerError
                             (ErrorText "Internal server error")))
            | Ok user =>
                Emit (Logged (mkLogLine InfoLevel None
                                [("user_id", User.ID user)] "Token validated"))
                  (cJSON StatusOK (UserBody user))
            end))).

End webv1.


(** ** Trace identifiers (middleware/logging.go) *)

Definition TraceIDHeader : string := "X-Trace-ID".
Definition TraceParentHeader : string := "traceparent".

(** The loop of splitTraceParent: [n] iterations are left, [i] is the index
    looked at, [start] where the current part begins. *)
Fixpoint splitLoop (traceParent : string) (n i start : nat)
  (parts : list string) : list string * nat :=
  match n with
  | O => (parts, start)
  | S n' =>
      match String.get i traceParent with
      | Some c =>
          if Ascii.eqb c "-"
          then splitLoop traceParent n' (S i) (S i)
                 (if (start <? i)%nat
                  then parts ++ [substring start (i - start) traceParent]
                  else parts)
          else splitLoop traceParent n' (S i) start parts
      | None => splitLoop traceParent n' (S i) start parts
      end
  end.

(** splitTraceParent splits traceparent header value. *)
Definition splitTraceParent (traceParent : string) : list string :=
  let after := splitLoop traceParent (String.length traceParent) 0 0 [] in
  let parts := fst after in
  let start := snd after in
  if (start <? String.length traceParent)%nat
  then parts ++ [substring start (String.length traceParent - start)
                   traceParent]
  else parts.

(** [hex.EncodeToString]. *)
Definition hextable : string := "0123456789abcdef".

Definition hexDigit (n : N) : ascii :=
  match String.get (N.to_nat n) hextable with
  | Some c => c
  | None => "0"%char
  end.

Fixpoint EncodeToString (src : list ascii) : string :=
  match src with
  | [] => ""
  | v :: src' =>
      String (hexDigit (N.shiftr (N_of_ascii v) 4))
        (String (hexDigit (N.land (N_of_ascii v) 15)) (EncodeToString src'))
  end.

(** generateTraceID generates a trace-id using random bytes; [b] is the
    buffer of 16 bytes after [rand.Read(b)]. *)
Definition generateTraceID (b : list ascii) : string := EncodeToString b.

(** GetTraceID extracts trace-id from request headers or generates a new
    one; [GetHeader] is [c.GetHeader], which gives the empty string for a
    header that is not there. *)
Definition GetTraceID (GetHeader : string -> string) (b : list ascii)
  : string :=
  let traceParent := GetHeader TraceParentHeader in
  let parts := splitTraceParent traceParent in
  (* Try W3C Trace Context first (traceparent header) *)
  if negb (String.eqb traceParent "")
     && (2 <=? List.length parts)%nat
     && negb (String.eqb (nth 1 parts "") "")
  then nth 1 parts ""
  else
    (* Fallback to X-Trace-ID header *)
    let traceID := GetHeader TraceIDHeader in
    if negb (String.eqb traceID "")
    then traceID
    else generateTraceID b.

(** The fields of a hyphen-separated value, the empty ones left out;
    [cur] holds the characters of the field being read. *)
Fixpoint fieldsFrom (s cur : string) : list string :=
  match s with
  | EmptyString => if String.eqb cur "" then [] else [cur]
  | String c s' =>
      if Ascii.eqb c "-"
      then (if String.eqb cur "" then [] else [cur]) ++ fieldsFrom s' ""
      else fieldsFrom s' (cur ++ String c "")
  end.

(** No hyphen in it, and not empty. *)
Fixpoint hyphenFree (s : string) : bool :=
  match s with
  | EmptyString => true
  | String c s' => negb (Ascii.eqb c "-") && hyphenFree s'
  end.

Definition isField (s : string) : bool :=
  negb (String.eqb s "") && hyphenFree s.

(** Lower-case hexadecimal digits only. *)
Fixpoint allHex (s : string) : bool :=
  match s with
  | EmptyString => true
  | String c s' =>
      match String.index 0 (String c "") hextable with
      | Some _ => allHex s'
      | None => false
      end
  end.

(** The header lookup of a request carrying at most these two headers. *)
Definition headers (traceparent xTraceID : string) (name : string) : string :=
  if String.eqb name TraceParentHeader then traceparent
  else if String.eqb name TraceIDHeader then xTraceID
  else "".

(** ** Further scenarios *)

Definition loginContext : Context :=
  mkContext "POST" "/api/v1/auth/login" "".

Definition registerContext : Context :=
  mkContext "POST" "/api/v1/auth/register" "".

Definition meContext : Context :=
  mkContext "GET" "/api/v1/auth/me" (bearerPrefix ++ aliceToken).

(** A traceparent as the W3C recommendation gives it. *)
Definition w3cFields : list string :=
  ["00"; "4bf92f3577b34da6a3ce929d0e0e4736"; "00f067aa0ba902b7"; "01"].

Definition w3cTraceParent : string :=
  "00-4bf92f3577b34da6a3ce929d0e0e4736-00f067aa0ba902b7-01".

(** ** Stepping through a run *)

Ltac run_step :=
  cbn [run bind call span deferSpanEnd result final trace fst snd].

Ltac answer H := run_step; rewrite H; run_step.

Ltac world_step :=
  cbn [run bind call span deferSpanEnd result final trace fst snd production
       users users_id_seq sessions sessions_id_seq clock entropy
       setUsers setSessions setEntropy].

Section AnyCollaborators.

Variable S : Type.
Variable h : Handler S.

Lemma Login_user_absent (s s1 : S) (req : LoginRequest.t) :
  h _ (UsersGetByUsername (LoginRequest.Username req)) s = (Ok None, s1) ->
  result (run h (Login req) s) =
    Err (Errorf "authenticate user %q: %w"
           [ArgString (LoginRequest.Username req)] (Sentinel ErrUserNotFound)).
Proof.
  intros Hget. unfold Login. answer Hget. reflexivity.
Qed.

Lemma Login_compare_fails (s s1 s2 : S) (req : LoginRequest.t)
  (row : UserRow.t) (e : error) :
  h _ (UsersGetByUsername (LoginRequest.Username req)) s
    = (Ok (Some row), s1) ->
  h _ (CompareHashAndPassword (UserRow.PasswordHash row)
         (LoginRequest.Password req)) s1 = (Some e, s2) ->
  result (run h (Login req) s) =
    Err (Errorf "authenticate user %q: %w"
           [ArgString (LoginRequest.Username req)]
           (Sentinel ErrInvalidCredentials)).
Proof.
  intros Hget Hcmp. unfold Login. answer Hget. answer Hcmp. reflexivity.
Qed.

(** The whole happy path of Login, with whatever the two best-effort
    writes answer. *)
Lemma Login_verified (s s1 s2 s3 s4 s5 s6 : S) (req : LoginRequest.t)
  (row : UserRow.t) (updateErr sessErr : option error) (now1 now2 : Time) :
  h _ (UsersGetByUsername (LoginRequest.Username req)) s
    = (Ok (Some row), s1) ->
  h _ (CompareHashAndPassword (UserRow.PasswordHash row)
         (LoginRequest.Password req)) s1 = (None, s2) ->
  h _ (UsersUpdateLastLogin (UserRow.ID row)) s2 = (updateErr, s3) ->
  h _ Now s3 = (now1, s4) ->
  h _ Now s4 = (now2, s5) ->
  h _ (SessionsCreate (UserRow.ID row)
         (Sprintf_token (UserRow.ID row) (Unix now1))
         (Add now2 (24 * Hour))) s5 = (sessErr, s6) ->
  run h (Login req) s =
    mkOutcome
      (Ok (AuthResponse.mk (Sprintf_token (UserRow.ID row) (Unix now1))
             (User.mk (Itoa (UserRow.ID row)) (UserRow.Username row)
                (UserRow.Email row))))
      s6
      ([Traced (StartSpan "auth.login"
                  [AttrString "layer" "logic";
                   AttrString "username" (LoginRequest.Username req)]);
        Invoke (UsersGetByUsername (LoginRequest.Username req));
        Invoke (CompareHashAndPassword (UserRow.PasswordHash row)
                  (LoginRequest.Password req));
        Invoke (UsersUpdateLastLogin (UserRow.ID row))]
       ++ recorded "update last_login: %w" updateErr
       ++ [Invoke Now; Invoke Now;
           Invoke (SessionsCreate (UserRow.ID row)
                     (Sprintf_token (UserRow.ID row) (Unix now1))
                     (Add now2 (24 * Hour)))]
       ++ recorded "create session: %w" sessErr
       ++ [Traced (SetAttributes
                     [AttrString "user.id" (Itoa (UserRow.ID row));
                      AttrBool "auth.success" true]);
           Traced (AddEvent "user.authenticated");
           Traced SpanEnd]).
Proof.
  intros Hget Hcmp Hupd Hn1 Hn2 Hsess. unfold Login.
  answer Hget. answer Hcmp. answer Hupd.
  destruct updateErr; run_step; rewrite Hn1; run_step; rewrite Hn2;
    run_step; rewrite Hsess; destruct sessErr; reflexivity.
Qed.

Lemma Register_user_exists (s s1 s2 : S) (req : RegisterRequest.t)
  (passwordHash : string) :
  h _ (GenerateFromPassword (RegisterRequest.Password req) DefaultCost) s
    = (Ok passwordHash, s1) ->
  h _ (UsersExistsByUsernameOrEmail (RegisterRequest.Username req)
         (RegisterRequest.Email req)) s1 = (Ok true, s2) ->
  run h (Register req) s =
    mkOutcome
      (Err (Errorf "register user %q: %w"
              [ArgString (RegisterRequest.Username req)]
              (Sentinel ErrUserExists)))
      s2
      [Traced (StartSpan "auth.register"
                 [AttrString "layer" "logic";
                  AttrString "username" (RegisterRequest.Username req);
                  AttrString "email" (RegisterRequest.Email req)]);
       Invoke (GenerateFromPassword (RegisterRequest.Password req)
                 DefaultCost);
       Invoke (UsersExistsByUsernameOrEmail (RegisterRequest.Username req)
                 (RegisterRequest.Email req));
       Traced (SetAttributes [AttrBool "registration.success" false]);
       Traced SpanEnd].
Proof.
  intros Hhash Hex. unfold Register. answer Hhash. answer Hex. reflexivity.
Qed.

Lemma Register_insert_fails (s s1 s2 s3 : S) (req : RegisterRequest.t)
  (passwordHash : string) (err : error) :
  h _ (GenerateFromPassword (RegisterRequest.Password req) DefaultCost) s
    = (Ok passwordHash, s1) ->
  h _ (UsersExistsByUsernameOrEmail (RegisterRequest.Username req)
         (RegisterRequest.Email req)) s1 = (Ok false, s2) ->
  h _ (UsersCreate (RegisterRequest.Username req)
         (RegisterRequest.Email req) passwordHash) s2 = (Err err, s3) ->
  result (run h (Register req) s) = Err (Errorf "insert user: %w" [] err).
Proof.
  intros Hhash Hex Hins. unfold Register.
  answer Hhash. answer Hex. answer Hins. reflexivity.
Qed.

(** The whole happy path of Register. *)
Lemma Register_inserted (s s1 s2 s3 s4 s5 s6 : S) (req : RegisterRequest.t)
  (passwordHash : string) (userID : Z) (sessErr : option error)
  (now1 now2 : Time) :
  h _ (GenerateFromPassword (RegisterRequest.Password req) DefaultCost) s
    = (Ok passwordHash, s1) ->
  h _ (UsersExistsByUsernameOrEmail (RegisterRequest.Username req)
         (RegisterRequest.Email req)) s1 = (Ok false, s2) ->
  h _ (UsersCreate (RegisterRequest.Username req)
         (RegisterRequest.Email req) passwordHash) s2 = (Ok userID, s3) ->
  h _ Now s3 = (now1, s4) ->
  h _ Now s4 = (now2, s5) ->
  h _ (SessionsCreate userID (Sprintf_token userID (Unix now1))
         (Add now2 (24 * Hour))) s5 = (sessErr, s6) ->
  run h (Register req) s =
    mkOutcome
      (Ok (AuthResponse.mk (Sprintf_token userID (Unix now1))
             (User.mk (Itoa userID) (RegisterRequest.Username req)
                (RegisterRequest.Email req))))
      s6
      ([Traced (StartSpan "auth.register"
                  [AttrString "layer" "logic";
                   AttrString "username" (RegisterRequest.Username req);
                   AttrString "email" (RegisterRequest.Email req)]);
        Invoke (GenerateFromPassword (RegisterRequest.Password req)
                  DefaultCost);
        Invoke (UsersExistsByUsernameOrEmail (RegisterRequest.Username req)
                  (RegisterRequest.Email req));
        Invoke (UsersCreate (RegisterRequest.Username req)
                  (RegisterRequest.Email req) passwordHash);
        Invoke Now; Invoke Now;
        Invoke (SessionsCreate userID (Sprintf_token userID (Unix now1))
                  (Add now2 (24 * Hour)))]
       ++ recorded "create session: %w" sessErr
       ++ [Traced (SetAttributes
                     [AttrString "user.id" (Itoa userID);
                      AttrBool "registration.success" true]);
           Traced (AddEvent "user.registered");
           Traced SpanEnd]).
Proof.
  intros Hhash Hex Hins Hn1 Hn2 Hsess. unfold Register.
  answer Hhash. answer Hex. answer Hins. rewrite Hn1. run_step.
  rewrite Hn2. run_step. rewrite Hsess.
  destruct sessErr; reflexivity.
Qed.

Lemma GetUserByToken_absent (s s1 : S) (token : string) :
  h _ (SessionsGetUserByToken token) s = (Ok None, s1) ->
  result (run h (GetUserByToken token) s) =
    Err (Errorf "lookup session: %w" [] (Sentinel ErrSessionNotFound)).
Proof.
  intros Hget. unfold GetUserByToken. answer Hget. reflexivity.
Qed.

Lemma GetUserByToken_found (s s1 s2 : S) (token : string)
  (row : SessionRow.t) (now : Time) :
  h _ (SessionsGetUserByToken token) s = (Ok (Some row), s1) ->
  h _ Now s1 = (now, s2) ->
  result (run h (GetUserByToken token) s) =
    if After now (SessionRow.ExpiresAt row)
    then Err (Errorf "session expired at %v: %w"
                [ArgTime (SessionRow.ExpiresAt row)]
                (Sentinel ErrSessionExpired))
    else Ok (User.mk (Itoa (SessionRow.UserID row))
               (SessionRow.Username row) (SessionRow.Email row)).
Proof.
  intros Hget Hnow. unfold GetUserByToken. answer Hget. rewrite Hnow.
  run_step. destruct (After now (SessionRow.ExpiresAt row)); reflexivity.
Qed.

(** What a successful call went through. *)
Lemma Login_succeeded (s : S) (req : LoginRequest.t) (resp : AuthResponse.t) :
  result (run h (Login req) s) = Ok resp ->
  exists row,
    answer h (UsersGetByUsername (LoginRequest.Username req)) s
      = Ok (Some row)
    /\ answer h (CompareHashAndPassword (UserRow.PasswordHash row)
                   (LoginRequest.Password req))
         (after h (UsersGetByUsername (LoginRequest.Username req)) s) = None
    /\ resp = AuthResponse.mk
                (Sprintf_token (UserRow.ID row)
                   (Unix (answer h Now (Login_atToken h req row s))))
                (User.mk (Itoa (UserRow.ID row)) (UserRow.Username row)
                   (UserRow.Email row)).
Proof.
  unfold Login. run_step.
  destruct (h _ (UsersGetByUsername (LoginRequest.Username req)) s)
    as [[[row |] | err] s1] eqn:Hget; run_step; try discriminate.
  destruct (h _ (CompareHashAndPassword (UserRow.PasswordHash row)
                   (LoginRequest.Password req)) s1)
    as [[e |] s2] eqn:Hcmp; run_step; try discriminate.
  destruct (h _ (UsersUpdateLastLogin (UserRow.ID row)) s2)
    as [[e |] s3] eqn:Hupd; run_step;
    destruct (h _ Now s3) as [now1 s4] eqn:Hn1; run_step;
    destruct (h _ Now s4) as [now2 s5]; run_step;
    destruct (h _ (SessionsCreate (UserRow.ID row)
                     (Sprintf_token (UserRow.ID row) (Unix now1))
                     (Add now2 (24 * Hour))) s5) as [[e' |] s6];
    run_step; intros [= <-]; exists row;
    unfold Login_atToken, answer, after; rewrite Hget; cbn [fst snd];
    rewrite Hcmp; cbn [fst snd]; rewrite Hupd; cbn [snd]; rewrite Hn1;
    cbn [fst]; repeat split.
Qed.

Lemma Register_succeeded (s : S) (req : RegisterRequest.t)
  (resp : AuthResponse.t) :
  result (run h (Register req) s) = Ok resp ->
  exists passwordHash userID,
    answer h (GenerateFromPassword (RegisterRequest.Password req) DefaultCost)
      s = Ok passwordHash
    /\ answer h (UsersCreate (RegisterRequest.Username req)
                   (RegisterRequest.Email req) passwordHash)
         (Register_atCreate h req s) = Ok userID
    /\ resp = AuthResponse.mk
                (Sprintf_token userID
                   (Unix (answer h Now (Register_atToken h req passwordHash s))))
                (User.mk (Itoa userID) (RegisterRequest.Username req)
                   (RegisterRequest.Email req)).
Proof.
  unfold Register. run_step.
  destruct (h _ (GenerateFromPassword (RegisterRequest.Password req)
                   DefaultCost) s)
    as [[passwordHash | err] s1] eqn:Hhash; run_step; try discriminate.
  destruct (h _ (UsersExistsByUsernameOrEmail
                   (RegisterRequest.Username req)
                   (RegisterRequest.Email req)) s1)
    as [[[|] | err] s2] eqn:Hex; run_step; try discriminate.
  destruct (h _ (UsersCreate (RegisterRequest.Username req)
                   (RegisterRequest.Email req) passwordHash) s2)
    as [[userID | err] s3] eqn:Hins; run_step; try discriminate.
  destruct (h _ Now s3) as [now1 s4] eqn:Hn1. run_step.
  assert (Hat : Register_atCreate h req s = s2).
  { unfold Register_atCreate, after. rewrite Hhash. cbn [snd].
    rewrite Hex. reflexivity. }
  assert (Hclock : answer h Now (Register_atToken h req passwordHash s) = now1).
  { unfold Register_atToken, answer, after. rewrite Hat, Hins. cbn [snd].
    rewrite Hn1. reflexivity. }
  destruct (h _ Now s4) as [now2 s5]; run_step.
  destruct (h _ (SessionsCreate userID (Sprintf_token userID (Unix now1))
                   (Add now2 (24 * Hour))) s5) as [[e' |] s6];
    run_step; intros [= <-]; exists passwordHash, userID;
    rewrite Hclock, Hat; unfold answer; rewrite Hhash, Hins;
    (split; [reflexivity | split; reflexivity]).
Qed.

Lemma GetUserByToken_succeeded (s : S) (token : string) (user : User.t) :
  result (run h (GetUserByToken token) s) = Ok user ->
  exists row,
    answer h (SessionsGetUserByToken token) s = Ok (Some row)
    /\ user = User.mk (Itoa (SessionRow.UserID row))
                (SessionRow.Username row) (SessionRow.Email row).
Proof.
  unfold GetUserByToken, answer. run_step.
  destruct (h _ (SessionsGetUserByToken token) s)
    as [[[row |] | err] s1]; run_step; try discriminate.
  destruct (h _ Now s1) as [now s2]; run_step.
  destruct (After now (SessionRow.ExpiresAt row)); run_step;
    try discriminate.
  intros [= <-]. exists row. split; reflexivity.
Qed.

End AnyCollaborators.

(** ** The service against any stores, hasher and clock *)

Section Contracts.

Variable S : Type.
Variable h : Handler S.

(** C1.  Login fails with UserNotFound when the user store finds nobody
    under the username, and with InvalidCredentials when the user exists
    and the hasher's verification returns an error, be it a mismatch or
    any other failure; neither failure is an instance of the other, and
    the two sentinels differ. *)
Theorem Login_error_kinds (s : S) (req : LoginRequest.t) :
  (forall s1,
      h _ (UsersGetByUsername (LoginRequest.Username req)) s
        = (Ok None, s1) ->
      failsWith (result (run h (Login req) s)) ErrUserNotFound = true
      /\ failsWith (result (run h (Login req) s)) ErrInvalidCredentials
         = false)
  /\ (forall row e s1 s2,
         h _ (UsersGetByUsername (LoginRequest.Username req)) s
           = (Ok (Some row), s1) ->
         h _ (CompareHashAndPassword (UserRow.PasswordHash row)
                (LoginRequest.Password req)) s1 = (Some e, s2) ->
         failsWith (result (run h (Login req) s)) ErrInvalidCredentials
           = true
         /\ failsWith (result (run h (Login req) s)) ErrUserNotFound
            = false)
  /\ ErrUserNotFound <> ErrInvalidCredentials.
Proof.
  split; [| split].
  - intros s1 Hget. rewrite (Login_user_absent S h s s1 req Hget).
    split; reflexivity.
  - intros row e s1 s2 Hget Hcmp.
    rewrite (Login_compare_fails S h s s1 s2 req row e Hget Hcmp).
    split; reflexivity.
  - discriminate.
Qed.

(** C2, as the code has it.  GetUserByToken fails with SessionNotFound
    when no session carries the token; when one does, it fails with
    SessionExpired exactly when the clock reads strictly after the expiry,
    and otherwise, the expiry instant included, returns the public view
    built from the joined row.  One second before the expiry it resolves;
    with the expiry in the past it fails with SessionExpired. *)
Theorem GetUserByToken_resolution (s : S) (token : string) :
  (forall s1,
      h _ (SessionsGetUserByToken token) s = (Ok None, s1) ->
      failsWith (result (run h (GetUserByToken token) s)) ErrSessionNotFound
        = true)
  /\ (forall row now s1 s2,
         h _ (SessionsGetUserByToken token) s = (Ok (Some row), s1) ->
         h _ Now s1 = (now, s2) ->
         (SessionRow.ExpiresAt row < now ->
          failsWith (result (run h (GetUserByToken token) s))
            ErrSessionExpired = true)
         /\ (now <= SessionRow.ExpiresAt row ->
             result (run h (GetUserByToken token) s) =
               Ok (User.mk (Itoa (SessionRow.UserID row))
                     (SessionRow.Username row) (SessionRow.Email row)))
         /\ (now = SessionRow.ExpiresAt row - Second ->
             isOk (result (run h (GetUserByToken token) s)) = true)).
Proof.
  split.
  - intros s1 Hget. rewrite (GetUserByToken_absent S h s s1 token Hget).
    reflexivity.
  - intros row now s1 s2 Hget Hnow.
    rewrite (GetUserByToken_found S h s s1 s2 token row now Hget Hnow).
    unfold After. repeat split.
    + intros Hlt. apply Z.ltb_lt in Hlt. rewrite Hlt. reflexivity.
    + intros Hle. apply Z.ltb_ge in Hle. rewrite Hle. reflexivity.
    + intros ->.
      replace (SessionRow.ExpiresAt row <? SessionRow.ExpiresAt row - Second)
        with false; [reflexivity |].
      symmetry. apply Z.ltb_ge. unfold Second. lia.
Qed.

(** C3.  When the existence check answers true, Register fails with
    UserAlreadyExists, the store's create is not called, and nothing is
    asked of the collaborators after the check. *)
Theorem Register_existing_user (s s1 s2 : S) (req : RegisterRequest.t)
  (passwordHash : string) :
  h _ (GenerateFromPassword (RegisterRequest.Password req) DefaultCost) s
    = (Ok passwordHash, s1) ->
  h _ (UsersExistsByUsernameOrEmail (RegisterRequest.Username req)
         (RegisterRequest.Email req)) s1 = (Ok true, s2) ->
  failsWith (result (run h (Register req) s)) ErrUserExists = true
  /\ List.length (filter isUsersCreate (trace (run h (Register req) s)))
     = 0%nat
  /\ final (run h (Register req) s) = s2.
Proof.
  intros Hhash Hex.
  rewrite (Register_user_exists S h s s1 s2 req passwordHash Hhash Hex).
  repeat split.
Qed.

(** C4.  Once Login has verified the password (Register: inserted the
    user), the call succeeds and returns the token it generated whatever
    the last-login update and the session store's create answer; an error
    of either is recorded on the span and goes no further. *)
Theorem best_effort_writes_do_not_fail_the_call :
  (forall (req : LoginRequest.t) row updateErr sessErr now1 now2
          s s1 s2 s3 s4 s5 s6,
      h _ (UsersGetByUsername (LoginRequest.Username req)) s
        = (Ok (Some row), s1) ->
      h _ (CompareHashAndPassword (UserRow.PasswordHash row)
             (LoginRequest.Password req)) s1 = (None, s2) ->
      h _ (UsersUpdateLastLogin (UserRow.ID row)) s2 = (updateErr, s3) ->
      h _ Now s3 = (now1, s4) ->
      h _ Now s4 = (now2, s5) ->
      h _ (SessionsCreate (UserRow.ID row)
             (Sprintf_token (UserRow.ID row) (Unix now1))
             (Add now2 (24 * Hour))) s5 = (sessErr, s6) ->
      tokenOf (result (run h (Login req) s))
        = Some (Sprintf_token (UserRow.ID row) (Unix now1))
      /\ (forall e, updateErr = Some e ->
            In (Traced (RecordError (Errorf "update last_login: %w" [] e)))
              (trace (run h (Login req) s)))
      /\ (forall e, sessErr = Some e ->
            In (Traced (RecordError (Errorf "create session: %w" [] e)))
              (trace (run h (Login req) s))))
  /\ (forall (req : RegisterRequest.t) passwordHash userID sessErr now1 now2
             s s1 s2 s3 s4 s5 s6,
         h _ (GenerateFromPassword (RegisterRequest.Password req)
                DefaultCost) s = (Ok passwordHash, s1) ->
         h _ (UsersExistsByUsernameOrEmail (RegisterRequest.Username req)
                (RegisterRequest.Email req)) s1 = (Ok false, s2) ->
         h _ (UsersCreate (RegisterRequest.Username req)
                (RegisterRequest.Email req) passwordHash) s2
           = (Ok userID, s3) ->
         h _ Now s3 = (now1, s4) ->
         h _ Now s4 = (now2, s5) ->
         h _ (SessionsCreate userID (Sprintf_token userID (Unix now1))
                (Add now2 (24 * Hour))) s5 = (sessErr, s6) ->
         tokenOf (result (run h (Register req) s))
           = Some (Sprintf_token userID (Unix now1))
         /\ (forall e, sessErr = Some e ->
               In (Traced (RecordError (Errorf "create session: %w" [] e)))
                 (trace (run h (Register req) s)))).
Proof.
  split.
  - intros req row updateErr sessErr now1 now2 s s1 s2 s3 s4 s5 s6
      Hget Hcmp Hupd Hn1 Hn2 Hsess.
    rewrite (Login_verified S h s s1 s2 s3 s4 s5 s6 req row updateErr
               sessErr now1 now2 Hget Hcmp Hupd Hn1 Hn2 Hsess).
    cbn [result trace tokenOf AuthResponse.Token]. repeat split.
    + intros e ->. apply in_or_app. right. left. reflexivity.
    + intros e ->. apply in_or_app. right. apply in_or_app. right.
      apply in_or_app. right. left. reflexivity.
  - intros req passwordHash userID sessErr now1 now2 s s1 s2 s3 s4 s5 s6
      Hhash Hex Hins Hn1 Hn2 Hsess.
    rewrite (Register_inserted S h s s1 s2 s3 s4 s5 s6 req passwordHash
               userID sessErr now1 now2 Hhash Hex Hins Hn1 Hn2 Hsess).
    cbn [result trace tokenOf AuthResponse.Token]. split; [reflexivity |].
    intros e ->. apply in_or_app. right. left. reflexivity.
Qed.

(** C7, as the code has it.  Whatever error the hasher's verification
    returns, a mismatch or a failure such as a malformed digest, Login
    answers with one and the same InvalidCredentials error; the hasher's
    own error is not passed on. *)
Theorem Login_verify_failure_is_InvalidCredentials (s s1 s2 : S)
  (req : LoginRequest.t) (row : UserRow.t) (e : error) :
  h _ (UsersGetByUsername (LoginRequest.Username req)) s
    = (Ok (Some row), s1) ->
  h _ (CompareHashAndPassword (UserRow.PasswordHash row)
         (LoginRequest.Password req)) s1 = (Some e, s2) ->
  result (run h (Login req) s) =
    Err (Errorf "authenticate user %q: %w"
           [ArgString (LoginRequest.Username req)]
           (Sentinel ErrInvalidCredentials))
  /\ forall target,
       failsWith (result (run h (Login req) s)) target
       = sentinel_eqb ErrInvalidCredentials target.
Proof.
  intros Hget Hcmp.
  rewrite (Login_compare_fails S h s s1 s2 req row e Hget Hcmp).
  split; reflexivity.
Qed.

(** C8, as the code has it.  When the existence check passed and the
    store's create fails, Register returns the store's error wrapped as
    "insert user", a uniqueness violation like any other: the failure is
    UserAlreadyExists only if the store's own error is, which a database
    error never is. *)
Theorem Register_insert_failure_is_passed_on (s s1 s2 s3 : S)
  (req : RegisterRequest.t) (passwordHash : string) (err : error) :
  h _ (GenerateFromPassword (RegisterRequest.Password req) DefaultCost) s
    = (Ok passwordHash, s1) ->
  h _ (UsersExistsByUsernameOrEmail (RegisterRequest.Username req)
         (RegisterRequest.Email req)) s1 = (Ok false, s2) ->
  h _ (UsersCreate (RegisterRequest.Username req)
         (RegisterRequest.Email req) passwordHash) s2 = (Err err, s3) ->
  result (run h (Register req) s) = Err (Errorf "insert user: %w" [] err)
  /\ failsWith (result (run h (Register req) s)) ErrUserExists
     = errors_Is err ErrUserExists
  /\ (forall code, err = PgError code ->
        failsWith (result (run h (Register req) s)) ErrUserExists = false).
Proof.
  intros Hhash Hex Hins.
  rewrite (Register_insert_fails S h s s1 s2 s3 req passwordHash err
             Hhash Hex Hins).
  repeat split. intros code ->. reflexivity.
Qed.

(** C9.  A successful Login returns the token, made of the identifier of
    the row the user store returned and of the Unix second the clock read,
    and the identifier, username and email of that row; a successful Register
    returns the token, made of the identifier the store's create returned
    and of the Unix second the clock read, that identifier and the username
    and email of the request; a successful GetUserByToken returns identifier,
    username and email of the joined row.  The responses are these values
    and nothing else.  The password hash is no part of them: two successful
    Logins, against whatever collaborators, whose rows agree on identifier,
    username and email and whose clocks read the same return the same
    response, whatever the stored hashes and the passwords. *)
Theorem responses_are_public_views (s : S) :
  (forall (req : LoginRequest.t) resp,
      result (run h (Login req) s) = Ok resp ->
      exists row,
        answer h (UsersGetByUsername (LoginRequest.Username req)) s
          = Ok (Some row)
        /\ resp = AuthResponse.mk
                    (Sprintf_token (UserRow.ID row)
                       (Unix (answer h Now (Login_atToken h req row s))))
                    (User.mk (Itoa (UserRow.ID row)) (UserRow.Username row)
                       (UserRow.Email row)))
  /\ (forall (req : RegisterRequest.t) resp,
         result (run h (Register req) s) = Ok resp ->
         exists passwordHash userID,
           answer h (GenerateFromPassword (RegisterRequest.Password req)
                       DefaultCost) s = Ok passwordHash
           /\ answer h (UsersCreate (RegisterRequest.Username req)
                          (RegisterRequest.Email req) passwordHash)
                (Register_atCreate h req s) = Ok userID
           /\ resp = AuthResponse.mk
                       (Sprintf_token userID
                          (Unix (answer h Now
                                   (Register_atToken h req passwordHash s))))
                       (User.mk (Itoa userID) (RegisterRequest.Username req)
                          (RegisterRequest.Email req)))
  /\ (forall token user,
         result (run h (GetUserByToken token) s) = Ok user ->
         exists row,
           answer h (SessionsGetUserByToken token) s = Ok (Some row)
           /\ user = User.mk (Itoa (SessionRow.UserID row))
                       (SessionRow.Username row) (SessionRow.Email row))
  /\ (forall (S' : Type) (h' : Handler S') (s' : S')
             (req req' : LoginRequest.t) resp resp' row row',
         result (run h (Login req) s) = Ok resp ->
         result (run h' (Login req') s') = Ok resp' ->
         answer h (UsersGetByUsername (LoginRequest.Username req)) s
           = Ok (Some row) ->
         answer h' (UsersGetByUsername (LoginRequest.Username req')) s'
           = Ok (Some row') ->
         UserRow.ID row = UserRow.ID row' ->
         UserRow.Username row = UserRow.Username row' ->
         UserRow.Email row = UserRow.Email row' ->
         answer h Now (Login_atToken h req row s)
           = answer h' Now (Login_atToken h' req' row' s') ->
         resp = resp').
Proof.
  split; [| split; [| split]].
  - intros req resp Hok.
    destruct (Login_succeeded S h s req resp Hok) as (row & Hrow & _ & ->).
    exists row. split; [exact Hrow | reflexivity].
  - intros req resp Hok.
    destruct (Register_succeeded S h s req resp Hok)
      as (passwordHash & userID & Hhash & Hins & ->).
    exists passwordHash, userID.
    split; [exact Hhash | split; [exact Hins | reflexivity]].
  - intros token user Hok.
    exact (GetUserByToken_succeeded S h s token user Hok).
  - intros S' h' s' req req' resp resp' row row' Hok Hok' Hrow Hrow'
      Hid Hname Hmail Hclock.
    destruct (Login_succeeded S h s req resp Hok) as (r & Hr & _ & ->).
    destruct (Login_succeeded S' h' s' req' resp' Hok') as (r' & Hr' & _ & ->).
    rewrite Hrow in Hr. injection Hr as <-.
    rewrite Hrow' in Hr'. injection Hr' as <-.
    rewrite Hid, Hname, Hmail, Hclock. reflexivity.
Qed.

End Contracts.

(** ** The modelled hasher keeps the contract *)

Lemma length_append (a b : string) :
  String.length (a ++ b) = (String.length a + String.length b)%nat.
Proof.
  induction a as [| c a IH]; cbn [append String.length]; [reflexivity |].
  rewrite IH. reflexivity.
Qed.


Lemma specHasher_digest (p salt d : string) (cost : Z) :
  hash specHasher p cost salt = Ok d ->
  String.length salt = saltLength /\ d = digestPrefix ++ salt ++ p.
Proof.
  cbn [hash specHasher].
  destruct (72 <? String.length p)%nat; [discriminate |].
  destruct (String.length salt =? saltLength)%nat eqn:Hlen;
    cbn [negb]; [| discriminate].
  intros [= <-]. apply Nat.eqb_eq in Hlen. split; [exact Hlen | reflexivity].
Qed.




(** ** The service on the database *)

Lemma varchar_isText (n : nat) (value kept : string) :
  varchar n value = Ok kept -> isText value = true.
Proof.
  unfold varchar, isText. destruct (characters value);
    [reflexivity | discriminate].
Qed.

Lemma varchar_fits (n : nat) (value : string) :
  fits n value = true -> varchar n value = Ok value.
Proof.
  unfold fits, varchar. destruct (characters value); [| discriminate].
  intros ->. reflexivity.
Qed.

Lemma fits_isText (n : nat) (value : string) :
  fits n value = true -> isText value = true.
Proof.
  intros Hfits. exact (varchar_isText n value value (varchar_fits n value Hfits)).
Qed.

Lemma usersValues_inv (username email passwordHash : string)
  (kept : string * string * string) :
  usersValues username email passwordHash = Ok kept ->
  varchar 100 username = Ok (fst (fst kept))
  /\ varchar 255 email = Ok (snd (fst kept))
  /\ varchar 255 passwordHash = Ok (snd kept).
Proof.
  unfold usersValues. destruct (negb _); [discriminate |].
  destruct (varchar 100 username); [| discriminate].
  destruct (varchar 255 email); [| discriminate].
  destruct (varchar 255 passwordHash); [| discriminate].
  intros [= <-]. repeat split.
Qed.

Lemma usersValues_kept (username email passwordHash username' email'
  passwordHash' : string) :
  varchar 100 username = Ok username' ->
  varchar 255 email = Ok email' ->
  varchar 255 passwordHash = Ok passwordHash' ->
  usersValues username email passwordHash
  = Ok (username', email', passwordHash').
Proof.
  intros Hu He Hd. unfold usersValues.
  rewrite (varchar_isText _ _ _ Hu), (varchar_isText _ _ _ He),
    (varchar_isText _ _ _ Hd), Hu, He, Hd.
  reflexivity.
Qed.

Lemma existsb_usersKeyTaken (id : Z) (username email : string)
  (us : list usersRow) :
  existsb (usersKeyTaken id username email) us
  = existsb (userIdIs id) us || existsb (usernameOrEmailIs username email) us.
Proof.
  induction us as [| r us IH]; cbn [existsb]; [reflexivity |].
  rewrite IH. unfold usersKeyTaken.
  destruct (userIdIs id r), (usernameOrEmailIs username email r),
    (existsb (userIdIs id) us); reflexivity.
Qed.

Lemma find_usernameIs_new (us : list usersRow) (r : usersRow) (email : string) :
  existsb (usernameOrEmailIs (users_username r) email) us = false ->
  find (usernameIs (users_username r)) (us ++ [r]) = Some r.
Proof.
  induction us as [| r' us IH]; cbn [existsb find app].
  - intros _. unfold usernameIs. rewrite String.eqb_refl. reflexivity.
  - intros Hex. apply orb_false_iff in Hex as [Hr' Hus].
    unfold usernameOrEmailIs in Hr'. apply orb_false_iff in Hr' as [Hn _].
    unfold usernameIs at 1. rewrite Hn. exact (IH Hus).
Qed.

(** The queries leave the tables as they are; an INSERT leaves them so,
    or moves the sequence on, or moves it on and appends its row. *)
Lemma GetByUsername_reads (username : string) (w : World) :
  snd (PgxUserRepository_GetByUsername username w) = w.
Proof.
  unfold PgxUserRepository_GetByUsername.
  destruct (negb _); [reflexivity |]. destruct (find _ _); reflexivity.
Qed.

Lemma ExistsByUsernameOrEmail_reads (username email : string) (w : World) :
  snd (PgxUserRepository_ExistsByUsernameOrEmail username email w) = w.
Proof.
  unfold PgxUserRepository_ExistsByUsernameOrEmail.
  destruct (negb _); reflexivity.
Qed.

Lemma GetUserByToken_reads (token : string) (w : World) :
  snd (PgxSessionRepository_GetUserByToken token w) = w.
Proof.
  unfold PgxSessionRepository_GetUserByToken.
  destruct (negb _); [reflexivity |].
  destruct (find _ _); [destruct (find _ _) |]; reflexivity.
Qed.

Lemma PgxUserRepository_Create_cases (username email passwordHash : string)
  (w : World) :
  snd (PgxUserRepository_Create username email passwordHash w) = w
  \/ snd (PgxUserRepository_Create username email passwordHash w)
     = setUsers w (users w) (users_id_seq w + 1)
  \/ exists username' email' passwordHash',
       existsb (usersKeyTaken (users_id_seq w + 1) username' email') (users w)
       = false
       /\ snd (PgxUserRepository_Create username email passwordHash w)
          = setUsers w
              (users w
               ++ [mkUsersRow (users_id_seq w + 1) username' email'
                     passwordHash' (timestamp (clock w)) None])
              (users_id_seq w + 1).
Proof.
  unfold PgxUserRepository_Create.
  destruct (usersValues username email passwordHash)
    as [[[username' email'] passwordHash'] | e]; [| left; reflexivity].
  destruct (existsb _ _) eqn:Hkey; [right; left; reflexivity |].
  right. right. exists username', email', passwordHash'.
  split; [exact Hkey | reflexivity].
Qed.

Lemma PgxSessionRepository_Create_cases (userID : Z) (token : string)
  (expiresAt : Time) (w : World) :
  snd (PgxSessionRepository_Create userID token expiresAt w) = w
  \/ snd (PgxSessionRepository_Create userID token expiresAt w)
     = setSessions w (sessions w) (sessions_id_seq w + 1)
  \/ exists token',
       existsb (sessionsKeyTaken (sessions_id_seq w + 1) token') (sessions w)
       = false
       /\ existsb (userIdIs userID) (users w) = true
       /\ snd (PgxSessionRepository_Create userID token expiresAt w)
          = setSessions w
              (sessions w
               ++ [mkSessionsRow (sessions_id_seq w + 1) userID token'
                     (timestamp expiresAt) (timestamp (clock w))])
              (sessions_id_seq w + 1).
Proof.
  unfold PgxSessionRepository_Create.
  destruct (varchar 255 token) as [token' | e]; [| left; reflexivity].
  destruct (existsb (sessionsKeyTaken _ _) _) eqn:Hkey;
    [right; left; reflexivity |].
  destruct (negb _) eqn:Huser; [right; left; reflexivity |].
  apply negb_false_iff in Huser.
  right. right. exists token'.
  split; [exact Hkey | split; [exact Huser | reflexivity]].
Qed.

Section OnTheDatabase.

Variable H : Hasher.

Lemma PgxSessionRepository_Create_users (userID : Z) (token : string)
  (expiresAt : Time) (w : World) :
  users (snd (PgxSessionRepository_Create userID token expiresAt w)) = users w.
Proof.
  unfold PgxSessionRepository_Create.
  destruct (varchar 255 token) as [token' | e]; [| reflexivity].
  destruct (existsb (sessionsKeyTaken (sessions_id_seq w + 1) token')
              (sessions w)); [reflexivity |].
  destruct (negb (existsb (userIdIs userID) (users w))); reflexivity.
Qed.

(** What a successful Register did to the database. *)
Lemma production_Register_final (w : World) (req : RegisterRequest.t)
  (resp : AuthResponse.t) :
  result (run (production H) (Register req) w) = Ok resp ->
  exists salt rest d username email passwordHash,
    entropy w = salt :: rest
    /\ hash H (RegisterRequest.Password req) DefaultCost salt = Ok d
    /\ usersValues (RegisterRequest.Username req) (RegisterRequest.Email req) d
       = Ok (username, email, passwordHash)
    /\ existsb (usersKeyTaken (users_id_seq w + 1) username email) (users w)
       = false
    /\ resp = AuthResponse.mk
                (Sprintf_token (users_id_seq w + 1) (Unix (clock w)))
                (User.mk (Itoa (users_id_seq w + 1))
                   (RegisterRequest.Username req) (RegisterRequest.Email req))
    /\ final (run (production H) (Register req) w)
       = snd (PgxSessionRepository_Create (users_id_seq w + 1)
                (Sprintf_token (users_id_seq w + 1) (Unix (clock w)))
                (clock w + 24 * Hour)
                (setUsers (setEntropy w rest)
                   (users w
                    ++ [mkUsersRow (users_id_seq w + 1) username email
                          passwordHash (timestamp (clock w)) None])
                   (users_id_seq w + 1))).
Proof.
  unfold Register. world_step.
  destruct (entropy w) as [| salt rest]; world_step; [discriminate |].
  destruct (hash H (RegisterRequest.Password req) DefaultCost salt)
    as [d | err] eqn:Hhash; world_step; [| discriminate].
  unfold PgxUserRepository_ExistsByUsernameOrEmail.
  destruct (negb (isText (RegisterRequest.Username req)
                  && isText (RegisterRequest.Email req)));
    world_step; [discriminate |].
  destruct (existsb (usernameOrEmailIs (RegisterRequest.Username req)
                       (RegisterRequest.Email req)) (users w));
    world_step; [discriminate |].
  unfold PgxUserRepository_Create.
  destruct (usersValues (RegisterRequest.Username req)
              (RegisterRequest.Email req) d)
    as [[[username email] passwordHash] | err] eqn:Hvalues;
    world_step; [| discriminate].
  destruct (existsb (usersKeyTaken (users_id_seq w + 1) username email)
              (users w)) eqn:Hkey;
    world_step; [discriminate |].
  unfold Add.
  match goal with
  | |- context [PgxSessionRepository_Create ?a ?b ?c ?d] =>
      destruct (PgxSessionRepository_Create a b c d) as [sessErr w6] eqn:Hs
  end.
  destruct sessErr; world_step; intros [= <-];
    exists salt, rest, d, username, email, passwordHash;
    (split; [reflexivity |]); (split; [exact Hhash |]);
    (split; [exact Hvalues |]); (split; [exact Hkey |]);
    (split; [reflexivity |]);
    cbn [clock setEntropy] in Hs; rewrite Hs; reflexivity.
Qed.

Lemma production_Login_verified (w : World) (req : LoginRequest.t)
  (r : usersRow) :
  isText (LoginRequest.Username req) = true ->
  find (usernameIs (LoginRequest.Username req)) (users w) = Some r ->
  verify H (users_password_hash r) (LoginRequest.Password req) = None ->
  isOk (result (run (production H) (Login req) w)) = true.
Proof.
  intros Htext Hfind Hver.
  set (row := UserRow.mk (users_id r) (users_username r) (users_email r)
                (users_password_hash r)).
  assert (Hget : production H _ (UsersGetByUsername (LoginRequest.Username req))
                   w = (Ok (Some row), w)).
  { cbn [production]. unfold PgxUserRepository_GetByUsername.
    rewrite Htext, Hfind. reflexivity. }
  assert (Hcmp : production H _
                   (CompareHashAndPassword (UserRow.PasswordHash row)
                      (LoginRequest.Password req)) w = (None, w)).
  { cbn [production row UserRow.PasswordHash]. rewrite Hver. reflexivity. }
  rewrite (Login_verified World (production H) w w w _ _ _ _ req row _ _ _ _
             Hget Hcmp (surjective_pairing _) (surjective_pairing _)
             (surjective_pairing _) (surjective_pairing _)).
  reflexivity.
Qed.

Lemma production_Login_rejected (w : World) (req : LoginRequest.t)
  (r : usersRow) :
  isText (LoginRequest.Username req) = true ->
  find (usernameIs (LoginRequest.Username req)) (users w) = Some r ->
  verify H (users_password_hash r) (LoginRequest.Password req) <> None ->
  failsWith (result (run (production H) (Login req) w)) ErrInvalidCredentials
    = true.
Proof.
  intros Htext Hfind Hver.
  destruct (verify H (users_password_hash r) (LoginRequest.Password req))
    as [e |] eqn:Hv; [| contradiction].
  rewrite (Login_compare_fails World (production H) w w w req
             (UserRow.mk (users_id r) (users_username r) (users_email r)
                (users_password_hash r)) e).
  - reflexivity.
  - cbn [production]. unfold PgxUserRepository_GetByUsername.
    rewrite Htext, Hfind. reflexivity.
  - cbn [production UserRow.PasswordHash]. rewrite Hv. reflexivity.
Qed.

(** After a successful Register whose username and digest the table keeps
    as given, Login under that username is decided by the verification of
    the password against the digest Register stored. *)
Lemma Login_after_Register (w : World) (req : RegisterRequest.t)
  (resp : AuthResponse.t) :
  result (run (production H) (Register req) w) = Ok resp ->
  fits 100 (RegisterRequest.Username req) = true ->
  (forall salt rest d,
      entropy w = salt :: rest ->
      hash H (RegisterRequest.Password req) DefaultCost salt = Ok d ->
      fits 255 d = true) ->
  exists salt rest d,
    entropy w = salt :: rest
    /\ hash H (RegisterRequest.Password req) DefaultCost salt = Ok d
    /\ forall password,
         (verify H d password = None ->
          isOk (result (run (production H)
                          (Login (LoginRequest.mk
                                    (RegisterRequest.Username req) password))
                          (final (run (production H) (Register req) w))))
          = true)
         /\ (verify H d password <> None ->
             failsWith
               (result (run (production H)
                          (Login (LoginRequest.mk
                                    (RegisterRequest.Username req) password))
                          (final (run (production H) (Register req) w))))
               ErrInvalidCredentials = true).
Proof.
  intros Hok Hname Hdigest.
  destruct (production_Register_final w req resp Hok)
    as (salt & rest & d & username & email & passwordHash
        & Hent & Hhash & Hvalues & Hkey & _ & Hfinal).
  destruct (usersValues_inv _ _ _ _ Hvalues) as (Hu & _ & Hd).
  cbn [fst snd] in Hu, Hd.
  rewrite (varchar_fits _ _ Hname) in Hu. injection Hu as <-.
  rewrite (varchar_fits _ _ (Hdigest salt rest d Hent Hhash)) in Hd.
  injection Hd as <-.
  rewrite existsb_usersKeyTaken in Hkey.
  apply orb_false_iff in Hkey as [_ Hex].
  set (r := mkUsersRow (users_id_seq w + 1) (RegisterRequest.Username req)
              email d (timestamp (clock w)) None) in Hfinal.
  pose proof (find_usernameIs_new (users w) r email Hex) as Hfind.
  assert (Husers : users (final (run (production H) (Register req) w))
                   = (users w ++ [r])%list).
  { rewrite Hfinal, PgxSessionRepository_Create_users. reflexivity. }
  rewrite <- Husers in Hfind.
  exists salt, rest, d. split; [exact Hent |]. split; [exact Hhash |].
  intros password. split; intros Hver.
  - apply (production_Login_verified _ _ r);
      [exact (fits_isText _ _ Hname) | exact Hfind | exact Hver].
  - apply (production_Login_rejected _ _ r);
      [exact (fits_isText _ _ Hname) | exact Hfind | exact Hver].
Qed.

End OnTheDatabase.

(** ** Tokens *)

Lemma string_of_uint_allDigits (d : Decimal.uint) :
  allDigits (NilEmpty.string_of_uint d) = true.
Proof. induction d; cbn [NilEmpty.string_of_uint allDigits isDigit andb]; auto. Qed.

(** A decimal numeral: digits, at least one, after an optional minus sign. *)
Lemma Itoa_numeral (n : Z) :
  exists c ds,
    allDigits (String c ds) = true
    /\ (Itoa n = String c ds \/ Itoa n = String "-" (String c ds)).
Proof.
  assert (Hu : forall d, d <> Decimal.Nil ->
                 exists c ds, NilZero.string_of_uint d = String c ds
                              /\ allDigits (String c ds) = true).
  { intros d Hd. pose proof (string_of_uint_allDigits d) as Hall.
    destruct d; [contradiction | ..]; cbn [NilZero.string_of_uint];
      cbn [NilEmpty.string_of_uint] in *; eauto. }
  unfold Itoa. destruct n as [| p | p]; cbn [Z.to_int NilZero.string_of_int].
  - exists "0"%char, "". split; [reflexivity | left; reflexivity].
  - destruct (Hu (Pos.to_uint p) (Unsigned.to_uint_nonnil p)) as (c & ds & -> & Hall).
    exists c, ds. split; [exact Hall | left; reflexivity].
  - destruct (Hu (Pos.to_uint p) (Unsigned.to_uint_nonnil p)) as (c & ds & -> & Hall).
    exists c, ds. split; [exact Hall | right; reflexivity].
Qed.

Lemma Itoa_inj (a b : Z) : Itoa a = Itoa b -> a = b.
Proof.
  assert (Hnn : forall n, Z.to_int n <> Decimal.Pos Decimal.Nil
                          /\ Z.to_int n <> Decimal.Neg Decimal.Nil).
  { intros [| p | p]; cbn [Z.to_int]; split; try discriminate;
      intros [= Hp]; exact (Unsigned.to_uint_nonnil p Hp). }
  unfold Itoa. intros Heq. apply DecimalZ.to_int_inj.
  destruct (Hnn a) as [Ha1 Ha2]. destruct (Hnn b) as [Hb1 Hb2].
  pose proof (NilZero.isi (Z.to_int a) Ha1 Ha2) as Ia.
  pose proof (NilZero.isi (Z.to_int b) Hb1 Hb2) as Ib.
  rewrite Heq in Ia. congruence.
Qed.

Lemma digits_then_dash (a a' r r' : string) :
  allDigits a = true -> allDigits a' = true ->
  a ++ String "-" r = a' ++ String "-" r' -> a = a' /\ r = r'.
Proof.
  revert a'. induction a as [| c a IH]; intros [| c' a'];
    cbn [append allDigits]; intros Ha Ha' Heq.
  - injection Heq as ->. split; reflexivity.
  - injection Heq as <- _. discriminate.
  - injection Heq as -> _. discriminate.
  - injection Heq as -> Heq. apply andb_true_iff in Ha as [_ Ha].
    apply andb_true_iff in Ha' as [_ Ha'].
    destruct (IH a' Ha Ha' Heq) as [-> ->]. split; reflexivity.
Qed.

Lemma Sprintf_token_inj (id1 unix1 id2 unix2 : Z) :
  Sprintf_token id1 unix1 = Sprintf_token id2 unix2 ->
  id1 = id2 /\ unix1 = unix2.
Proof.
  unfold Sprintf_token. cbn [append]. intros [= Heq].
  assert (Hsplit : Itoa id1 = Itoa id2 /\ Itoa unix1 = Itoa unix2).
  { destruct (Itoa_numeral id1) as (c1 & d1 & H1 & E1).
    destruct (Itoa_numeral id2) as (c2 & d2 & H2 & E2).
    destruct E1 as [E1 | E1]; destruct E2 as [E2 | E2];
      rewrite E1, E2 in Heq |- *; cbn [append] in Heq.
    - destruct (digits_then_dash _ _ _ _ H1 H2 Heq) as [-> ->].
      split; reflexivity.
    - injection Heq as -> _. discriminate.
    - injection Heq as <- _. discriminate.
    - injection Heq as -> Heq. cbn [allDigits] in H1, H2.
      apply andb_true_iff in H1 as [_ H1]. apply andb_true_iff in H2 as [_ H2].
      destruct (digits_then_dash d1 d2 _ _ H1 H2 Heq) as [-> ->].
      split; reflexivity. }
  destruct Hsplit as [Hid Hunix].
  split; apply Itoa_inj; assumption.
Qed.

Lemma NoDup_snoc {A : Type} (l : list A) (x : A) :
  NoDup l -> ~ In x l -> NoDup (l ++ [x]).
Proof.
  induction 1 as [| y l Hy Hl IH]; cbn [app]; intros Hx.
  - constructor; [intros [] | constructor].
  - constructor.
    + rewrite in_app_iff. intros [Hin | [-> | []]]; [exact (Hy Hin) |].
      apply Hx. left. reflexivity.
    + apply IH. intros Hin. apply Hx. right. exact Hin.
Qed.

Lemma sessionsKeyTaken_free (id : Z) (token : string) (ss : list sessionsRow) :
  existsb (sessionsKeyTaken id token) ss = false ->
  ~ In token (map sessions_token ss).
Proof.
  induction ss as [| r ss IH]; cbn [existsb map In]; [tauto |].
  intros Hex. apply orb_false_iff in Hex as [Hr Hss].
  unfold sessionsKeyTaken in Hr. apply orb_false_iff in Hr as [_ Hr].
  unfold tokenIs in Hr. apply String.eqb_neq in Hr.
  intros [Heq | Hin]; [exact (Hr Heq) | exact (IH Hss Hin)].
Qed.

Lemma production_keeps_tokensUnique (H : Hasher) (X : Type) (op : Op X)
  (w : World) :
  tokensUnique w -> tokensUnique (snd (production H X op w)).
Proof.
  unfold tokensUnique. intros Hw.
  destruct op; cbn [production]; try exact Hw.
  - rewrite GetByUsername_reads. exact Hw.
  - rewrite ExistsByUsernameOrEmail_reads. exact Hw.
  - destruct (PgxUserRepository_Create_cases username email passwordHash w)
      as [-> | [-> | (u & e & d & _ & ->)]]; exact Hw.
  - destruct (PgxSessionRepository_Create_cases userID token expiresAt w)
      as [-> | [-> | (token' & Hkey & _ & ->)]]; try exact Hw.
    cbn [sessions setSessions]. rewrite map_app. cbn [map sessions_token].
    apply NoDup_snoc; [exact Hw |].
    exact (sessionsKeyTaken_free _ _ _ Hkey).
  - rewrite GetUserByToken_reads. exact Hw.
  - destruct (entropy w); [exact Hw | exact Hw].
Qed.

Lemma run_keeps_tokensUnique (H : Hasher) (A : Type) (p : Prog A) :
  forall w, tokensUnique w -> tokensUnique (final (run (production H) p w)).
Proof.
  induction p as [a | X op k IH | ev k IH]; intros w Hw; cbn [run final].
  - exact Hw.
  - apply IH. apply production_keeps_tokensUnique. exact Hw.
  - apply IH. exact Hw.
Qed.

(** ** The service on the database: registration, login and tokens *)


(** C6, as the code has it.  The sessions table never holds two rows with
    one token, whatever is run against the database.  The token a
    successful Login returns is jwt-token-v1-<id>-<second>, of the
    identifier of the row the user store returned and the Unix second the
    clock read; the token a successful Register returns is the same of the
    identifier the store's create returned and the Unix second the clock
    read; this for any stores, hasher and clock.  Two such tokens are equal
    exactly when identifier and second both agree. *)
Theorem session_tokens (H : Hasher) :
  (forall (A : Type) (p : Prog A) (w : World),
      tokensUnique w -> tokensUnique (final (run (production H) p w)))
  /\ (forall (S : Type) (h : Handler S) (s : S) (req : LoginRequest.t) resp,
         result (run h (Login req) s) = Ok resp ->
         exists row,
           answer h (UsersGetByUsername (LoginRequest.Username req)) s
             = Ok (Some row)
           /\ AuthResponse.Token resp
              = Sprintf_token (UserRow.ID row)
                  (Unix (answer h Now (Login_atToken h req row s))))
  /\ (forall (S : Type) (h : Handler S) (s : S) (req : RegisterRequest.t) resp,
         result (run h (Register req) s) = Ok resp ->
         exists passwordHash userID,
           answer h (GenerateFromPassword (RegisterRequest.Password req)
                       DefaultCost) s = Ok passwordHash
           /\ answer h (UsersCreate (RegisterRequest.Username req)
                          (RegisterRequest.Email req) passwordHash)
                (Register_atCreate h req s) = Ok userID
           /\ AuthResponse.Token resp
              = Sprintf_token userID
                  (Unix (answer h Now (Register_atToken h req passwordHash s))))
  /\ (forall id1 now1 id2 now2,
         Sprintf_token id1 (Unix now1) = Sprintf_token id2 (Unix now2)
         <-> id1 = id2 /\ Unix now1 = Unix now2).
Proof.
  split; [| split; [| split]].
  - intros A p w. apply run_keeps_tokensUnique.
  - intros S h s req resp Hok.
    destruct (Login_succeeded S h s req resp Hok) as (row & Hrow & _ & ->).
    exists row. split; [exact Hrow | reflexivity].
  - intros S h s req resp Hok.
    destruct (Register_succeeded S h s req resp Hok)
      as (passwordHash & userID & Hhash & Hins & ->).
    exists passwordHash, userID.
    split; [exact Hhash | split; [exact Hins | reflexivity]].
  - intros id1 now1 id2 now2. split.
    + apply Sprintf_token_inj.
    + intros [-> ->]. reflexivity.
Qed.

(** C10, as the code has it.  Register hands the password to the hasher
    as it comes, before anything else is asked of the collaborators,
    whatever they are.  With the empty password, Register succeeds whenever
    the hasher accepts it, the existence check answers false and the
    store's create accepts the user.  On the database, after a successful
    Register with the empty password under a username of at most
    100 characters, Login with that username and the empty password
    succeeds, when the hasher's digest of the empty password fits its
    column and verifies against it. *)
Theorem Register_accepts_the_empty_password :
  (forall (S : Type) (h : Handler S) (s : S) (req : RegisterRequest.t),
      nth_error (trace (run h (Register req) s)) 1
      = Some (Invoke (GenerateFromPassword (RegisterRequest.Password req)
                        DefaultCost)))
  /\ (forall (S : Type) (h : Handler S) (s : S) (username email d : string)
             (userID : Z),
         let req := RegisterRequest.mk username email "" in
         answer h (GenerateFromPassword "" DefaultCost) s = Ok d ->
         answer h (UsersExistsByUsernameOrEmail username email)
           (after h (GenerateFromPassword "" DefaultCost) s) = Ok false ->
         answer h (UsersCreate username email d) (Register_atCreate h req s)
           = Ok userID ->
         isOk (result (run h (Register req) s)) = true)
  /\ (forall (H : Hasher) (w : World) (username email : string) resp,
         let req := RegisterRequest.mk username email "" in
         result (run (production H) (Register req) w) = Ok resp ->
         fits 100 username = true ->
         (forall salt rest d,
             entropy w = salt :: rest ->
             hash H "" DefaultCost salt = Ok d ->
             fits 255 d = true /\ verify H d "" = None) ->
         isOk (result (run (production H)
                         (Login (LoginRequest.mk username ""))
                         (final (run (production H) (Register req) w))))
         = true).
Proof.
  split; [| split].
  - intros S h s req. reflexivity.
  - intros S h s username email d userID req Hhash Hex Hins.
    unfold answer, after, Register_atCreate in *.
    cbn [RegisterRequest.Username RegisterRequest.Email
         RegisterRequest.Password req] in *.
    rewrite (Register_inserted S h s _ _ _ _ _ _ req d userID _ _ _
               (eq_trans (surjective_pairing _) (f_equal2 pair Hhash eq_refl))
               (eq_trans (surjective_pairing _) (f_equal2 pair Hex eq_refl))
               (eq_trans (surjective_pairing _) (f_equal2 pair Hins eq_refl))
               (surjective_pairing _) (surjective_pairing _)
               (surjective_pairing _)).
    reflexivity.
  - intros H w username email resp req Hok Hname Hempty.
    destruct (Login_after_Register H w req resp Hok Hname
                (fun salt rest d He Hd => proj1 (Hempty salt rest d He Hd)))
      as (salt & rest & d & Hent & Hhash & Hlogin).
    apply (Hlogin ""). exact (proj2 (Hempty salt rest d Hent Hhash)).
Qed.

(** ** The claims on the scenarios *)

(** Nobody is called bob, and alice's password is not "wrongpass". *)
Lemma Login_error_kinds_on_alice :
  (failsWith (result (run (production specHasher)
                        (Login (LoginRequest.mk "bob" "password123"))
                        aliceWorld)) ErrUserNotFound = true
   /\ failsWith (result (run (production specHasher)
                           (Login (LoginRequest.mk "bob" "password123"))
                           aliceWorld)) ErrInvalidCredentials = false)
  /\ (failsWith (result (run (production specHasher)
                           (Login (LoginRequest.mk "alice" "wrongpass"))
                           aliceWorld)) ErrInvalidCredentials = true
      /\ failsWith (result (run (production specHasher)
                              (Login (LoginRequest.mk "alice" "wrongpass"))
                              aliceWorld)) ErrUserNotFound = false).
Proof.
  split.
  - apply (proj1 (Login_error_kinds World (production specHasher) aliceWorld
                    (LoginRequest.mk "bob" "password123")) aliceWorld).
    vm_compute. reflexivity.
  - apply (proj1 (proj2 (Login_error_kinds World (production specHasher)
                           aliceWorld (LoginRequest.mk "alice" "wrongpass")))
             aliceRow (Bcrypt ErrMismatchedHashAndPassword)
             aliceWorld aliceWorld).
    + vm_compute. reflexivity.
    + vm_compute. reflexivity.
Defined.

(** Alice's token resolves while its day has not passed. *)
Lemma GetUserByToken_resolution_on_alice :
  result (run (production specHasher) (GetUserByToken aliceToken) aliceWorld)
  = Ok aliceView.
Proof.
  apply (proj1 (proj2 (proj2 (GetUserByToken_resolution World
                                (production specHasher) aliceWorld aliceToken)
                         (SessionRow.mk 1 "alice" "alice@example.com"
                            (clock aliceWorld + 24 * Hour))
                         (clock aliceWorld) aliceWorld aliceWorld
                         eq_refl eq_refl))).
  vm_compute. discriminate.
Defined.

(** C2 as stated fails at the expiry instant: the session is found, the
    clock is not strictly before the expiry, and the token still resolves. *)
Lemma GetUserByToken_at_the_expiry_instant :
  fst (production specHasher _ (SessionsGetUserByToken aliceToken)
         (elapse (24 * Hour) aliceWorld))
  = Ok (Some (SessionRow.mk 1 "alice" "alice@example.com"
                (clock (elapse (24 * Hour) aliceWorld))))
  /\ ~ (clock (elapse (24 * Hour) aliceWorld)
        < clock (elapse (24 * Hour) aliceWorld))
  /\ failsWith (result (run (production specHasher)
                          (GetUserByToken aliceToken)
                          (elapse (24 * Hour) aliceWorld)))
       ErrSessionExpired = false
  /\ result (run (production specHasher) (GetUserByToken aliceToken)
               (elapse (24 * Hour) aliceWorld))
     = Ok aliceView.
Proof.
  split; [vm_compute; reflexivity |].
  split; [apply Z.lt_irrefl |].
  split; vm_compute; reflexivity.
Qed.

(** Alice registers a second time. *)
Lemma Register_existing_user_on_alice :
  failsWith (result (run (production specHasher) (Register alice) aliceWorld))
    ErrUserExists = true
  /\ List.length (filter isUsersCreate
                    (trace (run (production specHasher) (Register alice)
                              aliceWorld))) = 0%nat
  /\ final (run (production specHasher) (Register alice) aliceWorld)
     = setEntropy aliceWorld [].
Proof.
  apply (Register_existing_user World (production specHasher) aliceWorld
           (setEntropy aliceWorld []) (setEntropy aliceWorld []) alice
           "$2a$10$saltsaltsaltsaltsalt02password123").
  - vm_compute. reflexivity.
  - vm_compute. reflexivity.
Defined.

(** Login and Register with both best-effort writes refused. *)
Lemma best_effort_writes_refused :
  tokenOf (result (run (refusingWrites (production specHasher))
                     (Login aliceLogin) aliceWorld)) = Some aliceToken
  /\ tokenOf (result (run (refusingWrites (production specHasher))
                        (Register alice) emptyWorld)) = Some aliceToken.
Proof.
  split.
  - refine (proj1 (proj1 (best_effort_writes_do_not_fail_the_call World
                            (refusingWrites (production specHasher)))
                     aliceLogin aliceRow connectionRefused connectionRefused
                     (clock aliceWorld) (clock aliceWorld)
                     aliceWorld aliceWorld aliceWorld aliceWorld aliceWorld
                     aliceWorld aliceWorld _ _ _ _ _ _));
      vm_compute; reflexivity.
  - refine (proj1 (proj2 (best_effort_writes_do_not_fail_the_call World
                            (refusingWrites (production specHasher)))
                     alice aliceDigest 1 connectionRefused
                     (clock emptyWorld) (clock emptyWorld)
                     emptyWorld
                     (setEntropy emptyWorld [salt2])
                     (setEntropy emptyWorld [salt2])
                     aliceInserted aliceInserted aliceInserted aliceInserted
                     _ _ _ _ _ _));
      vm_compute; reflexivity.
Defined.

(** Login against a damaged digest. *)
Lemma Login_verify_failure_on_mallory :
  result (run (production specHasher)
            (Login (LoginRequest.mk "mallory" "secret")) damagedWorld)
  = Err (Errorf "authenticate user %q: %w" [ArgString "mallory"]
           (Sentinel ErrInvalidCredentials)).
Proof.
  refine (proj1 (Login_verify_failure_is_InvalidCredentials World
                   (production specHasher) damagedWorld damagedWorld
                   damagedWorld (LoginRequest.mk "mallory" "secret")
                   (UserRow.mk 7 "mallory" "mallory@example.com" "not-a-digest")
                   (Bcrypt ErrHashTooShort) _ _));
    vm_compute; reflexivity.
Defined.

(** C7 as stated fails on a damaged digest: verification fails for another
    reason than a wrong password, and Login classifies the failure exactly
    as it classifies alice's wrong password. *)
Lemma Login_does_not_tell_a_damaged_digest_from_a_mismatch :
  verify specHasher (users_password_hash mallory) "secret"
  = Some (Bcrypt ErrHashTooShort)
  /\ verify specHasher aliceDigest "wrongpass"
     = Some (Bcrypt ErrMismatchedHashAndPassword)
  /\ failsWith (result (run (production specHasher)
                          (Login (LoginRequest.mk "mallory" "secret"))
                          damagedWorld)) ErrInvalidCredentials = true
  /\ failsWith (result (run (production specHasher)
                          (Login (LoginRequest.mk "alice" "wrongpass"))
                          aliceWorld)) ErrInvalidCredentials = true.
Proof. repeat split; vm_compute; reflexivity. Qed.

(** A rival registration of "alice" lands between check and insert. *)
Lemma Register_insert_failure_in_the_race :
  result (run (interleaved (production specHasher)) (Register alice) raceStart)
  = Err (Errorf "insert user: %w" [] (PgError unique_violation)).
Proof.
  refine (proj1 (Register_insert_failure_is_passed_on _
                   (interleaved (production specHasher)) raceStart
                   ([(fun w => w); rivalInsert], setEntropy emptyWorld [salt2])
                   ([rivalInsert], setEntropy emptyWorld [salt2])
                   ([], snd (PgxUserRepository_Create "alice"
                               "alice@example.com" aliceDigest
                               (rivalInsert (setEntropy emptyWorld [salt2]))))
                   alice aliceDigest (PgError unique_violation) _ _ _));
    vm_compute; reflexivity.
Defined.

(** C8 as stated fails in the race: the existence check passed, the insert
    was refused with PostgreSQL's unique_violation, which is there to be
    detected, and Register's failure is not UserAlreadyExists. *)
Lemma Register_race_is_not_UserAlreadyExists :
  fst (interleaved (production specHasher) _
         (UsersExistsByUsernameOrEmail "alice" "alice@example.com")
         ([(fun w => w); rivalInsert], setEntropy emptyWorld [salt2]))
  = Ok false
  /\ fst (interleaved (production specHasher) _
            (UsersCreate "alice" "alice@example.com" aliceDigest)
            ([rivalInsert], setEntropy emptyWorld [salt2]))
     = Err (PgError unique_violation)
  /\ result (run (interleaved (production specHasher)) (Register alice)
               raceStart)
     = Err (Errorf "insert user: %w" [] (PgError unique_violation))
  /\ failsWith (result (run (interleaved (production specHasher))
                          (Register alice) raceStart)) ErrUserExists = false.
Proof. repeat split; vm_compute; reflexivity. Qed.

(** What alice's login returns, and that it returns the same under
    another password and digest. *)
Lemma responses_are_public_views_on_alice :
  (exists row,
      answer (production specHasher) (UsersGetByUsername "alice") aliceWorld
      = Ok (Some row)
      /\ AuthResponse.mk aliceToken aliceView
         = AuthResponse.mk
             (Sprintf_token (UserRow.ID row)
                (Unix (answer (production specHasher) Now
                         (Login_atToken (production specHasher) aliceLogin
                            row aliceWorld))))
             (User.mk (Itoa (UserRow.ID row)) (UserRow.Username row)
                (UserRow.Email row)))
  /\ AuthResponse.mk aliceToken aliceView
     = AuthResponse.mk aliceToken (User.mk "1" "alice" "alice@example.com").
Proof.
  split.
  - apply (proj1 (responses_are_public_views World (production specHasher)
                    aliceWorld) aliceLogin
             (AuthResponse.mk aliceToken aliceView)).
    vm_compute. reflexivity.
  - refine (proj2 (proj2 (proj2 (responses_are_public_views World
                                   (production specHasher) aliceWorld)))
              World (production specHasher) aliceRehashed aliceLogin
              (LoginRequest.mk "alice" "hunter2")
              (AuthResponse.mk aliceToken aliceView)
              (AuthResponse.mk aliceToken
                 (User.mk "1" "alice" "alice@example.com"))
              aliceRow
              (UserRow.mk 1 "alice" "alice@example.com"
                 (digestPrefix ++ salt2 ++ "hunter2"))
              _ _ _ _ _ _ _ _); vm_compute; reflexivity.
Defined.



(** C6 as stated fails when Login follows Register within the second: both
    calls succeed, and Login hands out the token registration issued. *)
Lemma Login_reissues_the_registration_token :
  tokenOf (result (run (production specHasher) (Register alice) emptyWorld))
  = Some aliceToken
  /\ tokenOf (result (run (production specHasher) (Login aliceLogin)
                        (final (run (production specHasher) (Register alice)
                                  emptyWorld))))
     = Some aliceToken.
Proof. split; vm_compute; reflexivity. Qed.

(** The table stays duplicate-free through alice's login, whose token is
    the one of her identifier and of the second the clock read. *)
Lemma session_tokens_on_alice :
  tokensUnique (final (run (production specHasher) (Login aliceLogin)
                         aliceWorld))
  /\ exists row,
       answer (production specHasher) (UsersGetByUsername "alice") aliceWorld
       = Ok (Some row)
       /\ aliceToken
          = Sprintf_token (UserRow.ID row)
              (Unix (answer (production specHasher) Now
                       (Login_atToken (production specHasher) aliceLogin row
                          aliceWorld))).
Proof.
  split.
  - apply (proj1 (session_tokens specHasher) _ (Login aliceLogin) aliceWorld).
    unfold tokensUnique. vm_compute.
    constructor; [intros [] | constructor].
  - apply (proj1 (proj2 (session_tokens specHasher)) World
             (production specHasher) aliceWorld aliceLogin
             (AuthResponse.mk aliceToken aliceView)).
    vm_compute. reflexivity.
Defined.

(** A user registers with the empty password and logs in with it. *)
Lemma Register_accepts_the_empty_password_on_alice :
  isOk (result (run (production specHasher)
                  (Register (RegisterRequest.mk "alice" "alice@example.com" ""))
                  emptyWorld)) = true
  /\ isOk (result (run (production specHasher)
                     (Login (LoginRequest.mk "alice" ""))
                     (final (run (production specHasher)
                               (Register (RegisterRequest.mk "alice"
                                            "alice@example.com" ""))
                               emptyWorld)))) = true.
Proof.
  split.
  - refine (proj1 (proj2 Register_accepts_the_empty_password) World
              (production specHasher) emptyWorld "alice" "alice@example.com"
              "$2a$10$saltsaltsaltsaltsalt01" 1 _ _ _);
      vm_compute; reflexivity.
  - refine (proj2 (proj2 Register_accepts_the_empty_password) specHasher
              emptyWorld "alice" "alice@example.com"
              (AuthResponse.mk aliceToken
                 (User.mk "1" "alice" "alice@example.com")) _ _ _).
    + vm_compute. reflexivity.
    + vm_compute. reflexivity.
    + intros salt rest d [= <- _] Hd.
      destruct (specHasher_digest _ _ _ _ Hd) as [_ ->].
      split; vm_compute; reflexivity.
Defined.

(** C10 as stated fails for a username and email that are not in the
    table: one letter more than the username column takes and the store
    refuses the user; and on the database as the repository's seed script
    leaves it, the first identifier of the sequence is taken and the store
    refuses whoever registers first.  And where Register succeeds, under a
    username one blank longer than its column, the Login that follows finds
    nobody. *)
Lemma Register_with_the_empty_password_refused :
  (fst (PgxUserRepository_ExistsByUsernameOrEmail overlong "long@example.com"
          emptyWorld) = Ok false
   /\ result (run (production specHasher)
                (Register (RegisterRequest.mk overlong "long@example.com" ""))
                emptyWorld)
      = Err (Errorf "insert user: %w" []
               (PgError string_data_right_truncation)))
  /\ (fst (PgxUserRepository_ExistsByUsernameOrEmail "zoe" "zoe@example.com"
             seededWorld) = Ok false
      /\ result (run (production specHasher) (Register zoe) seededWorld)
         = Err (Errorf "insert user: %w" [] (PgError unique_violation)))
  /\ (isOk (result (run (production specHasher)
                      (Register (RegisterRequest.mk blankPadded
                                   "padded@example.com" ""))
                      emptyWorld)) = true
      /\ failsWith
           (result (run (production specHasher)
                      (Login (LoginRequest.mk blankPadded ""))
                      (final (run (production specHasher)
                                (Register (RegisterRequest.mk blankPadded
                                             "padded@example.com" ""))
                                emptyWorld))))
           ErrUserNotFound = true).
Proof. repeat split; vm_compute; reflexivity. Qed.

(** ** Further properties of the service, against any collaborators *)

Section FurtherContracts.

Variable S : Type.
Variable h : Handler S.

(** X1.  When hashing fails, Register returns the hasher's error wrapped as
    "hash password", has asked nothing of either store, and leaves the
    collaborators as the hasher left them. *)
Theorem Register_hashing_failure (s s1 : S) (req : RegisterRequest.t)
  (err : error) :
  h _ (GenerateFromPassword (RegisterRequest.Password req) DefaultCost) s
    = (Err err, s1) ->
  result (run h (Register req) s) = Err (Errorf "hash password: %w" [] err)
  /\ filter isStoreCall (trace (run h (Register req) s)) = []
  /\ final (run h (Register req) s) = s1.
Proof.
  intros Hhash. unfold Register. answer Hhash. repeat split.
Qed.

(** X2.  An error of a store lookup is not a "not found": Login returns the
    user store's error wrapped as "query user", Register the existence
    check's error wrapped as "check existing user", GetUserByToken the
    session store's error wrapped as "query session"; each stops there,
    with no further call, and is UserNotFound, UserAlreadyExists or
    SessionNotFound only if the store's own error is. *)
Theorem store_lookup_errors_are_passed_on (err : error) :
  (forall (req : LoginRequest.t) s s1,
      h _ (UsersGetByUsername (LoginRequest.Username req)) s = (Err err, s1) ->
      result (run h (Login req) s)
        = Err (Errorf "query user %q: %w"
                 [ArgString (LoginRequest.Username req)] err)
      /\ failsWith (result (run h (Login req) s)) ErrUserNotFound
         = errors_Is err ErrUserNotFound
      /\ final (run h (Login req) s) = s1)
  /\ (forall (req : RegisterRequest.t) passwordHash s s1 s2,
         h _ (GenerateFromPassword (RegisterRequest.Password req) DefaultCost)
           s = (Ok passwordHash, s1) ->
         h _ (UsersExistsByUsernameOrEmail (RegisterRequest.Username req)
                (RegisterRequest.Email req)) s1 = (Err err, s2) ->
         result (run h (Register req) s)
           = Err (Errorf "check existing user: %w" [] err)
         /\ failsWith (result (run h (Register req) s)) ErrUserExists
            = errors_Is err ErrUserExists
         /\ final (run h (Register req) s) = s2)
  /\ (forall token s s1,
         h _ (SessionsGetUserByToken token) s = (Err err, s1) ->
         result (run h (GetUserByToken token) s)
           = Err (Errorf "query session: %w" [] err)
         /\ failsWith (result (run h (GetUserByToken token) s))
              ErrSessionNotFound = errors_Is err ErrSessionNotFound
         /\ final (run h (GetUserByToken token) s) = s1).
Proof.
  split; [| split].
  - intros req s s1 Hget. unfold Login. answer Hget. repeat split.
  - intros req passwordHash s s1 s2 Hhash Hex. unfold Register.
    answer Hhash. answer Hex. repeat split.
  - intros token s s1 Hget. unfold GetUserByToken. answer Hget. repeat split.
Qed.

(** X3.  A Login that fails has made no write to either store; a Register
    that fails has created no session; GetUserByToken never writes. *)
Theorem failed_calls_write_nothing (s : S) :
  (forall req : LoginRequest.t,
      isOk (result (run h (Login req) s)) = false ->
      filter isWrite (trace (run h (Login req) s)) = [])
  /\ (forall req : RegisterRequest.t,
         isOk (result (run h (Register req) s)) = false ->
         filter isSessionsCreate (trace (run h (Register req) s)) = [])
  /\ (forall token,
         filter isWrite (trace (run h (GetUserByToken token) s)) = []).
Proof.
  split; [| split].
  - intros req. unfold Login. run_step.
    destruct (h _ (UsersGetByUsername (LoginRequest.Username req)) s)
      as [[[row |] | err] s1]; run_step; try reflexivity.
    destruct (h _ (CompareHashAndPassword (UserRow.PasswordHash row)
                     (LoginRequest.Password req)) s1)
      as [[e |] s2]; run_step; try reflexivity.
    destruct (h _ (UsersUpdateLastLogin (UserRow.ID row)) s2)
      as [[e |] s3]; run_step;
      destruct (h _ Now s3) as [now1 s4]; run_step;
      destruct (h _ Now s4) as [now2 s5]; run_step;
      destruct (h _ (SessionsCreate (UserRow.ID row)
                       (Sprintf_token (UserRow.ID row) (Unix now1))
                       (Add now2 (24 * Hour))) s5) as [[e' |] s6];
      run_step; discriminate.
  - intros req. unfold Register. run_step.
    destruct (h _ (GenerateFromPassword (RegisterRequest.Password req)
                     DefaultCost) s)
      as [[passwordHash | err] s1]; run_step; try reflexivity.
    destruct (h _ (UsersExistsByUsernameOrEmail
                     (RegisterRequest.Username req)
                     (RegisterRequest.Email req)) s1)
      as [[[|] | err] s2]; run_step; try reflexivity.
    destruct (h _ (UsersCreate (RegisterRequest.Username req)
                     (RegisterRequest.Email req) passwordHash) s2)
      as [[userID | err] s3]; run_step; try reflexivity.
    destruct (h _ Now s3) as [now1 s4]; run_step.
    destruct (h _ Now s4) as [now2 s5]; run_step.
    destruct (h _ (SessionsCreate userID
                     (Sprintf_token userID (Unix now1))
                     (Add now2 (24 * Hour))) s5) as [[e' |] s6];
      run_step; discriminate.
  - intros token. unfold GetUserByToken. run_step.
    destruct (h _ (SessionsGetUserByToken token) s)
      as [[[row |] | err] s1]; run_step; try reflexivity.
    destruct (h _ Now s1) as [now s2]; run_step.
    destruct (After now (SessionRow.ExpiresAt row)); reflexivity.
Qed.

(** X4.  Nothing is retried: whatever the collaborators answer, Login makes
    at most three store calls, Register at most three, and GetUserByToken
    exactly one. *)
Theorem store_calls_are_not_retried (s : S) :
  (forall req : LoginRequest.t,
      (List.length (filter isStoreCall (trace (run h (Login req) s))) <= 3)%nat)
  /\ (forall req : RegisterRequest.t,
         (List.length (filter isStoreCall (trace (run h (Register req) s)))
          <= 3)%nat)
  /\ (forall token,
         List.length (filter isStoreCall
                        (trace (run h (GetUserByToken token) s))) = 1%nat).
Proof.
  split; [| split].
  - intros req. unfold Login. run_step.
    destruct (h _ (UsersGetByUsername (LoginRequest.Username req)) s)
      as [[[row |] | err] s1]; run_step; try (cbn; lia).
    destruct (h _ (CompareHashAndPassword (UserRow.PasswordHash row)
                     (LoginRequest.Password req)) s1)
      as [[e |] s2]; run_step; try (cbn; lia).
    destruct (h _ (UsersUpdateLastLogin (UserRow.ID row)) s2)
      as [[e |] s3]; run_step;
      destruct (h _ Now s3) as [now1 s4]; run_step;
      destruct (h _ Now s4) as [now2 s5]; run_step;
      destruct (h _ (SessionsCreate (UserRow.ID row)
                       (Sprintf_token (UserRow.ID row) (Unix now1))
                       (Add now2 (24 * Hour))) s5) as [[e' |] s6];
      run_step; cbn; lia.
  - intros req. unfold Register. run_step.
    destruct (h _ (GenerateFromPassword (RegisterRequest.Password req)
                     DefaultCost) s)
      as [[passwordHash | err] s1]; run_step; try (cbn; lia).
    destruct (h _ (UsersExistsByUsernameOrEmail
                     (RegisterRequest.Username req)
                     (RegisterRequest.Email req)) s1)
      as [[[|] | err] s2]; run_step; try (cbn; lia).
    destruct (h _ (UsersCreate (RegisterRequest.Username req)
                     (RegisterRequest.Email req) passwordHash) s2)
      as [[userID | err] s3]; run_step; try (cbn; lia).
    destruct (h _ Now s3) as [now1 s4]; run_step.
    destruct (h _ Now s4) as [now2 s5]; run_step.
    destruct (h _ (SessionsCreate userID
                     (Sprintf_token userID (Unix now1))
                     (Add now2 (24 * Hour))) s5) as [[e' |] s6];
      run_step; cbn; lia.
  - intros token. unfold GetUserByToken. run_step.
    destruct (h _ (SessionsGetUserByToken token) s)
      as [[[row |] | err] s1]; run_step; try reflexivity.
    destruct (h _ Now s1) as [now s2]; run_step.
    destruct (After now (SessionRow.ExpiresAt row)); reflexivity.
Qed.

End FurtherContracts.

(** ** The tables under the repositories *)

Lemma UpdateLastLogin_touches (userID : Z) (w : World) :
  users (snd (PgxUserRepository_UpdateLastLogin userID w))
  = map (touch (timestamp (clock w)) userID) (users w).
Proof. reflexivity. Qed.

Lemma credentials_touch (now : Time) (userID : Z) (r : usersRow) :
  credentials (touch now userID r) = credentials r.
Proof. unfold touch. destruct (userIdIs userID r); reflexivity. Qed.

Lemma map_credentials_touch (now : Time) (userID : Z) (us : list usersRow) :
  map credentials (map (touch now userID) us) = map credentials us.
Proof.
  rewrite map_map. apply map_ext. intros r. apply credentials_touch.
Qed.








Section Tables.

Variable H : Hasher.



End Tables.

(** ** Invariants of the database under any run *)

Lemma production_only_appends (H : Hasher) (X : Type) (op : Op X) (w : World) :
  (exists added,
      map credentials (users (snd (production H X op w)))
      = (map credentials (users w) ++ added)%list)
  /\ (exists added,
         sessions (snd (production H X op w)) = (sessions w ++ added)%list).
Proof.
  assert (Hsame : forall w', users w' = users w -> sessions w' = sessions w ->
            (exists added, map credentials (users w')
                           = (map credentials (users w) ++ added)%list)
            /\ (exists added, sessions w' = (sessions w ++ added)%list)).
  { intros w' -> ->. split; exists []; rewrite app_nil_r; reflexivity. }
  destruct op; cbn [production]; try (apply Hsame; reflexivity).
  - rewrite GetByUsername_reads. apply Hsame; reflexivity.
  - rewrite ExistsByUsernameOrEmail_reads. apply Hsame; reflexivity.
  - destruct (PgxUserRepository_Create_cases username email passwordHash w)
      as [-> | [-> | (u & e & d & _ & ->)]]; try (apply Hsame; reflexivity).
    cbn [users sessions setUsers]. split.
    + rewrite map_app. eexists. reflexivity.
    + exists []. rewrite app_nil_r. reflexivity.
  - rewrite UpdateLastLogin_touches, map_credentials_touch. split.
    + exists []. rewrite app_nil_r. reflexivity.
    + exists []. rewrite app_nil_r. reflexivity.
  - destruct (PgxSessionRepository_Create_cases userID token expiresAt w)
      as [-> | [-> | (token' & _ & _ & ->)]]; try (apply Hsame; reflexivity).
    cbn [users sessions setSessions]. split.
    + exists []. rewrite app_nil_r. reflexivity.
    + eexists. reflexivity.
  - rewrite GetUserByToken_reads. apply Hsame; reflexivity.
  - destruct (entropy w); apply Hsame; reflexivity.
Qed.


(** X6.  No run deletes a row or alters a user's identifier, username,
    email or password hash: after any run the users' credentials and the
    sessions are those of before, followed by what the run added. *)
Theorem runs_only_append (H : Hasher) (A : Type) (p : Prog A) (w : World) :
  (exists added,
      map credentials (users (final (run (production H) p w)))
      = (map credentials (users w) ++ added)%list)
  /\ (exists added,
         sessions (final (run (production H) p w))
         = (sessions w ++ added)%list).
Proof.
  revert w. induction p as [a | X op k IH | ev k IH]; intros w;
    cbn [run final].
  - split; exists []; rewrite app_nil_r; reflexivity.
  - destruct (production_only_appends H X op w) as [[u1 Hu1] [s1 Hs1]].
    destruct (IH (fst (production H X op w)) (snd (production H X op w)))
      as [[u2 Hu2] [s2 Hs2]].
    split.
    + exists (u1 ++ u2)%list. rewrite Hu2, Hu1, app_assoc. reflexivity.
    + exists (s1 ++ s2)%list. rewrite Hs2, Hs1, app_assoc. reflexivity.
  - apply IH.
Qed.

(** ** Insert and look up *)

Lemma userIdIs_beyond_sequence (w : World) :
  idsFromSequence w -> existsb (userIdIs (users_id_seq w + 1)) (users w) = false.
Proof.
  unfold idsFromSequence. induction 1 as [| r us Hr _ IH]; [reflexivity |].
  cbn [existsb]. rewrite IH. unfold userIdIs.
  replace (users_id r =? users_id_seq w + 1) with false; [reflexivity |].
  symmetry. apply Z.eqb_neq. lia.
Qed.

(** X7.  A user that the store's Create accepted, with a username, email
    and hash that fit their columns (100, 255 and 255 characters), is found
    again: the new identifier is the next of the sequence, GetByUsername
    returns the row with the username, email and hash that were given, and
    the existence check answers true for the username and for the email. *)
Theorem Create_then_GetByUsername (username email passwordHash : string)
  (w w' : World) (id : Z) :
  fits 100 username = true ->
  fits 255 email = true ->
  fits 255 passwordHash = true ->
  PgxUserRepository_Create username email passwordHash w = (Ok id, w') ->
  id = users_id_seq w + 1
  /\ fst (PgxUserRepository_GetByUsername username w')
     = Ok (Some (UserRow.mk id username email passwordHash))
  /\ (forall email',
         isText email' = true ->
         fst (PgxUserRepository_ExistsByUsernameOrEmail username email' w')
         = Ok true)
  /\ (forall username',
         isText username' = true ->
         fst (PgxUserRepository_ExistsByUsernameOrEmail username' email w')
         = Ok true).
Proof.
  intros Hu He Hd. unfold PgxUserRepository_Create.
  rewrite (usersValues_kept _ _ _ _ _ _ (varchar_fits _ _ Hu)
             (varchar_fits _ _ He) (varchar_fits _ _ Hd)).
  destruct (existsb _ _) eqn:Hkey; [discriminate |].
  intros [= <- <-]. rewrite existsb_usersKeyTaken in Hkey.
  apply orb_false_iff in Hkey as [_ Hex].
  pose proof (find_usernameIs_new (users w)
                (mkUsersRow (users_id_seq w + 1) username email passwordHash
                   (timestamp (clock w)) None) email Hex) as Hfind.
  cbn [users_username] in Hfind.
  split; [reflexivity |]. split; [| split].
  - unfold PgxUserRepository_GetByUsername. cbn [users setUsers].
    rewrite (fits_isText _ _ Hu), Hfind. reflexivity.
  - intros email' He'. unfold PgxUserRepository_ExistsByUsernameOrEmail.
    rewrite (fits_isText _ _ Hu), He'.
    cbn [users setUsers fst andb negb]. rewrite existsb_app. cbn [existsb].
    unfold usernameOrEmailIs at 2. cbn [users_username].
    rewrite String.eqb_refl, orb_true_r. reflexivity.
  - intros username' Hu'. unfold PgxUserRepository_ExistsByUsernameOrEmail.
    rewrite (fits_isText _ _ He), Hu'.
    cbn [users setUsers fst andb negb]. rewrite existsb_app. cbn [existsb].
    unfold usernameOrEmailIs at 2. cbn [users_email].
    rewrite String.eqb_refl, !orb_true_r. reflexivity.
Qed.

(** X8.  With the sequence ahead of the identifiers in the table, and a
    username, email and hash that fit their columns, the store's Create
    fails exactly when the existence check finds the username or the
    email: it then answers PostgreSQL's unique_violation and keeps the rows
    as they are, and otherwise it inserts. *)
Theorem Create_agrees_with_the_existence_check (username email
  passwordHash : string) (w : World) :
  idsFromSequence w ->
  fits 100 username = true ->
  fits 255 email = true ->
  fits 255 passwordHash = true ->
  (fst (PgxUserRepository_ExistsByUsernameOrEmail username email w) = Ok true ->
   fst (PgxUserRepository_Create username email passwordHash w)
   = Err (PgError unique_violation)
   /\ users (snd (PgxUserRepository_Create username email passwordHash w))
      = users w)
  /\ (fst (PgxUserRepository_ExistsByUsernameOrEmail username email w)
      = Ok false ->
      fst (PgxUserRepository_Create username email passwordHash w)
      = Ok (users_id_seq w + 1)).
Proof.
  intros Hids Hu He Hd. unfold PgxUserRepository_ExistsByUsernameOrEmail,
    PgxUserRepository_Create.
  rewrite (usersValues_kept _ _ _ _ _ _ (varchar_fits _ _ Hu)
             (varchar_fits _ _ He) (varchar_fits _ _ Hd)).
  rewrite (fits_isText _ _ Hu), (fits_isText _ _ He). cbn [andb negb fst].
  rewrite existsb_usersKeyTaken, (userIdIs_beyond_sequence w Hids).
  cbn [orb]. split; intros [= ->]; [split |]; reflexivity.
Qed.

Lemma find_some_of_existsb {A : Type} (p : A -> bool) (l : list A) :
  existsb p l = true -> exists x, find p l = Some x /\ p x = true.
Proof.
  induction l as [| a l IH]; cbn [existsb find]; [discriminate |].
  destruct (p a) eqn:Hp; [intros _; exists a; split; [reflexivity | exact Hp] |].
  exact IH.
Qed.

Lemma find_app_new {A : Type} (p : A -> bool) (l : list A) (x : A) :
  find p l = None -> p x = true -> find p (l ++ [x]) = Some x.
Proof.
  induction l as [| a l IH]; cbn [find app]; intros Hnone Hx.
  - rewrite Hx. reflexivity.
  - destruct (p a); [discriminate |]. exact (IH Hnone Hx).
Qed.

Lemma find_none_of_existsb {A : Type} (p q : A -> bool) (l : list A) :
  (forall x, q x = true -> p x = true) ->
  existsb p l = false -> find q l = None.
Proof.
  intros Hqp. induction l as [| a l IH]; cbn [existsb find]; [reflexivity |].
  intros Hex. apply orb_false_iff in Hex as [Ha Hl].
  destruct (q a) eqn:Hq; [rewrite (Hqp a Hq) in Ha; discriminate |].
  exact (IH Hl).
Qed.

Lemma timestamp_cut (t : Time) :
  timestamp t <= t < timestamp t + Microsecond.
Proof.
  unfold timestamp, Microsecond.
  pose proof (Z.mod_pos_bound t 1000 ltac:(lia)) as Hmod.
  pose proof (Z.div_mod t 1000 ltac:(lia)) as Hdiv. lia.
Qed.

(** X9.  A session that the store's Create accepted, with a token that
    fits its column (255 characters), is found again under the token:
    GetUserByToken returns the identifier, username and email of the
    owning user and the expiry that was given cut to the microsecond, at
    most the expiry given and less than a microsecond before it. *)
Theorem SessionsCreate_then_GetUserByToken (userID : Z) (token : string)
  (expiresAt : Time) (w w' : World) :
  fits 255 token = true ->
  PgxSessionRepository_Create userID token expiresAt w = (None, w') ->
  exists r,
    find (userIdIs userID) (users w) = Some r
    /\ fst (PgxSessionRepository_GetUserByToken token w')
       = Ok (Some (SessionRow.mk userID (users_username r) (users_email r)
                     (timestamp expiresAt)))
    /\ timestamp expiresAt <= expiresAt < timestamp expiresAt + Microsecond.
Proof.
  intros Htoken. unfold PgxSessionRepository_Create.
  rewrite (varchar_fits _ _ Htoken).
  destruct (existsb (sessionsKeyTaken _ _) _) eqn:Hkey; [discriminate |].
  destruct (negb _) eqn:Huser; [discriminate |].
  apply negb_false_iff in Huser. intros [= <-].
  destruct (find_some_of_existsb _ _ Huser) as (r & Hfind & Hid).
  exists r. split; [exact Hfind |]. split; [| apply timestamp_cut].
  unfold PgxSessionRepository_GetUserByToken. cbn [sessions users setSessions].
  rewrite (fits_isText _ _ Htoken). cbn [negb].
  rewrite (find_app_new (tokenIs token) (sessions w)
             (mkSessionsRow (sessions_id_seq w + 1) userID token
                (timestamp expiresAt) (timestamp (clock w)))).
  - cbn [sessions_user_id sessions_expires_at]. rewrite Hfind. cbn [fst].
    unfold userIdIs in Hid. apply Z.eqb_eq in Hid. rewrite Hid. reflexivity.
  - apply (find_none_of_existsb (sessionsKeyTaken (sessions_id_seq w + 1) token));
      [| exact Hkey].
    intros x Hx. unfold sessionsKeyTaken. rewrite Hx. apply orb_true_r.
  - unfold tokenIs. cbn [sessions_token]. apply String.eqb_refl.
Qed.

(** ** The life of a session *)

Lemma elapse_0 (w : World) : elapse 0 w = w.
Proof. destruct w. unfold elapse. cbn. rewrite Z.add_0_r. reflexivity. Qed.

Lemma timestamp_mono (t u : Time) : t <= u -> timestamp t <= timestamp u.
Proof.
  unfold timestamp, Microsecond. intros Htu.
  pose proof (Z.div_le_mono t u 1000 ltac:(lia) Htu). lia.
Qed.

Lemma hd_nonneg (ds : list Z) :
  Forall (fun d => 0 <= d) ds -> 0 <= hd 0 ds.
Proof. intros [| d l Hd _]; cbn [hd]; lia. Qed.

Lemma tl_nonneg (ds : list Z) :
  Forall (fun d => 0 <= d) ds -> Forall (fun d => 0 <= d) (tl ds).
Proof. intros [| d l _ Hl]; cbn [tl]; [constructor | exact Hl]. Qed.

Section Sessions.

Variable H : Hasher.

Lemma interleaved_passing (X : Type) (op : Op X) (ds : list Z) (w : World) :
  interleaved (production H) X op (passing ds, w)
  = (fst (production H X op (elapse (hd 0 ds) w)),
     (passing (tl ds), snd (production H X op (elapse (hd 0 ds) w)))).
Proof.
  destruct ds as [| d ds]; unfold interleaved, passing; cbn [fst snd map hd tl].
  - rewrite elapse_0. reflexivity.
  - reflexivity.
Qed.

Ltac paced_step :=
  rewrite interleaved_passing;
  cbn [run bind call span deferSpanEnd result final trace fst snd production].

Lemma paced_Login_inversion (w : World) (ds : list Z) (req : LoginRequest.t)
  (resp : AuthResponse.t) :
  result (run (interleaved (production H)) (Login req) (passing ds, w))
  = Ok resp ->
  exists r now1 now2 w5 t,
    find (usernameIs (LoginRequest.Username req)) (users w) = Some r
    /\ resp = AuthResponse.mk
                (Sprintf_token (users_id r) (Unix now1))
                (User.mk (Itoa (users_id r)) (users_username r)
                   (users_email r))
    /\ snd (final (run (interleaved (production H)) (Login req)
                     (passing ds, w)))
       = snd (PgxSessionRepository_Create (users_id r)
                (Sprintf_token (users_id r) (Unix now1))
                (now2 + 24 * Hour) w5)
    /\ users w5 = map (touch t (users_id r)) (users w)
    /\ sessions w5 = sessions w
    /\ sessions_id_seq w5 = sessions_id_seq w
    /\ (Forall (fun d => 0 <= d) ds ->
        clock w <= now2 /\ now2 <= clock w5).
Proof.
  unfold Login. run_step. paced_step.
  unfold PgxUserRepository_GetByUsername.
  destruct (negb (isText (LoginRequest.Username req))); run_step;
    [discriminate |].
  cbn [users elapse].
  destruct (find (usernameIs (LoginRequest.Username req)) (users w))
    as [r |] eqn:Hfind; run_step; [| discriminate].
  cbn [UserRow.PasswordHash UserRow.ID UserRow.Username UserRow.Email].
  paced_step.
  destruct (verify H (users_password_hash r) (LoginRequest.Password req))
    as [e |] eqn:Hver; run_step; [discriminate |].
  paced_step.
  cbn [PgxUserRepository_UpdateLastLogin fst snd]. run_step.
  paced_step. paced_step. paced_step. unfold Add.
  match goal with
  | |- context [PgxSessionRepository_Create ?a ?b ?c ?d] =>
      destruct (PgxSessionRepository_Create a b c d) as [sessErr w6] eqn:Hs;
      set (w5 := d) in *
  end.
  destruct sessErr; run_step; intros [= <-];
    exists r; eexists; eexists; exists w5; eexists;
    (split; [reflexivity |]); (split; [reflexivity |]);
    (split; [symmetry; exact (f_equal snd Hs) |]);
    (split; [reflexivity |]); (split; [reflexivity |]);
    (split; [reflexivity |]);
    intros Hds;
    pose proof (hd_nonneg _ Hds) as H1;
    pose proof (hd_nonneg _ (tl_nonneg _ Hds)) as H2;
    pose proof (hd_nonneg _ (tl_nonneg _ (tl_nonneg _ Hds))) as H3;
    pose proof (hd_nonneg _ (tl_nonneg _ (tl_nonneg _ (tl_nonneg _ Hds))))
      as H4;
    pose proof (hd_nonneg _ (tl_nonneg _ (tl_nonneg _ (tl_nonneg _
                               (tl_nonneg _ Hds))))) as H5;
    pose proof (hd_nonneg _ (tl_nonneg _ (tl_nonneg _ (tl_nonneg _
                               (tl_nonneg _ (tl_nonneg _ Hds)))))) as H6;
    unfold w5; cbn [clock elapse setUsers]; lia.
Qed.

(** X10.  Looking a token up changes nothing in the database, and neither
    does a Login that fails. *)
Theorem reads_and_failed_logins_change_nothing (w : World) :
  (forall token,
      final (run (production H) (GetUserByToken token) w) = w)
  /\ (forall req,
         isOk (result (run (production H) (Login req) w)) = false ->
         final (run (production H) (Login req) w) = w).
Proof.
  split.
  - intros token. unfold GetUserByToken. world_step.
    pose proof (GetUserByToken_reads token w) as Hreads.
    destruct (PgxSessionRepository_GetUserByToken token w)
      as [[[row |] | err] w1]; cbn [snd] in Hreads; subst w1; world_step;
      try reflexivity.
    destruct (After _ _); reflexivity.
  - intros req. unfold Login. world_step.
    pose proof (GetByUsername_reads (LoginRequest.Username req) w) as Hreads.
    destruct (PgxUserRepository_GetByUsername (LoginRequest.Username req) w)
      as [[[row |] | err] w1]; cbn [snd] in Hreads; subst w1; world_step;
      try reflexivity.
    destruct (verify H _ _) as [e |]; world_step; [reflexivity |].
    cbn [PgxUserRepository_UpdateLastLogin fst snd]. world_step.
    match goal with
    | |- context [PgxSessionRepository_Create ?a ?b ?c ?d] =>
        destruct (PgxSessionRepository_Create a b c d) as [sessErr w6]
    end.
    destruct sessErr; world_step; discriminate.
Qed.

Lemma find_by_id_of_found (p : usersRow -> bool) (us : list usersRow)
  (r : usersRow) :
  NoDup (map users_id us) -> find p us = Some r ->
  find (userIdIs (users_id r)) us = Some r.
Proof.
  induction us as [| x us IH]; cbn [map find]; [discriminate |].
  intros Hnd Hfind. inversion Hnd as [| ? ? Hx Hus]; subst.
  destruct (p x).
  - injection Hfind as ->. unfold userIdIs. rewrite Z.eqb_refl. reflexivity.
  - assert (Hin : In (users_id r) (map users_id us)).
    { apply in_map. apply (find_some _ _ Hfind). }
    unfold userIdIs at 1.
    destruct (users_id x =? users_id r) eqn:Heq.
    + apply Z.eqb_eq in Heq. rewrite Heq in Hx. contradiction.
    + exact (IH Hus Hfind).
Qed.

Lemma find_userIdIs_touch (now : Time) (userID id : Z) (us : list usersRow) :
  find (userIdIs id) (map (touch now userID) us)
  = option_map (touch now userID) (find (userIdIs id) us).
Proof.
  induction us as [| x us IH]; cbn [map find option_map]; [reflexivity |].
  assert (Hsame : userIdIs id (touch now userID x) = userIdIs id x).
  { unfold touch. destruct (userIdIs userID x); reflexivity. }
  rewrite Hsame. destruct (userIdIs id x); [reflexivity | exact IH].
Qed.

Lemma sessionsKeyTaken_fresh (ss : list sessionsRow) (seq : Z)
  (token : string) :
  Forall (fun r => sessions_id r <= seq) ss ->
  find (tokenIs token) ss = None ->
  existsb (sessionsKeyTaken (seq + 1) token) ss = false.
Proof.
  intros Hseq. induction Hseq as [| r ss Hr _ IH]; [reflexivity |].
  cbn [find existsb]. destruct (tokenIs token r) eqn:Htok; [discriminate |].
  intros Hnone. rewrite (IH Hnone). unfold sessionsKeyTaken. rewrite Htok.
  replace (sessions_id r =? seq + 1) with false; [reflexivity |].
  symmetry. apply Z.eqb_neq. lia.
Qed.

(** What GetUserByToken answers once a session of [userID] with this token
    and expiry is the first under the token. *)
Lemma GetUserByToken_of_session (w : World) (s : sessionsRow) (u : usersRow)
  (token : string) :
  isText token = true ->
  find (tokenIs token) (sessions w) = Some s ->
  find (userIdIs (sessions_user_id s)) (users w) = Some u ->
  result (run (production H) (GetUserByToken token) w)
  = if sessions_expires_at s <? clock w
    then Err (Errorf "session expired at %v: %w"
                [ArgTime (sessions_expires_at s)] (Sentinel ErrSessionExpired))
    else Ok (User.mk (Itoa (users_id u)) (users_username u) (users_email u)).
Proof.
  intros Htext Hs Hu.
  rewrite (GetUserByToken_found World (production H) w w w token
             (SessionRow.mk (users_id u) (users_username u) (users_email u)
                (sessions_expires_at s)) (clock w)).
  - reflexivity.
  - cbn [production]. unfold PgxSessionRepository_GetUserByToken.
    rewrite Htext, Hs, Hu. reflexivity.
  - reflexivity.
Qed.

(** GetUserByToken with time passing: what counts is what the clock reads
    when it is asked. *)
Lemma paced_GetUserByToken (w : World) (token : string) (e1 e2 : Z)
  (rest : list Z) :
  result (run (interleaved (production H)) (GetUserByToken token)
            (passing (e1 :: e2 :: rest), w))
  = result (run (production H) (GetUserByToken token) (elapse (e1 + e2) w)).
Proof.
  unfold GetUserByToken. run_step. paced_step. cbn [hd tl].
  world_step.
  assert (Hsame : forall d,
            fst (PgxSessionRepository_GetUserByToken token (elapse d w))
            = fst (PgxSessionRepository_GetUserByToken token w)).
  { intros d. unfold PgxSessionRepository_GetUserByToken.
    cbn [sessions users elapse].
    destruct (negb _); [reflexivity |].
    destruct (find _ _); [destruct (find _ _) |]; reflexivity. }
  rewrite !Hsame, !GetUserByToken_reads.
  destruct (fst (PgxSessionRepository_GetUserByToken token w))
    as [[row |] | err]; run_step; try reflexivity.
  paced_step. cbn [hd tl clock elapse]. world_step.
  rewrite Z.add_assoc. destruct (After _ _); reflexivity.
Qed.

(** The session a best-effort insert leaves when nothing stands in its
    way, and what its token then resolves to. *)
Lemma session_inserted (w5 : World) (ss : list sessionsRow) (u : usersRow)
  (token : string) (expiresAt : Time) (d : Z) :
  fits 255 token = true ->
  sessions w5 = ss ->
  Forall (fun r => sessions_id r <= sessions_id_seq w5) ss ->
  find (tokenIs token) ss = None ->
  find (userIdIs (users_id u)) (users w5) = Some u ->
  clock (snd (PgxSessionRepository_Create (users_id u) token expiresAt w5))
  = clock w5
  /\ result (run (production H) (GetUserByToken token)
               (elapse d (snd (PgxSessionRepository_Create (users_id u) token
                                 expiresAt w5))))
     = if timestamp expiresAt <? clock w5 + d
       then Err (Errorf "session expired at %v: %w"
                   [ArgTime (timestamp expiresAt)] (Sentinel ErrSessionExpired))
       else Ok (User.mk (Itoa (users_id u)) (users_username u) (users_email u)).
Proof.
  intros Hfits Hss Hseq Hfresh Hu.
  assert (Hkey : existsb (sessionsKeyTaken (sessions_id_seq w5 + 1) token)
                   (sessions w5) = false).
  { rewrite Hss. apply sessionsKeyTaken_fresh; assumption. }
  assert (Huser : existsb (userIdIs (users_id u)) (users w5) = true).
  { apply existsb_exists. exists u. split; apply (find_some _ _ Hu). }
  unfold PgxSessionRepository_Create.
  rewrite (varchar_fits _ _ Hfits), Hkey, Huser. cbn [negb snd].
  split; [reflexivity |].
  set (s := mkSessionsRow (sessions_id_seq w5 + 1) (users_id u) token
              (timestamp expiresAt) (timestamp (clock w5))).
  rewrite (GetUserByToken_of_session _ s u token).
  - reflexivity.
  - exact (fits_isText _ _ Hfits).
  - cbn [elapse sessions setSessions]. apply find_app_new.
    + rewrite Hss. exact Hfresh.
    + unfold tokenIs. cbn [sessions_token s]. apply String.eqb_refl.
  - cbn [elapse users setSessions sessions_user_id s]. exact Hu.
Qed.

(** X11.  With time passing between the calls of Login, on a database that
    keeps its schema and whose sequences are ahead, a token that was not in
    the sessions table before, and that fits its column, resolves to the
    user who logged in whenever GetUserByToken reads the clock no later than
    the expiry stored with the session, and fails with SessionExpired
    whenever it reads it later.  The stored expiry is twenty-four hours
    after Login read the clock, cut to the microsecond: no earlier than
    twenty-four hours after the call began, cut to the microsecond, and no
    later than twenty-four hours after it returned. *)
Theorem Login_token_lives_a_day (w : World) (ds : list Z)
  (req : LoginRequest.t) (resp : AuthResponse.t) :
  Forall (fun d => 0 <= d) ds ->
  schemaHolds w -> sequencesAhead w ->
  find (tokenIs (AuthResponse.Token resp)) (sessions w) = None ->
  fits 255 (AuthResponse.Token resp) = true ->
  result (run (interleaved (production H)) (Login req) (passing ds, w))
  = Ok resp ->
  exists expiry,
    timestamp (clock w + 24 * Hour) <= expiry
    /\ expiry
       <= clock (snd (final (run (interleaved (production H)) (Login req)
                               (passing ds, w)))) + 24 * Hour
    /\ forall e1 e2 rest,
         result (run (interleaved (production H))
                   (GetUserByToken (AuthResponse.Token resp))
                   (passing (e1 :: e2 :: rest),
                    snd (final (run (interleaved (production H))
                                  (Login req) (passing ds, w)))))
         = if expiry
              <? clock (snd (final (run (interleaved (production H))
                                      (Login req) (passing ds, w))))
                 + e1 + e2
           then Err (Errorf "session expired at %v: %w" [ArgTime expiry]
                       (Sentinel ErrSessionExpired))
           else Ok (AuthResponse.User resp).
Proof.
  intros Hds Hschema Hseq Hfresh Hfits Hok.
  destruct (paced_Login_inversion w ds req resp Hok)
    as (r & now1 & now2 & w5 & t & Hfind & -> & Hfinal & Husers & Hsess
        & Hsseq & Hclock).
  destruct (Hclock Hds) as [Hlo Hhi].
  cbn [AuthResponse.Token AuthResponse.User] in *.
  rewrite Hfinal.
  destruct Hschema as (Hids & _). destruct Hseq as [_ Hseq].
  pose proof (find_by_id_of_found _ _ _ Hids Hfind) as Hbyid.
  assert (Hu1 : find (userIdIs (users_id (touch t (users_id r) r))) (users w5)
                = Some (touch t (users_id r) r)).
  { replace (users_id (touch t (users_id r) r)) with (users_id r)
      by (unfold touch; destruct (userIdIs _ _); reflexivity).
    rewrite Husers, find_userIdIs_touch, Hbyid. reflexivity. }
  assert (Hseq5 : Forall (fun x => sessions_id x <= sessions_id_seq w5)
                    (sessions w)).
  { rewrite Hsseq. exact Hseq. }
  assert (Hname : users_username (touch t (users_id r) r) = users_username r).
  { unfold touch. destruct (userIdIs _ _); reflexivity. }
  assert (Hmail : users_email (touch t (users_id r) r) = users_email r).
  { unfold touch. destruct (userIdIs _ _); reflexivity. }
  assert (Hid : users_id (touch t (users_id r) r) = users_id r).
  { unfold touch. destruct (userIdIs _ _); reflexivity. }
  exists (timestamp (now2 + 24 * Hour)).
  pose proof (timestamp_mono (clock w + 24 * Hour) (now2 + 24 * Hour)
                ltac:(lia)) as Hmono.
  pose proof (timestamp_cut (now2 + 24 * Hour)) as Hcut.
  assert (Hins := fun d =>
            session_inserted w5 (sessions w) (touch t (users_id r) r)
              (Sprintf_token (users_id r) (Unix now1)) (now2 + 24 * Hour) d
              Hfits Hsess Hseq5 Hfresh Hu1).
  rewrite Hid, Hname, Hmail in Hins.
  destruct (Hins 0) as [Hclock5 _]. rewrite Hclock5.
  split; [exact Hmono |]. split; [lia |].
  intros e1 e2 rest. rewrite paced_GetUserByToken, <- Z.add_assoc.
  exact (proj2 (Hins (e1 + e2))).
Qed.


Lemma paced_Register_inversion (w : World) (ds : list Z)
  (req : RegisterRequest.t) (resp : AuthResponse.t) :
  result (run (interleaved (production H)) (Register req) (passing ds, w))
  = Ok resp ->
  exists d username email passwordHash now1 now2 w5 created,
    usersValues (RegisterRequest.Username req) (RegisterRequest.Email req) d
    = Ok (username, email, passwordHash)
    /\ existsb (usersKeyTaken (users_id_seq w + 1) username email) (users w)
       = false
    /\ resp = AuthResponse.mk
                (Sprintf_token (users_id_seq w + 1) (Unix now1))
                (User.mk (Itoa (users_id_seq w + 1))
                   (RegisterRequest.Username req) (RegisterRequest.Email req))
    /\ snd (final (run (interleaved (production H)) (Register req)
                     (passing ds, w)))
       = snd (PgxSessionRepository_Create (users_id_seq w + 1)
                (Sprintf_token (users_id_seq w + 1) (Unix now1))
                (now2 + 24 * Hour) w5)
    /\ users w5
       = (users w
          ++ [mkUsersRow (users_id_seq w + 1) username email passwordHash
                created None])%list
    /\ sessions w5 = sessions w
    /\ sessions_id_seq w5 = sessions_id_seq w
    /\ (Forall (fun d => 0 <= d) ds ->
        clock w <= now2 /\ now2 <= clock w5).
Proof.
  unfold Register. run_step. paced_step. cbn [entropy elapse].
  destruct (entropy w) as [| salt rest]; run_step; [discriminate |].
  destruct (hash H (RegisterRequest.Password req) DefaultCost salt)
    as [d | err] eqn:Hhash; run_step; [| discriminate].
  paced_step.
  unfold PgxUserRepository_ExistsByUsernameOrEmail.
  destruct (negb (isText (RegisterRequest.Username req)
                  && isText (RegisterRequest.Email req)));
    run_step; [discriminate |].
  cbn [users elapse setEntropy].
  destruct (existsb (usernameOrEmailIs (RegisterRequest.Username req)
                       (RegisterRequest.Email req)) (users w));
    run_step; [discriminate |].
  paced_step.
  unfold PgxUserRepository_Create.
  destruct (usersValues (RegisterRequest.Username req)
              (RegisterRequest.Email req) d)
    as [[[username email] passwordHash] | err] eqn:Hvalues;
    run_step; [| discriminate].
  cbn [users users_id_seq elapse setEntropy].
  destruct (existsb (usersKeyTaken (users_id_seq w + 1) username email)
              (users w)) eqn:Hkey;
    run_step; [discriminate |].
  paced_step. paced_step. paced_step. unfold Add.
  match goal with
  | |- context [PgxSessionRepository_Create ?a ?b ?c ?d] =>
      destruct (PgxSessionRepository_Create a b c d) as [sessErr w6] eqn:Hs;
      set (w5 := d) in *
  end.
  destruct sessErr; run_step; intros [= <-];
    exists d, username, email, passwordHash; eexists; eexists; exists w5;
    eexists;
    (split; [exact Hvalues |]); (split; [exact Hkey |]);
    (split; [reflexivity |]);
    (split; [symmetry; exact (f_equal snd Hs) |]);
    (split; [reflexivity |]); (split; [reflexivity |]);
    (split; [reflexivity |]);
    intros Hds;
    pose proof (hd_nonneg _ Hds) as H1;
    pose proof (hd_nonneg _ (tl_nonneg _ Hds)) as H2;
    pose proof (hd_nonneg _ (tl_nonneg _ (tl_nonneg _ Hds))) as H3;
    pose proof (hd_nonneg _ (tl_nonneg _ (tl_nonneg _ (tl_nonneg _ Hds))))
      as H4;
    pose proof (hd_nonneg _ (tl_nonneg _ (tl_nonneg _ (tl_nonneg _
                               (tl_nonneg _ Hds))))) as H5;
    pose proof (hd_nonneg _ (tl_nonneg _ (tl_nonneg _ (tl_nonneg _
                               (tl_nonneg _ (tl_nonneg _ Hds)))))) as H6;
    unfold w5; cbn [clock elapse setUsers setEntropy]; lia.
Qed.

(** X12.  With time passing between the calls of Register, on a database
    whose sequences are ahead, a token that was not in the sessions table
    before, and that fits its column, resolves to the new user, under the
    username and email as the table keeps them (those of the response when
    they fit their columns), whenever GetUserByToken reads the clock no
    later than the expiry stored with the session, and fails with
    SessionExpired whenever it reads it later.  The stored expiry is no
    earlier than twenty-four hours after the call began, cut to the
    microsecond, and no later than twenty-four hours after it returned. *)
Theorem Register_token_lives_a_day (w : World) (ds : list Z)
  (req : RegisterRequest.t) (resp : AuthResponse.t) :
  Forall (fun d => 0 <= d) ds ->
  sequencesAhead w ->
  find (tokenIs (AuthResponse.Token resp)) (sessions w) = None ->
  fits 255 (AuthResponse.Token resp) = true ->
  result (run (interleaved (production H)) (Register req) (passing ds, w))
  = Ok resp ->
  exists expiry username email,
    varchar 100 (RegisterRequest.Username req) = Ok username
    /\ varchar 255 (RegisterRequest.Email req) = Ok email
    /\ (fits 100 (RegisterRequest.Username req) = true ->
        fits 255 (RegisterRequest.Email req) = true ->
        User.mk (User.ID (AuthResponse.User resp)) username email
        = AuthResponse.User resp)
    /\ timestamp (clock w + 24 * Hour) <= expiry
    /\ expiry
       <= clock (snd (final (run (interleaved (production H)) (Register req)
                               (passing ds, w)))) + 24 * Hour
    /\ forall e1 e2 rest,
         result (run (interleaved (production H))
                   (GetUserByToken (AuthResponse.Token resp))
                   (passing (e1 :: e2 :: rest),
                    snd (final (run (interleaved (production H))
                                  (Register req) (passing ds, w)))))
         = if expiry
              <? clock (snd (final (run (interleaved (production H))
                                      (Register req) (passing ds, w))))
                 + e1 + e2
           then Err (Errorf "session expired at %v: %w" [ArgTime expiry]
                       (Sentinel ErrSessionExpired))
           else Ok (User.mk (User.ID (AuthResponse.User resp)) username email).
Proof.
  intros Hds [_ Hseq] Hfresh Hfits Hok.
  destruct (paced_Register_inversion w ds req resp Hok)
    as (dg & username & email & passwordHash & now1 & now2 & w5 & created
        & Hvalues & Hkey & -> & Hfinal & Husers & Hsess & Hsseq & Hclock).
  destruct (Hclock Hds) as [Hlo Hhi].
  destruct (usersValues_inv _ _ _ _ Hvalues) as (Hu & He & _).
  cbn [fst snd] in Hu, He.
  cbn [AuthResponse.Token AuthResponse.User User.ID] in *.
  rewrite Hfinal.
  set (id := users_id_seq w + 1) in *.
  set (u := mkUsersRow id username email passwordHash created None) in *.
  assert (Hu1 : find (userIdIs (users_id u)) (users w5) = Some u).
  { rewrite Husers. apply find_app_new.
    - apply (find_none_of_existsb (usersKeyTaken id username email));
        [| exact Hkey].
      intros x Hx. unfold usersKeyTaken. cbn [users_id u] in Hx.
      rewrite Hx. reflexivity.
    - unfold userIdIs. apply Z.eqb_refl. }
  assert (Hseq5 : Forall (fun x => sessions_id x <= sessions_id_seq w5)
                    (sessions w)).
  { rewrite Hsseq. exact Hseq. }
  pose proof (timestamp_mono (clock w + 24 * Hour) (now2 + 24 * Hour)
                ltac:(lia)) as Hmono.
  pose proof (timestamp_cut (now2 + 24 * Hour)) as Hcut.
  assert (Hins := fun d =>
            session_inserted w5 (sessions w) u
              (Sprintf_token id (Unix now1)) (now2 + 24 * Hour) d
              Hfits Hsess Hseq5 Hfresh Hu1).
  cbn [users_id users_username users_email u] in Hins.
  destruct (Hins 0) as [Hclock5 _]. rewrite Hclock5.
  exists (timestamp (now2 + 24 * Hour)), username, email.
  split; [exact Hu |]. split; [exact He |]. split.
  - intros Hfu Hfe. rewrite (varchar_fits _ _ Hfu) in Hu.
    rewrite (varchar_fits _ _ Hfe) in He.
    injection Hu as <-. injection He as <-. reflexivity.
  - split; [exact Hmono |]. split; [lia |].
    intros e1 e2 rest. rewrite paced_GetUserByToken, <- Z.add_assoc.
    exact (proj2 (Hins (e1 + e2))).
Qed.

Lemma usernameOrEmailIs_kept (username email : string)
  (us : list usersRow) (r : usersRow) :
  users_username r = username \/ users_email r = email ->
  existsb (usernameOrEmailIs username email) (us ++ [r]) = true.
Proof.
  intros Hsame. rewrite existsb_app. cbn [existsb].
  unfold usernameOrEmailIs at 2.
  destruct Hsame as [-> | ->]; rewrite String.eqb_refl, ?orb_true_r;
    reflexivity.
Qed.

(** X13.  After a successful Register no second Register under the same
    username or the same email succeeds, and none inserts anything.  When
    the first username and email fit their columns, so that the table keeps
    them as given, the second call fails with UserAlreadyExists, unless the
    hasher already failed. *)
Theorem Register_twice (w : World) (req req' : RegisterRequest.t)
  (resp : AuthResponse.t) :
  result (run (production H) (Register req) w) = Ok resp ->
  RegisterRequest.Username req' = RegisterRequest.Username req
  \/ RegisterRequest.Email req' = RegisterRequest.Email req ->
  isOk (result (run (production H) (Register req')
                  (final (run (production H) (Register req) w)))) = false
  /\ users (final (run (production H) (Register req')
                     (final (run (production H) (Register req) w))))
     = users (final (run (production H) (Register req) w))
  /\ (fits 100 (RegisterRequest.Username req) = true ->
      fits 255 (RegisterRequest.Email req) = true ->
      isText (RegisterRequest.Username req') = true ->
      isText (RegisterRequest.Email req') = true ->
      failsWith (result (run (production H) (Register req')
                           (final (run (production H) (Register req) w))))
        ErrUserExists = true
      \/ exists err,
           result (run (production H) (Register req')
                     (final (run (production H) (Register req) w)))
           = Err (Errorf "hash password: %w" [] err)).
Proof.
  intros Hok Hsame.
  destruct (production_Register_final H w req resp Hok)
    as (salt & rest & dg & username & email & passwordHash
        & _ & _ & Hvalues & _ & _ & Hfinal).
  destruct (usersValues_inv _ _ _ _ Hvalues) as (Hu & He & _).
  cbn [fst snd] in Hu, He.
  set (r := mkUsersRow (users_id_seq w + 1) username email passwordHash
              (timestamp (clock w)) None) in Hfinal.
  assert (Husers : users (final (run (production H) (Register req) w))
                   = (users w ++ [r])%list).
  { rewrite Hfinal, PgxSessionRepository_Create_users. reflexivity. }
  set (w1 := final (run (production H) (Register req) w)) in *.
  clearbody w1. clear Hfinal Hok.
  unfold Register. world_step.
  destruct (entropy w1) as [| salt' rest']; world_step.
  { split; [reflexivity |]. split; [reflexivity |].
    intros _ _ _ _. right. eexists. reflexivity. }
  destruct (hash H (RegisterRequest.Password req') DefaultCost salt')
    as [d' | err]; world_step.
  2:{ split; [reflexivity |]. split; [reflexivity |].
      intros _ _ _ _. right. eexists. reflexivity. }
  unfold PgxUserRepository_ExistsByUsernameOrEmail.
  destruct (isText (RegisterRequest.Username req')
            && isText (RegisterRequest.Email req')) eqn:Htext;
    cbn [negb]; world_step.
  2:{ split; [reflexivity |]. split; [reflexivity |].
      intros _ _ Hu' He'. rewrite Hu', He' in Htext. discriminate. }
  destruct (existsb (usernameOrEmailIs (RegisterRequest.Username req')
                       (RegisterRequest.Email req')) (users w1)) eqn:Hex;
    world_step.
  { split; [reflexivity |]. split; [reflexivity |].
    intros _ _ _ _. left. reflexivity. }
  unfold PgxUserRepository_Create.
  destruct (usersValues (RegisterRequest.Username req')
              (RegisterRequest.Email req') d')
    as [[[username' email'] passwordHash'] | err] eqn:Hvalues';
    world_step.
  2:{ split; [reflexivity |]. split; [reflexivity |].
      intros Hfu Hfe _ _. exfalso.
      rewrite (varchar_fits _ _ Hfu) in Hu. injection Hu as <-.
      rewrite (varchar_fits _ _ Hfe) in He. injection He as <-.
      rewrite Husers in Hex.
      rewrite (usernameOrEmailIs_kept _ _ (users w) r) in Hex;
        [discriminate |].
      cbn [users_username users_email r].
      destruct Hsame as [-> | ->]; [left | right]; reflexivity. }
  destruct (usersValues_inv _ _ _ _ Hvalues') as (Hu' & He' & _).
  cbn [fst snd] in Hu', He'.
  assert (Hkey : existsb (usersKeyTaken (users_id_seq w1 + 1) username' email')
                   (users w1) = true).
  { rewrite existsb_usersKeyTaken, Husers.
    rewrite (usernameOrEmailIs_kept _ _ (users w) r);
      [apply orb_true_r |].
    cbn [users_username users_email r].
    destruct Hsame as [Heq | Heq]; rewrite Heq in *.
    - left. rewrite Hu in Hu'. injection Hu' as <-. reflexivity.
    - right. rewrite He in He'. injection He' as <-. reflexivity. }
  rewrite Hkey. world_step.
  split; [reflexivity |]. split; [reflexivity |].
  intros Hfu Hfe _ _. exfalso.
  rewrite (varchar_fits _ _ Hfu) in Hu. injection Hu as <-.
  rewrite (varchar_fits _ _ Hfe) in He. injection He as <-.
  rewrite Husers in Hex.
  rewrite (usernameOrEmailIs_kept _ _ (users w) r) in Hex;
    [discriminate |].
  cbn [users_username users_email r].
  destruct Hsame as [-> | ->]; [left | right]; reflexivity.
Qed.

End Sessions.

(** ** The HTTP handlers, against any collaborators *)

Ltac web_step :=
  cbn [serve andThen replies served fst snd
       webv1.Login webv1.Register webv1.GetMe webv1.inRequestSpan
       webv1.cJSON webv1.invalidRequest].

Section Handlers.

Variable S : Type.
Variable h : Handler S.

(** X14.  Every path through a handler writes exactly one reply, whatever
    the request and whatever the service answers. *)
Theorem handlers_reply_once (c : Context) (s : S) :
  (forall bound,
      List.length (replies (snd (serve h (webv1.Login c bound) s))) = 1%nat)
  /\ (forall bound,
         List.length (replies (snd (serve h (webv1.Register c bound) s)))
         = 1%nat)
  /\ List.length (replies (snd (serve h (webv1.GetMe c) s))) = 1%nat.
Proof.
  split; [| split].
  - intros [req | err]; web_step; [| reflexivity].
    destruct (result (run h (Login req) s)) as [resp | err]; web_step;
      [reflexivity |].
    destruct (errors_Is err ErrInvalidCredentials),
      (errors_Is err ErrUserNotFound), (errors_Is err ErrPasswordExpired),
      (errors_Is err ErrAccountLocked); reflexivity.
  - intros [req | err]; web_step; [| reflexivity].
    destruct (result (run h (Register req) s)) as [resp | err]; web_step;
      [reflexivity |].
    destruct (errors_Is err ErrUserExists); reflexivity.
  - web_step. destruct (String.eqb (Authorization c) ""); [reflexivity |].
    destruct (_ || _); web_step; [reflexivity |].
    destruct (result (run h (GetUserByToken _) s)) as [user | err]; web_step;
      [reflexivity |].
    destruct (errors_Is err ErrSessionNotFound),
      (errors_Is err ErrSessionExpired); reflexivity.
Qed.


(** X16.  The Login handler answers an unknown username and a wrong
    password alike: 401 with "Invalid credentials", and nothing else is
    written, so the reply does not tell whether the account exists. *)
Theorem Login_reply_hides_whether_the_user_exists (c : Context) (s : S)
  (req : LoginRequest.t) :
  (forall s1,
      h _ (UsersGetByUsername (LoginRequest.Username req)) s = (Ok None, s1) ->
      replies (snd (serve h (webv1.Login c (Ok req)) s))
      = [mkReply StatusUnauthorized (ErrorText "Invalid credentials")])
  /\ (forall row e s1 s2,
         h _ (UsersGetByUsername (LoginRequest.Username req)) s
           = (Ok (Some row), s1) ->
         h _ (CompareHashAndPassword (UserRow.PasswordHash row)
                (LoginRequest.Password req)) s1 = (Some e, s2) ->
         replies (snd (serve h (webv1.Login c (Ok req)) s))
         = [mkReply StatusUnauthorized (ErrorText "Invalid credentials")]).
Proof.
  split.
  - intros s1 Hget. web_step.
    rewrite (Login_user_absent S h s s1 req Hget). reflexivity.
  - intros row e s1 s2 Hget Hcmp. web_step.
    rewrite (Login_compare_fails S h s s1 s2 req row e Hget Hcmp).
    reflexivity.
Qed.

(** X17.  The Register handler answers 201 with the response when the
    service succeeds, 409 when the existence check finds the username or
    email, and 500 with "Internal server error" when the insert is refused
    by the database, a lost race for the username included. *)
Theorem Register_replies (c : Context) (req : RegisterRequest.t)
  (passwordHash : string) (s s1 s2 : S) :
  h _ (GenerateFromPassword (RegisterRequest.Password req) DefaultCost) s
    = (Ok passwordHash, s1) ->
  (forall resp,
      result (run h (Register req) s) = Ok resp ->
      replies (snd (serve h (webv1.Register c (Ok req)) s))
      = [mkReply StatusCreated (AuthBody resp)])
  /\ (h _ (UsersExistsByUsernameOrEmail (RegisterRequest.Username req)
             (RegisterRequest.Email req)) s1 = (Ok true, s2) ->
      replies (snd (serve h (webv1.Register c (Ok req)) s))
      = [mkReply StatusConflict
           (ErrorText "Username or email already exists")])
  /\ (forall code s3,
         h _ (UsersExistsByUsernameOrEmail (RegisterRequest.Username req)
                (RegisterRequest.Email req)) s1 = (Ok false, s2) ->
         h _ (UsersCreate (RegisterRequest.Username req)
                (RegisterRequest.Email req) passwordHash) s2
           = (Err (PgError code), s3) ->
         replies (snd (serve h (webv1.Register c (Ok req)) s))
         = [mkReply StatusInternalServerError
              (ErrorText "Internal server error")]).
Proof.
  intros Hhash. split; [| split].
  - intros resp Hok. web_step. rewrite Hok. reflexivity.
  - intros Hex. web_step.
    rewrite (f_equal result
               (Register_user_exists S h s s1 s2 req passwordHash Hhash Hex)).
    reflexivity.
  - intros code s3 Hex Hins. web_step.
    rewrite (Register_insert_fails S h s s1 s2 s3 req passwordHash
               (PgError code) Hhash Hex Hins).
    reflexivity.
Qed.

Lemma substring_0_length (s : string) : substring 0 (String.length s) s = s.
Proof.
  induction s as [| c s IH]; cbn [String.length substring]; [reflexivity |].
  rewrite IH. reflexivity.
Qed.

Lemma substring_split (n : nat) (s : string) :
  (n <= String.length s)%nat ->
  substring 0 n s ++ substring n (String.length s - n) s = s.
Proof.
  revert s. induction n as [| n IH]; intros s Hn.
  - rewrite Nat.sub_0_r, substring_0_length.
    destruct s; reflexivity.
  - destruct s as [| c s]; cbn [String.length] in Hn; [lia |].
    cbn [substring String.length Nat.sub append]. rewrite IH; [reflexivity | lia].
Qed.

Lemma bearer_header (token : string) :
  token <> "" ->
  String.eqb (bearerPrefix ++ token) "" = false
  /\ (String.length (bearerPrefix ++ token) <=? String.length bearerPrefix)%nat
     = false
  /\ substring 0 (String.length bearerPrefix) (bearerPrefix ++ token)
     = bearerPrefix
  /\ substring (String.length bearerPrefix)
       (String.length (bearerPrefix ++ token) - String.length bearerPrefix)
       (bearerPrefix ++ token) = token.
Proof.
  intros Hne. split; [reflexivity |]. split; [| split].
  - destruct token as [| t token]; [contradiction | reflexivity].
  - cbn. destruct token; reflexivity.
  - cbn. rewrite ?Nat.sub_0_r. apply substring_0_length.
Qed.

Lemma bearer_header_inv (authHeader : string) :
  (String.length authHeader <=? String.length bearerPrefix)%nat = false ->
  substring 0 (String.length bearerPrefix) authHeader = bearerPrefix ->
  exists token, token <> "" /\ authHeader = bearerPrefix ++ token.
Proof.
  intros Hlen Hpre. apply Nat.leb_gt in Hlen.
  exists (substring (String.length bearerPrefix)
            (String.length authHeader - String.length bearerPrefix) authHeader).
  assert (Heq : authHeader
                = bearerPrefix
                  ++ substring (String.length bearerPrefix)
                       (String.length authHeader - String.length bearerPrefix)
                       authHeader).
  { rewrite <- Hpre at 1. symmetry. apply substring_split. lia. }
  split; [| exact Heq].
  intros Hnil. rewrite Hnil in Heq. rewrite Heq in Hlen. cbn in Hlen. lia.
Qed.

(** X18.  GetMe takes the token from the Authorization header: without a
    header it answers 401 "Authorization header required"; with a header
    that is not "Bearer " followed by at least one character it answers
    401 "Invalid authorization format"; in both cases the service is not
    called.  With "Bearer " and a token it calls GetUserByToken once, with
    exactly that token. *)
Theorem GetMe_reads_the_bearer_token (c : Context) (s : S) :
  (Authorization c = "" ->
   serve h (webv1.GetMe c) s
   = (s, [WebSpan (StartSpan "http.request"
                     [AttrString "layer" "web"; AttrString "method" (Method c);
                      AttrString "path" (Path c)]);
          WebSpan (SetAttributes [AttrBool "auth.present" false]);
          JSON (mkReply StatusUnauthorized
                  (ErrorText "Authorization header required"));
          WebSpan SpanEnd]))
  /\ (Authorization c <> "" ->
      (forall token, token <> "" -> Authorization c <> bearerPrefix ++ token) ->
      serve h (webv1.GetMe c) s
      = (s, [WebSpan (StartSpan "http.request"
                        [AttrString "layer" "web";
                         AttrString "method" (Method c);
                         AttrString "path" (Path c)]);
             WebSpan (SetAttributes [AttrBool "auth.valid_format" false]);
             JSON (mkReply StatusUnauthorized
                     (ErrorText "Invalid authorization format"));
             WebSpan SpanEnd]))
  /\ (forall token,
         token <> "" -> Authorization c = bearerPrefix ++ token ->
         served (snd (serve h (webv1.GetMe c) s))
         = [trace (run h (GetUserByToken token) s)]
         /\ fst (serve h (webv1.GetMe c) s)
            = final (run h (GetUserByToken token) s)).
Proof.
  split; [| split].
  - intros Hnil. web_step. rewrite Hnil. reflexivity.
  - intros Hne Hnot. web_step.
    apply String.eqb_neq in Hne. rewrite Hne.
    destruct (_ <=? _)%nat eqn:Hlen; [reflexivity |].
    destruct (String.eqb (substring 0 (String.length bearerPrefix)
                            (Authorization c)) bearerPrefix) eqn:Hpre;
      [| reflexivity].
    apply String.eqb_eq in Hpre.
    destruct (bearer_header_inv _ Hlen Hpre) as (token & Htok & Heq).
    destruct (Hnot token Htok Heq).
  - intros token Hne Heq. web_step. rewrite Heq.
    destruct (bearer_header token Hne) as (H0 & H1 & H2 & H3).
    rewrite H0, H1, H2, H3, String.eqb_refl. cbn [orb negb]. web_step.
    destruct (result (run h (GetUserByToken token) s)) as [user | err];
      web_step; [split; reflexivity |].
    destruct (errors_Is err ErrSessionNotFound),
      (errors_Is err ErrSessionExpired); split; reflexivity.
Qed.

(** X19.  Behind a well-formed header, GetMe answers 401 "Invalid or
    expired token" when no session carries the token, 401 "Session expired"
    when the clock reads after the session's expiry, and otherwise 200 with
    the identifier, username and email of the session's user. *)
Theorem GetMe_replies (c : Context) (token : string) (s : S) :
  token <> "" -> Authorization c = bearerPrefix ++ token ->
  (forall s1,
      h _ (SessionsGetUserByToken token) s = (Ok None, s1) ->
      replies (snd (serve h (webv1.GetMe c) s))
      = [mkReply StatusUnauthorized (ErrorText "Invalid or expired token")])
  /\ (forall row now s1 s2,
         h _ (SessionsGetUserByToken token) s = (Ok (Some row), s1) ->
         h _ Now s1 = (now, s2) ->
         replies (snd (serve h (webv1.GetMe c) s))
         = [if SessionRow.ExpiresAt row <? now
            then mkReply StatusUnauthorized (ErrorText "Session expired")
            else mkReply StatusOK
                   (UserBody (User.mk (Itoa (SessionRow.UserID row))
                                (SessionRow.Username row)
                                (SessionRow.Email row)))]).
Proof.
  intros Hne Heq.
  destruct (bearer_header token Hne) as (H0 & H1 & H2 & H3).
  split.
  - intros s1 Hget. web_step.
    rewrite Heq, H0, H1, H2, H3, String.eqb_refl. cbn [orb negb]. web_step.
    rewrite (GetUserByToken_absent S h s s1 token Hget). reflexivity.
  - intros row now s1 s2 Hget Hnow. web_step.
    rewrite Heq, H0, H1, H2, H3, String.eqb_refl. cbn [orb negb]. web_step.
    rewrite (GetUserByToken_found S h s s1 s2 token row now Hget Hnow).
    unfold After. destruct (SessionRow.ExpiresAt row <? now); reflexivity.
Qed.

End Handlers.

(** ** Trace identifiers *)

Lemma append_nil_r (s : string) : s ++ "" = s.
Proof. induction s as [| c s IH]; cbn [append]; [| rewrite IH]; reflexivity. Qed.

Lemma append_snoc (pre rest : string) (c : ascii) :
  (pre ++ String c "") ++ rest = pre ++ String c rest.
Proof.
  induction pre as [| a pre IH]; cbn [append]; [| rewrite IH]; reflexivity.
Qed.

Lemma length_snoc (pre : string) (c : ascii) :
  String.length (pre ++ String c "") = S (String.length pre).
Proof. rewrite length_append. cbn [String.length]. lia. Qed.

Lemma get_at_length (pre rest : string) (c : ascii) :
  String.get (String.length pre) (pre ++ String c rest) = Some c.
Proof.
  induction pre as [| a pre IH]; cbn [String.length append String.get];
    [reflexivity | exact IH].
Qed.

Lemma substring_none (n : nat) (s : string) : substring n 0 s = "".
Proof.
  revert s. induction n as [| n IH]; intros [| c s]; cbn [substring];
    try reflexivity. apply IH.
Qed.

Lemma substring_0_app (pre rest : string) :
  substring 0 (String.length pre) (pre ++ rest) = pre.
Proof.
  induction pre as [| c pre IH]; cbn [String.length append substring].
  - apply substring_none.
  - rewrite IH. reflexivity.
Qed.

Lemma substring_skip (start : nat) (pre rest : string) :
  (start <= String.length pre)%nat ->
  substring start (String.length pre - start) (pre ++ rest) = skip start pre.
Proof.
  revert pre. induction start as [| k IH]; intros pre Hle.
  - rewrite Nat.sub_0_r. cbn [skip]. apply substring_0_app.
  - destruct pre as [| c pre]; cbn [String.length] in Hle; [lia |].
    cbn [String.length Nat.sub append substring skip]. apply IH. lia.
Qed.

Lemma skip_snoc (start : nat) (pre : string) (c : ascii) :
  (start <= String.length pre)%nat ->
  skip start (pre ++ String c "") = skip start pre ++ String c "".
Proof.
  revert pre. induction start as [| k IH]; intros pre Hle; [reflexivity |].
  destruct pre as [| a pre]; cbn [String.length] in Hle; [lia |].
  cbn [append skip]. apply IH. lia.
Qed.

Lemma skip_all (pre : string) : skip (String.length pre) pre = "".
Proof.
  induction pre as [| c pre IH]; cbn [String.length skip]; [reflexivity | exact IH].
Qed.

Lemma skip_nonempty (start : nat) (pre : string) :
  (start < String.length pre)%nat -> String.eqb (skip start pre) "" = false.
Proof.
  revert pre. induction start as [| k IH]; intros [| c pre] Hlt;
    cbn [String.length] in Hlt; try lia; cbn [skip]; [reflexivity |].
  apply IH. lia.
Qed.

(** The loop, finished off, reads the fields of what is left after the
    characters of the part it is in. *)
Lemma splitLoop_fields (rest : string) :
  forall (pre : string) (parts : list string) (start : nat),
    (start <= String.length pre)%nat ->
    (if (snd (splitLoop (pre ++ rest) (String.length rest)
                (String.length pre) start parts)
         <? String.length (pre ++ rest))%nat
     then (fst (splitLoop (pre ++ rest) (String.length rest)
                  (String.length pre) start parts)
           ++ [substring
                 (snd (splitLoop (pre ++ rest) (String.length rest)
                         (String.length pre) start parts))
                 (String.length (pre ++ rest)
                  - snd (splitLoop (pre ++ rest) (String.length rest)
                           (String.length pre) start parts))
                 (pre ++ rest)])%list
     else fst (splitLoop (pre ++ rest) (String.length rest)
                 (String.length pre) start parts))
    = (parts ++ fieldsFrom rest (skip start pre))%list.
Proof.
  induction rest as [| c rest IH]; intros pre parts start Hle.
  - cbn [String.length splitLoop fst snd fieldsFrom].
    rewrite append_nil_r.
    destruct (start <? String.length pre)%nat eqn:Hlt.
    + apply Nat.ltb_lt in Hlt. rewrite (skip_nonempty start pre Hlt).
      rewrite <- (append_nil_r pre) at 2.
      rewrite substring_skip by lia. reflexivity.
    + apply Nat.ltb_ge in Hlt. replace start with (String.length pre) by lia.
      rewrite skip_all. cbn. rewrite app_nil_r. reflexivity.
  - cbn [String.length splitLoop fieldsFrom].
    rewrite get_at_length.
    rewrite <- (append_snoc pre rest c), <- (length_snoc pre c).
    destruct (Ascii.eqb c "-") eqn:Hc.
    + rewrite IH by lia. rewrite skip_all. rewrite append_snoc.
      destruct (start <? String.length pre)%nat eqn:Hlt.
      * apply Nat.ltb_lt in Hlt. rewrite (skip_nonempty start pre Hlt).
        rewrite substring_skip by lia. rewrite <- app_assoc. reflexivity.
      * apply Nat.ltb_ge in Hlt. replace start with (String.length pre) by lia.
        rewrite skip_all. reflexivity.
    + rewrite IH by (rewrite length_snoc; lia).
      rewrite skip_snoc by exact Hle. reflexivity.
Qed.

(** splitTraceParent reads the non-empty fields between the hyphens. *)
Lemma splitTraceParent_fields (traceParent : string) :
  splitTraceParent traceParent = fieldsFrom traceParent "".
Proof.
  unfold splitTraceParent.
  exact (splitLoop_fields traceParent "" [] 0%nat (Nat.le_refl 0)).
Qed.

Lemma hyphenFree_snoc (cur : string) (c : ascii) :
  hyphenFree cur = true -> Ascii.eqb c "-" = false ->
  hyphenFree (cur ++ String c "") = true.
Proof.
  intros Hcur Hc. induction cur as [| a cur IH]; cbn [append hyphenFree] in *.
  - rewrite Hc. reflexivity.
  - apply andb_true_iff in Hcur as [Ha Hcur]. rewrite Ha, (IH Hcur).
    reflexivity.
Qed.

Lemma fieldsFrom_are_fields (s : string) :
  forall cur, hyphenFree cur = true ->
    Forall (fun p => isField p = true) (fieldsFrom s cur).
Proof.
  assert (Hcur : forall cur, hyphenFree cur = true ->
            Forall (fun p => isField p = true)
              (if String.eqb cur "" then [] else [cur])).
  { intros cur Hfree. destruct (String.eqb cur "") eqn:Hnil; constructor;
      [| constructor].
    unfold isField. rewrite Hnil, Hfree. reflexivity. }
  induction s as [| c s IH]; intros cur Hfree; cbn [fieldsFrom].
  - apply Hcur. exact Hfree.
  - destruct (Ascii.eqb c "-") eqn:Hc.
    + apply Forall_app. split; [apply Hcur; exact Hfree | apply IH; reflexivity].
    + apply IH. apply hyphenFree_snoc; assumption.
Qed.

(** X20.  Whatever the header value, every part splitTraceParent returns is
    non-empty and holds no hyphen: empty fields, from a leading, trailing or
    doubled hyphen, are dropped. *)
Theorem splitTraceParent_parts_are_fields (traceParent : string) :
  Forall (fun p => isField p = true) (splitTraceParent traceParent).
Proof.
  rewrite splitTraceParent_fields. apply fieldsFrom_are_fields. reflexivity.
Qed.

Lemma fieldsFrom_field (f rest cur : string) :
  hyphenFree f = true ->
  fieldsFrom (f ++ rest) cur = fieldsFrom rest (cur ++ f).
Proof.
  revert cur. induction f as [| c f IH]; intros cur Hfree;
    cbn [append fieldsFrom hyphenFree] in *.
  - rewrite append_nil_r. reflexivity.
  - apply andb_true_iff in Hfree as [Hc Hfree]. apply negb_true_iff in Hc.
    rewrite Hc, (IH _ Hfree), append_snoc. reflexivity.
Qed.

Lemma fieldsFrom_joined (fields : list string) :
  Forall (fun p => isField p = true) fields ->
  fieldsFrom (String.concat "-" fields) "" = fields.
Proof.
  induction 1 as [| f fields Hf _ IH]; [reflexivity |].
  unfold isField in Hf. apply andb_true_iff in Hf as [Hne Hfree].
  apply negb_true_iff in Hne.
  destruct fields as [| g fields].
  - change (String.concat "-" [f]) with f.
    rewrite <- (append_nil_r f) at 1.
    rewrite (fieldsFrom_field f "" "" Hfree). cbn [append fieldsFrom].
    rewrite Hne. reflexivity.
  - change (String.concat "-" (f :: g :: fields))
      with (f ++ "-" ++ String.concat "-" (g :: fields)).
    rewrite (fieldsFrom_field f _ "" Hfree).
    change ("-" ++ String.concat "-" (g :: fields))
      with (String "-" (String.concat "-" (g :: fields))).
    cbn [append fieldsFrom Ascii.eqb Bool.eqb].
    rewrite Hne, IH. reflexivity.
Qed.

(** X21.  Fields that are non-empty and hold no hyphen come back as they
    were from their hyphen-separated value, in order: in particular the
    four fields version, trace-id, parent-id and flags of a traceparent. *)
Theorem splitTraceParent_of_joined_fields (fields : list string) :
  Forall (fun p => isField p = true) fields ->
  splitTraceParent (String.concat "-" fields) = fields.
Proof.
  intros Hfields. rewrite splitTraceParent_fields.
  apply fieldsFrom_joined. exact Hfields.
Qed.

(** X22.  GetTraceID prefers the traceparent header: when it holds at least
    two fields, the second is the trace id, whatever X-Trace-ID says.  With
    fewer than two fields in traceparent, a non-empty X-Trace-ID is returned
    as it is, and without one a trace id is generated. *)
Theorem GetTraceID_precedence (GetHeader : string -> string) (b : list ascii) :
  (forall version trace more,
      Forall (fun p => isField p = true) (version :: trace :: more) ->
      GetHeader TraceParentHeader
      = String.concat "-" (version :: trace :: more) ->
      GetTraceID GetHeader b = trace)
  /\ ((List.length (splitTraceParent (GetHeader TraceParentHeader)) < 2)%nat ->
      GetHeader TraceIDHeader <> "" ->
      GetTraceID GetHeader b = GetHeader TraceIDHeader)
  /\ ((List.length (splitTraceParent (GetHeader TraceParentHeader)) < 2)%nat ->
      GetHeader TraceIDHeader = "" ->
      GetTraceID GetHeader b = generateTraceID b).
Proof.
  split; [| split].
  - intros version trace more Hfields Hheader. unfold GetTraceID.
    rewrite Hheader, splitTraceParent_fields, (fieldsFrom_joined _ Hfields).
    inversion Hfields as [| ? ? Hversion Hrest]; subst.
    inversion Hrest as [| ? ? Htrace _]; subst.
    unfold isField in Hversion, Htrace.
    apply andb_true_iff in Hversion as [Hversion _].
    apply andb_true_iff in Htrace as [Htrace _].
    cbn [nth List.length Nat.leb]. rewrite Htrace.
    destruct version as [| c version]; [discriminate |].
    reflexivity.
  - intros Hlen Hid. unfold GetTraceID.
    apply Nat.leb_gt in Hlen. rewrite Hlen, andb_false_r. cbn [andb].
    apply String.eqb_neq in Hid. rewrite Hid. reflexivity.
  - intros Hlen Hid. unfold GetTraceID.
    apply Nat.leb_gt in Hlen. rewrite Hlen, andb_false_r. cbn [andb].
    rewrite Hid. reflexivity.
Qed.

(** X23.  With a buffer of random bytes that is not empty, GetTraceID never
    returns the empty string. *)
Theorem GetTraceID_is_never_empty (GetHeader : string -> string)
  (b : list ascii) :
  b <> [] -> GetTraceID GetHeader b <> "".
Proof.
  intros Hb. unfold GetTraceID.
  destruct (negb (String.eqb (GetHeader TraceParentHeader) "")
            && (2 <=? List.length
                        (splitTraceParent (GetHeader TraceParentHeader)))%nat
            && negb (String.eqb
                       (nth 1 (splitTraceParent (GetHeader TraceParentHeader))
                          "") "")) eqn:Hparent.
  - apply andb_true_iff in Hparent as [_ Hne].
    apply negb_true_iff in Hne. apply String.eqb_neq. exact Hne.
  - destruct (String.eqb (GetHeader TraceIDHeader) "") eqn:Hid; cbn [negb].
    + destruct b as [| v b]; [contradiction | discriminate].
    + apply String.eqb_neq. exact Hid.
Qed.

Lemma hex_of_byte (v : ascii) :
  allHex (String (hexDigit (N.shiftr (N_of_ascii v) 4))
            (String (hexDigit (N.land (N_of_ascii v) 15)) "")) = true
  /\ ascii_of_N
       (16 * match String.index 0
                     (String (hexDigit (N.shiftr (N_of_ascii v) 4)) "")
                     hextable with
             | Some i => N.of_nat i
             | None => 0
             end
        + match String.index 0
                  (String (hexDigit (N.land (N_of_ascii v) 15)) "")
                  hextable with
          | Some i => N.of_nat i
          | None => 0
          end) = v.
Proof.
  destruct v as [[] [] [] [] [] [] [] []]; split; vm_compute; reflexivity.
Qed.

(** X24.  A generated trace id is the hexadecimal writing of the random
    bytes: two lower-case hexadecimal digits for each byte, 32 characters
    for the 16 bytes read, and different bytes give different trace ids. *)
Theorem generateTraceID_is_hex (b : list ascii) :
  String.length (generateTraceID b) = (2 * List.length b)%nat
  /\ allHex (generateTraceID b) = true
  /\ (forall b', generateTraceID b = generateTraceID b' -> b = b').
Proof.
  unfold generateTraceID. split; [| split].
  - induction b as [| v b IH]; cbn [EncodeToString String.length List.length];
      [reflexivity |]. rewrite IH. lia.
  - induction b as [| v b IH]; [reflexivity |].
    destruct (hex_of_byte v) as [Hhex _].
    cbn [EncodeToString allHex] in *.
    destruct (String.index 0 (String (hexDigit (N.shiftr (N_of_ascii v) 4)) "")
                hextable); [| discriminate].
    destruct (String.index 0 (String (hexDigit (N.land (N_of_ascii v) 15)) "")
                hextable); [exact IH | discriminate].
  - induction b as [| v b IH]; intros [| v' b'] Heq;
      cbn [EncodeToString] in Heq; try discriminate; [reflexivity |].
    injection Heq as Hhi Hlo Htl.
    pose (decode := fun c1 c2 : ascii =>
            ascii_of_N
              (16 * match String.index 0 (String c1 "") hextable with
                    | Some i => N.of_nat i
                    | None => 0
                    end
               + match String.index 0 (String c2 "") hextable with
                 | Some i => N.of_nat i
                 | None => 0
                 end)).
    assert (Hd : forall u,
               decode (hexDigit (N.shiftr (N_of_ascii u) 4))
                 (hexDigit (N.land (N_of_ascii u) 15)) = u)
      by (intros u; apply hex_of_byte).
    assert (Hv : v = v').
    { rewrite <- (Hd v), <- (Hd v'). exact (f_equal2 decode Hhi Hlo). }
    rewrite Hv. f_equal. exact (IH b' Htl).
Qed.

Lemma fieldsFrom_leading_hyphen (s : string) :
  fieldsFrom ("-" ++ s) "" = fieldsFrom s "".
Proof. reflexivity. Qed.

(** X25.  An empty first field is not counted: when traceparent begins with
    a hyphen, the fields move up by one, and GetTraceID returns the second
    of the fields that are left, which stood in the third place. *)
Theorem GetTraceID_skips_an_empty_version (GetHeader : string -> string)
  (b : list ascii) (first second : string) (more : list string) :
  Forall (fun p => isField p = true) (first :: second :: more) ->
  GetHeader TraceParentHeader
  = "-" ++ String.concat "-" (first :: second :: more) ->
  GetTraceID GetHeader b = second.
Proof.
  intros Hfields Hheader. unfold GetTraceID.
  rewrite Hheader, splitTraceParent_fields, fieldsFrom_leading_hyphen,
    (fieldsFrom_joined _ Hfields).
  inversion Hfields as [| ? ? _ Hrest]; subst.
  inversion Hrest as [| ? ? Hsecond _]; subst.
  unfold isField in Hsecond. apply andb_true_iff in Hsecond as [Hsecond _].
  cbn [nth List.length Nat.leb]. rewrite Hsecond. reflexivity.
Qed.

(** ** The further properties on the scenarios *)

(** Register when the random source has run dry. *)
Lemma Register_hashing_failure_without_entropy :
  result (run (production specHasher) (Register alice)
            (setEntropy emptyWorld []))
  = Err (Errorf "hash password: %w" [] (IOError "unexpected EOF"))
  /\ filter isStoreCall
       (trace (run (production specHasher) (Register alice)
                 (setEntropy emptyWorld []))) = []
  /\ final (run (production specHasher) (Register alice)
              (setEntropy emptyWorld [])) = setEntropy emptyWorld [].
Proof.
  apply (Register_hashing_failure World (production specHasher)
           (setEntropy emptyWorld []) (setEntropy emptyWorld []) alice
           (IOError "unexpected EOF")).
  reflexivity.
Defined.

(** Login while the stores cannot be reached. *)
Lemma Login_with_unreachable_stores :
  result (run (unreachableStores (production specHasher)) (Login aliceLogin)
            aliceWorld)
  = Err (Errorf "query user %q: %w" [ArgString "alice"]
           (IOError "connection refused"))
  /\ failsWith (result (run (unreachableStores (production specHasher))
                          (Login aliceLogin) aliceWorld)) ErrUserNotFound
     = false
  /\ final (run (unreachableStores (production specHasher)) (Login aliceLogin)
              aliceWorld) = aliceWorld.
Proof.
  apply (proj1 (store_lookup_errors_are_passed_on World
                  (unreachableStores (production specHasher))
                  (IOError "connection refused"))
           aliceLogin aliceWorld aliceWorld).
  reflexivity.
Defined.

(** Nobody is called bob: the login fails and writes nothing. *)
Lemma failed_login_of_bob_writes_nothing :
  filter isWrite
    (trace (run (production specHasher)
              (Login (LoginRequest.mk "bob" "password123")) aliceWorld)) = [].
Proof.
  apply (proj1 (failed_calls_write_nothing World (production specHasher)
                  aliceWorld) (LoginRequest.mk "bob" "password123")).
  vm_compute. reflexivity.
Defined.

Lemma aliceWorld_schema : schemaHolds aliceWorld /\ sequencesAhead aliceWorld.
Proof.
  vm_compute.
  repeat first [ split | discriminate | intros [] | tauto | constructor ].
Qed.


(** Alice's row, inserted and looked up. *)
Lemma Create_then_GetByUsername_on_alice :
  fst (PgxUserRepository_GetByUsername "alice" aliceInserted)
  = Ok (Some aliceRow).
Proof.
  apply (proj1 (proj2 (Create_then_GetByUsername "alice" "alice@example.com"
                         aliceDigest (setEntropy emptyWorld [salt2])
                         aliceInserted 1 eq_refl eq_refl eq_refl eq_refl))).
Defined.

(** Alice's username is taken: the insert is refused. *)
Lemma Create_refuses_a_second_alice :
  fst (PgxUserRepository_Create "alice" "alice@elsewhere.example" aliceDigest
         aliceWorld) = Err (PgError unique_violation)
  /\ users (snd (PgxUserRepository_Create "alice" "alice@elsewhere.example"
                   aliceDigest aliceWorld)) = users aliceWorld.
Proof.
  apply (proj1 (Create_agrees_with_the_existence_check "alice"
                  "alice@elsewhere.example" aliceDigest aliceWorld
                  (proj1 (proj2 aliceWorld_schema)) eq_refl eq_refl eq_refl)).
  vm_compute. reflexivity.
Defined.

(** Alice's first session, inserted and looked up. *)
Lemma SessionsCreate_then_GetUserByToken_on_alice :
  exists r,
    find (userIdIs 1) (users aliceInserted) = Some r
    /\ fst (PgxSessionRepository_GetUserByToken aliceToken aliceWorld)
       = Ok (Some (SessionRow.mk 1 (users_username r) (users_email r)
                     (timestamp (clock emptyWorld + 24 * Hour + 999))))
    /\ timestamp (clock emptyWorld + 24 * Hour + 999)
       <= clock emptyWorld + 24 * Hour + 999
       < timestamp (clock emptyWorld + 24 * Hour + 999) + Microsecond.
Proof.
  apply (SessionsCreate_then_GetUserByToken 1 aliceToken
           (clock emptyWorld + 24 * Hour + 999) aliceInserted aliceWorld).
  - reflexivity.
  - vm_compute. reflexivity.
Defined.

(** Bob's failed login leaves the database as it was. *)
Lemma failed_login_of_bob_changes_nothing :
  final (run (production specHasher)
           (Login (LoginRequest.mk "bob" "password123")) aliceWorld)
  = aliceWorld.
Proof.
  apply (proj2 (reads_and_failed_logins_change_nothing specHasher aliceWorld)
           (LoginRequest.mk "bob" "password123")).
  vm_compute. reflexivity.
Defined.

(** Alice logs in a second after registering, the call taking twenty-one
    milliseconds: her token resolves until its stored expiry. *)
Lemma Login_token_of_alice_until_its_expiry :
  exists expiry,
    timestamp (clock (elapse Second aliceWorld) + 24 * Hour) <= expiry
    /\ expiry
       <= clock (snd (final (run (interleaved (production specHasher))
                               (Login aliceLogin)
                               (passing milliseconds,
                                elapse Second aliceWorld)))) + 24 * Hour
    /\ forall e1 e2 rest,
         result (run (interleaved (production specHasher))
                   (GetUserByToken
                      (AuthResponse.Token
                         (AuthResponse.mk "jwt-token-v1-1-1704067201"
                            aliceView)))
                   (passing (e1 :: e2 :: rest),
                    snd (final (run (interleaved (production specHasher))
                                  (Login aliceLogin)
                                  (passing milliseconds,
                                   elapse Second aliceWorld)))))
         = if expiry
              <? clock (snd (final (run (interleaved (production specHasher))
                                      (Login aliceLogin)
                                      (passing milliseconds,
                                       elapse Second aliceWorld))))
                 + e1 + e2
           then Err (Errorf "session expired at %v: %w" [ArgTime expiry]
                       (Sentinel ErrSessionExpired))
           else Ok (AuthResponse.User
                      (AuthResponse.mk "jwt-token-v1-1-1704067201" aliceView)).
Proof.
  refine (Login_token_lives_a_day specHasher (elapse Second aliceWorld)
            milliseconds aliceLogin
            (AuthResponse.mk "jwt-token-v1-1-1704067201" aliceView)
            _ _ _ _ _ _).
  - unfold milliseconds. repeat constructor; discriminate.
  - exact (proj1 aliceWorld_schema).
  - exact (proj2 aliceWorld_schema).
  - vm_compute. reflexivity.
  - vm_compute. reflexivity.
  - vm_compute. reflexivity.
Defined.

(** Alice registers, the call taking twenty-one milliseconds: her token
    resolves until its stored expiry. *)
Lemma Register_token_of_alice_until_its_expiry :
  exists expiry username email,
    varchar 100 (RegisterRequest.Username alice) = Ok username
    /\ varchar 255 (RegisterRequest.Email alice) = Ok email
    /\ (fits 100 (RegisterRequest.Username alice) = true ->
        fits 255 (RegisterRequest.Email alice) = true ->
        User.mk (User.ID (AuthResponse.User
                            (AuthResponse.mk aliceToken aliceView)))
          username email
        = AuthResponse.User (AuthResponse.mk aliceToken aliceView))
    /\ timestamp (clock emptyWorld + 24 * Hour) <= expiry
    /\ expiry
       <= clock (snd (final (run (interleaved (production specHasher))
                               (Register alice)
                               (passing milliseconds, emptyWorld))))
          + 24 * Hour
    /\ forall e1 e2 rest,
         result (run (interleaved (production specHasher))
                   (GetUserByToken
                      (AuthResponse.Token
                         (AuthResponse.mk aliceToken aliceView)))
                   (passing (e1 :: e2 :: rest),
                    snd (final (run (interleaved (production specHasher))
                                  (Register alice)
                                  (passing milliseconds, emptyWorld)))))
         = if expiry
              <? clock (snd (final (run (interleaved (production specHasher))
                                      (Register alice)
                                      (passing milliseconds, emptyWorld))))
                 + e1 + e2
           then Err (Errorf "session expired at %v: %w" [ArgTime expiry]
                       (Sentinel ErrSessionExpired))
           else Ok (User.mk
                      (User.ID (AuthResponse.User
                                  (AuthResponse.mk aliceToken aliceView)))
                      username email).
Proof.
  refine (Register_token_lives_a_day specHasher emptyWorld milliseconds alice
            (AuthResponse.mk aliceToken aliceView) _ _ _ _ _).
  - unfold milliseconds. repeat constructor; discriminate.
  - split; constructor.
  - reflexivity.
  - vm_compute. reflexivity.
  - vm_compute. reflexivity.
Defined.

(** Somebody else asks for alice's email address. *)
Lemma Register_twice_on_alice :
  isOk (result (run (production specHasher)
                  (Register (RegisterRequest.mk "alicia" "alice@example.com"
                               "hunter2")) aliceWorld)) = false
  /\ users (final (run (production specHasher)
                     (Register (RegisterRequest.mk "alicia"
                                  "alice@example.com" "hunter2")) aliceWorld))
     = users aliceWorld
  /\ (failsWith
        (result (run (production specHasher)
                   (Register (RegisterRequest.mk "alicia" "alice@example.com"
                                "hunter2")) aliceWorld))
        ErrUserExists = true
      \/ exists err,
           result (run (production specHasher)
                     (Register (RegisterRequest.mk "alicia" "alice@example.com"
                                  "hunter2")) aliceWorld)
           = Err (Errorf "hash password: %w" [] err)).
Proof.
  assert (Hok : result (run (production specHasher) (Register alice) emptyWorld)
                = Ok (AuthResponse.mk aliceToken aliceView)).
  { vm_compute. reflexivity. }
  pose proof (Register_twice specHasher emptyWorld alice
                (RegisterRequest.mk "alicia" "alice@example.com" "hunter2")
                (AuthResponse.mk aliceToken aliceView) Hok
                (or_intror eq_refl)) as (Hfails & Husers & Hkind).
  split; [exact Hfails |]. split; [exact Husers |].
  exact (Hkind eq_refl eq_refl eq_refl eq_refl).
Defined.

(** Bob, who is unknown, and alice with a wrong password get one reply. *)
Lemma Login_replies_to_bob_and_to_alice :
  replies (snd (serve (production specHasher)
                  (webv1.Login loginContext
                     (Ok (LoginRequest.mk "bob" "password123"))) aliceWorld))
  = [mkReply StatusUnauthorized (ErrorText "Invalid credentials")]
  /\ replies (snd (serve (production specHasher)
                     (webv1.Login loginContext
                        (Ok (LoginRequest.mk "alice" "wrongpass")))
                     aliceWorld))
     = [mkReply StatusUnauthorized (ErrorText "Invalid credentials")].
Proof.
  split.
  - apply (proj1 (Login_reply_hides_whether_the_user_exists World
                    (production specHasher) loginContext aliceWorld
                    (LoginRequest.mk "bob" "password123")) aliceWorld).
    vm_compute. reflexivity.
  - apply (proj2 (Login_reply_hides_whether_the_user_exists World
                    (production specHasher) loginContext aliceWorld
                    (LoginRequest.mk "alice" "wrongpass"))
             aliceRow (Bcrypt ErrMismatchedHashAndPassword)
             aliceWorld aliceWorld).
    + vm_compute. reflexivity.
    + vm_compute. reflexivity.
Defined.

(** The lost race for "alice", seen from the client. *)
Lemma Register_replies_in_the_race :
  replies (snd (serve (interleaved (production specHasher))
                  (webv1.Register registerContext (Ok alice)) raceStart))
  = [mkReply StatusInternalServerError (ErrorText "Internal server error")].
Proof.
  refine (proj2 (proj2 (Register_replies _
                          (interleaved (production specHasher))
                          registerContext alice aliceDigest raceStart
                          ([(fun w => w); rivalInsert],
                           setEntropy emptyWorld [salt2])
                          ([rivalInsert], setEntropy emptyWorld [salt2]) _))
            unique_violation
            ([], snd (PgxUserRepository_Create "alice" "alice@example.com"
                        aliceDigest
                        (rivalInsert (setEntropy emptyWorld [salt2]))))
            _ _);
    vm_compute; reflexivity.
Defined.

(** GetMe hands alice's token, and nothing else, to the service. *)
Lemma GetMe_reads_the_token_of_alice :
  served (snd (serve (production specHasher) (webv1.GetMe meContext)
                 aliceWorld))
  = [trace (run (production specHasher) (GetUserByToken aliceToken)
              aliceWorld)]
  /\ fst (serve (production specHasher) (webv1.GetMe meContext) aliceWorld)
     = final (run (production specHasher) (GetUserByToken aliceToken)
                aliceWorld).
Proof.
  apply (proj2 (proj2 (GetMe_reads_the_bearer_token World
                         (production specHasher) meContext aliceWorld))
           aliceToken).
  - discriminate.
  - reflexivity.
Defined.

(** GetMe answers alice with her own view. *)
Lemma GetMe_replies_to_alice :
  replies (snd (serve (production specHasher) (webv1.GetMe meContext)
                  aliceWorld))
  = [mkReply StatusOK (UserBody aliceView)].
Proof.
  refine (eq_trans
            (proj2 (GetMe_replies World (production specHasher) meContext
                      aliceToken aliceWorld _ _)
               (SessionRow.mk 1 "alice" "alice@example.com"
                  (clock aliceWorld + 24 * Hour))
               (clock aliceWorld) aliceWorld aliceWorld _ _) _).
  - discriminate.
  - reflexivity.
  - vm_compute. reflexivity.
  - reflexivity.
  - vm_compute. reflexivity.
Defined.

(** The traceparent of the W3C recommendation, split. *)
Lemma splitTraceParent_of_the_w3c_example :
  splitTraceParent w3cTraceParent = w3cFields.
Proof.
  apply (splitTraceParent_of_joined_fields w3cFields).
  repeat constructor.
Defined.

(** Its trace id wins over X-Trace-ID. *)
Lemma GetTraceID_of_the_w3c_example :
  GetTraceID (headers w3cTraceParent "abc") []
  = "4bf92f3577b34da6a3ce929d0e0e4736".
Proof.
  apply (proj1 (GetTraceID_precedence (headers w3cTraceParent "abc") [])
           "00" "4bf92f3577b34da6a3ce929d0e0e4736" ["00f067aa0ba902b7"; "01"]).
  - repeat constructor.
  - reflexivity.
Defined.

(** Without headers the sixteen bytes decide. *)
Lemma GetTraceID_without_headers :
  GetTraceID (headers "" "") (repeat "000"%char 16) <> "".
Proof.
  apply (GetTraceID_is_never_empty (headers "" "") (repeat "000"%char 16)).
  discriminate.
Defined.

(** A traceparent that lost its version. *)
Lemma GetTraceID_of_a_headless_traceparent :
  GetTraceID
    (headers "-4bf92f3577b34da6a3ce929d0e0e4736-00f067aa0ba902b7-01" "") []
  = "00f067aa0ba902b7".
Proof.
  apply (GetTraceID_skips_an_empty_version
           (headers "-4bf92f3577b34da6a3ce929d0e0e4736-00f067aa0ba902b7-01" "")
           [] "4bf92f3577b34da6a3ce929d0e0e4736" "00f067aa0ba902b7" ["01"]).
  - repeat constructor.
  - reflexivity.
Defined.
